(** * docqa: document question answering pipeline

    A shallow embedding of
      - [src/docqa/ext/pipeline.py]: box normalization, Tesseract OCR glue,
        parameter sanitization, preprocessing, forward and postprocessing;
      - [src/docquery/ocr_processor.py]: the OCR processor classes;
      - [src/docqa/pipeline.py]: the [get_pipeline] factory;
    together with the properties the specification states about them.

    Python values are modelled as follows: [int] as [Z]; [float] as an
    IEEE-754 binary64 value ([spec_float] of the standard library, precision
    53, maximal exponent 1024, round to nearest even); [str] as [string]
    (code points below 256); lists as [list]; dictionaries with known keys as
    records, an absent key as [None]; raising an exception as the [Raise]
    constructor of [result]; calls into external libraries as events of a
    trace. *)

From Stdlib Require Import ZArith List String Ascii Bool Lia DecimalString.
From Stdlib Require Import QArith Qminmax Permutation Sorted.
From Stdlib Require Import Floats.SpecFloat.
Import ListNotations.

Local Open Scope string_scope.
Local Open Scope list_scope.
Local Open Scope Z_scope.

(** ** Exceptions and fallible computations *)

Inductive exn : Type :=
| ValueError (msg : string)
| TypeError (msg : string)
| ZeroDivisionError
| OverflowError
| IndexError
| AttributeError (name : string)
| NotImplementedError
| KeyError (key : string)
| AssertionError (msg : string)
| NoOCRReaderFound (e : string)
| SyntaxError (msg : string).

Inductive result (A : Type) : Type :=
| Ok (a : A)
| Raise (e : exn).

Arguments Ok {A} a.
Arguments Raise {A} e.

Definition bind {A B : Type} (m : result A) (k : A -> result B) : result B :=
  match m with
  | Ok a => k a
  | Raise e => Raise e
  end.

Declare Scope py_scope.
Delimit Scope py_scope with py.
Notation "x <- m ;; k" := (bind m (fun x => k))
  (at level 61, m at next level, right associativity) : py_scope.
Local Open Scope py_scope.

(** [l[i]] for a non-negative index. *)
Definition index {A : Type} (l : list A) (i : nat) : result A :=
  match nth_error l i with
  | Some x => Ok x
  | None => Raise IndexError
  end.

(** [[f(x) for x in l]] where [f] may raise. *)
Fixpoint mmap {A B : Type} (f : A -> result B) (l : list A) : result (list B) :=
  match l with
  | [] => Ok []
  | x :: l' => y <- f x ;; ys <- mmap f l' ;; Ok (y :: ys)
  end.

(** ** Python floats (binary64) *)

Module PyFloat.

Definition prec : Z := 53.
Definition emax : Z := 1024.

Definition float : Type := spec_float.

(** The exact value of an integer, as an (unnormalised) float operand. *)
Definition of_int (z : Z) : float :=
  match z with
  | Z0 => S754_zero false
  | Zpos p => S754_finite false p 0
  | Zneg p => S754_finite true p 0
  end.

(** [a / b] on two ints: the correctly rounded quotient. *)
Definition truediv (a b : Z) : result float :=
  if b =? 0 then Raise ZeroDivisionError
  else match SFdiv prec emax (of_int a) (of_int b) with
       | S754_infinity _ => Raise OverflowError
       | q => Ok q
       end.

(** [n * x] for an int [n] and a float [x]. *)
Definition mul_int (n : Z) (x : float) : float :=
  SFmul prec emax (of_int n) x.

(** [int(x)]: truncation toward zero. *)
Definition to_int (x : float) : result Z :=
  match x with
  | S754_zero _ => Ok 0
  | S754_finite s m e => Ok (cond_Zopp s (Z.shiftl (Zpos m) e))
  | S754_infinity _ => Raise OverflowError
  | S754_nan => Raise (ValueError "cannot convert float NaN to integer")
  end.

End PyFloat.

(** ** Box normalization *)

(** [int(1000 * (c / d))] *)
Definition scale (c d : Z) : result Z :=
  q <- PyFloat.truediv c d ;;
  PyFloat.to_int (PyFloat.mul_int 1000 q).

(** [normalize_box] of [docqa/ext/pipeline.py]. *)
Definition normalize_box (box : list Z) (width height : Z) : result (list Z) :=
  b0 <- index box 0 ;; c0 <- scale b0 width ;;
  b1 <- index box 1 ;; c1 <- scale b1 height ;;
  b2 <- index box 2 ;; c2 <- scale b2 width ;;
  b3 <- index box 3 ;; c3 <- scale b3 height ;;
  Ok [c0; c1; c2; c3].

(** [max(min(c, 1000), 0)] *)
Definition clamp (c : Z) : Z := Z.max (Z.min c 1000) 0.

Module OCRProcessor.

(** The static method [OCRProcessor.normalize_box] of
    [docquery/ocr_processor.py]. *)
Definition normalize_box (box : list Z) (width height : Z) : result (list Z) :=
  b0 <- index box 0 ;; c0 <- scale b0 width ;;
  b1 <- index box 1 ;; c1 <- scale b1 height ;;
  b2 <- index box 2 ;; c2 <- scale b2 width ;;
  b3 <- index box 3 ;; c3 <- scale b3 height ;;
  Ok (map clamp [c0; c1; c2; c3]).

End OCRProcessor.

(** ** Effects: calls into external components and log records *)

Inductive event : Type :=
| LogWarning (msg : string)
| CallLoadImage
| CallFeatureExtractor
| CallImageToData
| CallEasyOCRReader
| CallReadText
| CallTokenizer (text text_pair : list string)
| CallModel.

Definition trace : Type := list event.

(** A computation that may call external components (recorded, in order, in
    the trace) and may raise. *)
Definition Eff (A : Type) : Type := trace -> result A * trace.

Definition ret {A : Type} (a : A) : Eff A := fun tr => (Ok a, tr).

Definition raise {A : Type} (e : exn) : Eff A := fun tr => (Raise e, tr).

Definition ebind {A B : Type} (m : Eff A) (k : A -> Eff B) : Eff B :=
  fun tr =>
    match m tr with
    | (Ok a, tr') => k a tr'
    | (Raise e, tr') => (Raise e, tr')
    end.

Definition emit (ev : event) : Eff unit := fun tr => (Ok tt, tr ++ [ev]).

Definition lift {A : Type} (r : result A) : Eff A := fun tr => (r, tr).

Notation "x <~ m ;; k" := (ebind m (fun x => k))
  (at level 61, m at next level, right associativity) : py_scope.
Notation "m ;;; k" := (ebind m (fun _ => k))
  (at level 61, right associativity) : py_scope.

(** ** Strings: [str.strip] *)

(** A [str] is modelled as a [string] whose characters are the code points
    below 256.  Among these [str.isspace] accepts TAB, LF, VT, FF, CR
    (9 to 13), the separators FS, GS, RS, US and the space (28 to 32), NEL
    (133) and the no-break space (160). *)
Definition isspace (c : ascii) : bool :=
  let n := nat_of_ascii c in
  ((9 <=? n) && (n <=? 13) || (28 <=? n) && (n <=? 32) || (n =? 133) || (n =? 160))%nat.

Fixpoint lstrip (s : string) : string :=
  match s with
  | EmptyString => EmptyString
  | String c s' => if isspace c then lstrip s' else s
  end.

Fixpoint rstrip (s : string) : string :=
  match s with
  | EmptyString => EmptyString
  | String c s' =>
      match rstrip s' with
      | EmptyString => if isspace c then EmptyString else String c EmptyString
      | r => String c r
      end
  end.

Definition strip (s : string) : string := lstrip (rstrip s).

(** Truth value of a [str]: non-empty. *)
Definition truthy (s : string) : bool :=
  match s with
  | EmptyString => false
  | String _ _ => true
  end.

(** ** Comprehensions over [enumerate] *)

Definition enumerate {A : Type} (l : list A) : list (nat * A) :=
  combine (seq 0 (List.length l)) l.

(** [idx in indices] *)
Definition mem (idx : nat) (indices : list nat) : bool :=
  existsb (Nat.eqb idx) indices.

(** [[x for idx, x in enumerate(l) if idx not in indices]] *)
Definition drop_indices {A : Type} (indices : list nat) (l : list A) : list A :=
  map snd (filter (fun p => negb (mem (fst p) indices)) (enumerate l)).

(** [[idx for idx, word in enumerate(words) if not word.strip()]] *)
Definition blank_indices (words : list string) : list nat :=
  map fst (filter (fun p => negb (truthy (strip (snd p)))) (enumerate words)).

(** [zip(left, top, width, height)] *)
Fixpoint zip4 {A : Type} (l1 l2 l3 l4 : list A) : list (A * A * A * A) :=
  match l1, l2, l3, l4 with
  | a :: l1', b :: l2', c :: l3', d :: l4' => (a, b, c, d) :: zip4 l1' l2' l3' l4'
  | _, _, _, _ => []
  end.

(** ** External libraries used by the OCR code *)

(** The image library: a decoded image and its [size] attribute
    [(width, height)]. *)
Class PIL : Type := {
  Image : Type;
  size : Image -> Z * Z
}.

(** The dictionary [pytesseract.image_to_data(..., output_type="dict")]
    returns, restricted to the keys the code reads. *)
Record TessData : Type := {
  text : list string;
  left : list Z;
  top : list Z;
  width : list Z;
  height : list Z
}.

Class Pytesseract `{PIL} : Type := {
  image_to_data : Image -> option string -> option string -> TessData
}.

(** One EasyOCR detection: the four corner points (top-left, top-right,
    bottom-right, bottom-left), the text and the confidence. *)
Definition point : Type := list Z.
Definition detection : Type := (point * point * point * point) * string * Q.

Class EasyOCR `{PIL} : Type := {
  Reader : Type;
  easyocr_Reader : list string -> bool -> Reader;
  readtext : Reader -> Image -> list detection
}.

(** ** [apply_tesseract] of [docqa/ext/pipeline.py] *)

Definition assert_ (b : bool) (msg : string) : result unit :=
  if b then Ok tt else Raise (AssertionError msg).

Definition apply_tesseract `{Pytesseract} (image : Image)
    (lang tesseract_config : option string)
  : Eff (list string * list (list Z)) :=
  emit CallImageToData ;;;
  let data := image_to_data image lang tesseract_config in
  let '(words, left, top, width, height) :=
    (text data, left data, top data, width data, height data) in
  let irrelevant_indices := blank_indices words in
  let words := drop_indices irrelevant_indices words in
  let left := drop_indices irrelevant_indices left in
  let top := drop_indices irrelevant_indices top in
  let width := drop_indices irrelevant_indices width in
  let height := drop_indices irrelevant_indices height in
  let actual_boxes :=
    map (fun '(x, y, w, h) => [x; y; x + w; y + h]) (zip4 left top width height) in
  let '(image_width, image_height) := size image in
  lift (normalized_boxes <- mmap (fun box => normalize_box box image_width image_height)
                                 actual_boxes ;;
        _ <- assert_ (List.length words =? List.length normalized_boxes)%nat
                     "Not as many words as there are bounding boxes" ;;
        Ok (words, normalized_boxes)).

(** ** The OCR processors of [docquery/ocr_processor.py] *)

(** [str(n)] for an int. *)
Definition str_of_int (n : Z) : string := NilZero.string_of_int (Z.to_int n).

(** What the import-time probes of the module find. *)
Record Installed : Type := {
  pytesseract_importable : bool;
  tesseract_binary_found : bool;
  easyocr_importable : bool
}.

(** [import pytesseract] succeeded and [get_tesseract_version()] did not
    raise. *)
Definition TESSERACT_AVAILABLE (env : Installed) : bool :=
  pytesseract_importable env && tesseract_binary_found env.

Definition EASYOCR_AVAILABLE (env : Installed) : bool := easyocr_importable env.

Inductive processor_class : Type :=
| TesseractProcessor
| EasyOCRProcessor
| DummyProcessor.

(** An instance: its class and its attributes, [None] while an attribute has
    not been assigned.  [device] holds an [Optional[int]]. *)
Record processor `{EasyOCR} : Type := {
  cls : processor_class;
  device : option (option Z);
  reader : option (option Reader)
}.

Definition getattr {A : Type} (attr : option A) (name : string) : result A :=
  match attr with
  | Some v => Ok v
  | None => Raise (AttributeError name)
  end.

Section Processors.

Context `{Pytesseract} `{!EasyOCR}.
Variable env : Installed.

(** A freshly allocated instance, before [__init__] runs. *)
Definition allocate (c : processor_class) : processor :=
  {| cls := c; device := None; reader := None |}.

(** The [check_if_available] static method, dispatched on the class. *)
Definition check_if_available (c : processor_class) : Eff unit :=
  match c with
  | TesseractProcessor =>
      if negb (TESSERACT_AVAILABLE env) then
        raise (NoOCRReaderFound
                 "Unable to use pytesseract (OCR will be unavailable). Install tesseract to process images with OCR.")
      else ret tt
  | EasyOCRProcessor =>
      if negb (EASYOCR_AVAILABLE env) then
        raise (NoOCRReaderFound
                 "Unable to use easyocr (OCR will be unavailable). Install easyocr to process images with OCR.")
      else ret tt
  | DummyProcessor =>
      emit (LogWarning "Unable to find OCR processor might not be needed")
  end.

(** Binding the positional arguments [args] (after [self]) of a call to a
    method [name] that declares the parameters [params] after [self]. *)
Definition bind_args {A : Type} (name : string) (params : list string)
    (args : list A) : result (list A) :=
  if (List.length args <? List.length params)%nat then
    let missing := skipn (List.length args) params in
    Raise (TypeError (name ++ "() missing "
                        ++ str_of_int (Z.of_nat (List.length missing))
                        ++ " required positional argument"
                        ++ (if (List.length missing =? 1)%nat then "" else "s")
                        ++ ": "
                        ++ String.concat " and " (map (fun n => ("'" ++ n ++ "'")%string) missing)))
  else if (List.length params <? List.length args)%nat then
    Raise (TypeError (name ++ "() takes "
                        ++ str_of_int (Z.of_nat (S (List.length params)))
                        ++ " positional arguments but "
                        ++ str_of_int (Z.of_nat (S (List.length args)))
                        ++ " were given"))
  else Ok args.

(** [OCRProcessor.__init__(self, device)] *)
Definition OCRProcessor__init__ (self : processor) (args : list (option Z))
  : Eff processor :=
  bound <~ lift (bind_args "OCRProcessor.__init__" ["device"] args) ;;
  match bound with
  | [device] =>
      let self := {| cls := cls self; device := Some device; reader := reader self |} in
      check_if_available (cls self) ;;;
      ret self
  | _ => raise (TypeError "OCRProcessor.__init__")  (* not reached: one value is bound *)
  end.

(** [TesseractProcessor.__init__(self)]: [super().__init__()] *)
Definition TesseractProcessor__init__ (self : processor) (args : list (option Z))
  : Eff processor :=
  _ <~ lift (bind_args "TesseractProcessor.__init__" [] args) ;;
  OCRProcessor__init__ self [].

(** [EasyOCRProcessor.__init__(self)]: [super().__init__()], then
    [self.reader = None] *)
Definition EasyOCRProcessor__init__ (self : processor) (args : list (option Z))
  : Eff processor :=
  _ <~ lift (bind_args "EasyOCRProcessor.__init__" [] args) ;;
  self <~ OCRProcessor__init__ self [] ;;
  ret {| cls := cls self; device := device self; reader := Some None |}.

(** [DummyProcessor.__init__(self)]: [super().__init__()], then
    [self.reader = None] *)
Definition DummyProcessor__init__ (self : processor) (args : list (option Z))
  : Eff processor :=
  _ <~ lift (bind_args "DummyProcessor.__init__" [] args) ;;
  self <~ OCRProcessor__init__ self [] ;;
  ret {| cls := cls self; device := device self; reader := Some None |}.

(** Calling a processor class with positional arguments [args]. *)
Definition construct (c : processor_class) (args : list (option Z)) : Eff processor :=
  match c with
  | TesseractProcessor => TesseractProcessor__init__ (allocate c) args
  | EasyOCRProcessor => EasyOCRProcessor__init__ (allocate c) args
  | DummyProcessor => DummyProcessor__init__ (allocate c) args
  end.

(** [TesseractProcessor.apply_ocr(self, image)] *)
Definition TesseractProcessor_apply_ocr (self : processor) (image : Image)
  : Eff (list string * list (list Z)) :=
  emit CallImageToData ;;;
  let data := image_to_data image None (Some "") in
  let '(words, left, top, width, height) :=
    (text data, left data, top data, width data, height data) in
  let irrelevant_indices := blank_indices words in
  let words := drop_indices irrelevant_indices words in
  let left := drop_indices irrelevant_indices left in
  let top := drop_indices irrelevant_indices top in
  let width := drop_indices irrelevant_indices width in
  let height := drop_indices irrelevant_indices height in
  let actual_boxes :=
    map (fun '(x, y, w, h) => [x; y; x + w; y + h]) (zip4 left top width height) in
  let '(image_width, image_height) := size image in
  lift (normalized_boxes <-
          mmap (fun box => OCRProcessor.normalize_box box image_width image_height)
               actual_boxes ;;
        _ <- assert_ (List.length words =? List.length normalized_boxes)%nat
                     "Not as many words as there are bounding boxes" ;;
        Ok (words, normalized_boxes)).

(** [boxes, words, acc = ...]: the three columns of [data], transposed by
    [zip]; unpacking fails when [data] is empty. *)
Definition unzip3 (data : list detection)
  : result (list (point * point * point * point) * list string * list Q) :=
  match data with
  | [] => Raise (ValueError "not enough values to unpack (expected 3, got 0)")
  | _ => Ok (map (fun d => fst (fst d)) data, map (fun d => snd (fst d)) data,
             map snd data)
  end.

(** [EasyOCRProcessor.apply_ocr(self, image)]; returns the instance too, as
    the reader is created on first use and kept. *)
Definition EasyOCRProcessor_apply_ocr (self : processor) (image : Image)
  : Eff (processor * (list string * list (list Z))) :=
  r <~ lift (getattr (reader self) "reader") ;;
  self_rd <~ match r with
             | Some rd => ret (self, rd)
             | None =>
                 d <~ lift (getattr (device self) "device") ;;
                 match d with
                 | None =>
                     raise (TypeError "'>' not supported between instances of 'NoneType' and 'int'")
                 | Some dev =>
                     emit CallEasyOCRReader ;;;
                     let rd := easyocr_Reader ["en"] (-1 <? dev) in
                     ret ({| cls := cls self; device := device self;
                             reader := Some (Some rd) |}, rd)
                 end
             end ;;
  let '(self, rd) := self_rd in
  emit CallReadText ;;;
  let data := readtext rd image in
  lift (cols <- unzip3 data ;;
        let '(boxes, words, acc) := cols in
        let irrelevant_indices := blank_indices words in
        let words := drop_indices irrelevant_indices words in
        let boxes := drop_indices irrelevant_indices boxes in
        let actual_boxes := map (fun '(tl, tr, br, bl) => tl ++ br) boxes in
        let '(image_width, image_height) := size image in
        normalized_boxes <-
          mmap (fun box => OCRProcessor.normalize_box box image_width image_height)
               actual_boxes ;;
        _ <- assert_ (List.length words =? List.length normalized_boxes)%nat
                     "Not as many words as there are bounding boxes" ;;
        Ok (self, (words, normalized_boxes))).

(** [DummyProcessor.apply_ocr(self, image)] *)
Definition DummyProcessor_apply_ocr (self : processor) (image : Image)
  : Eff (processor * (list string * list (list Z))) :=
  raise (NoOCRReaderFound "Unable to find any OCR engine and OCR extraction was requested").

(** [self.apply_ocr(image)], dispatched on the class of [self]. *)
Definition apply_ocr (self : processor) (image : Image)
  : Eff (processor * (list string * list (list Z))) :=
  match cls self with
  | TesseractProcessor =>
      r <~ TesseractProcessor_apply_ocr self image ;; ret (self, r)
  | EasyOCRProcessor => EasyOCRProcessor_apply_ocr self image
  | DummyProcessor => DummyProcessor_apply_ocr self image
  end.

End Processors.

(** ** The document question answering pipeline of [docqa/ext/pipeline.py] *)

(** [str.split()] without arguments: the maximal runs of non-blank
    characters. *)
Fixpoint split_go (s : string) (cur : option string) : list string :=
  match s with
  | EmptyString => match cur with Some w => [w] | None => [] end
  | String c s' =>
      if isspace c then
        match cur with
        | Some w => w :: split_go s' None
        | None => split_go s' None
        end
      else
        split_go s' (Some (match cur with
                           | Some w => (w ++ String c EmptyString)%string
                           | None => String c EmptyString
                           end))
  end.

Definition split (s : string) : list string := split_go s None.

(** An image argument: a decoded image, or a string (URL or path). *)
Inductive ImageSource `{PIL} : Type :=
| Decoded (image : Image)
| Location (url_or_path : string).

(** The module [qa_helpers] the pipeline imports its helpers from: the two
    availability flags, the image loader and the span selection. *)
Class QAHelpers `{PIL} : Type := {
  TESSERACT_LOADED : bool;
  VISION_LOADED : bool;
  load_image : ImageSource -> result Image;
  select_starts_ends :
    list Q -> list Q -> list bool -> option (list Z) -> Q -> Z -> bool -> Z ->
    list nat * list nat * list Q * Q
}.

(** One span of the tokenizer's encoding. *)
Record Span : Type := {
  input_ids : list Z;
  token_type_ids : list Z;
  attention_mask : list Z;
  overflow_to_sample_mapping : Z;
  sequence_ids : list (option Z);
  word_ids : list (option nat)
}.

Class Tokenizer : Type := {
  padding_side : string;
  model_max_length : Z;
  cls_token_id : option Z;
  sep_token_id : option Z;
  (** [tokenizer(text, text_pair, padding, max_length, stride, ...)] *)
  tokenize : list string -> list string -> string -> Z -> Z -> list Span
}.

(** What the feature extractor returns: optionally a layout, and the rest. *)
Record ImageFeatures : Type := {
  fe_words : option (list string);
  fe_boxes : option (list (list Z));
  fe_rest : list (string * list Z)
}.

Definition no_features : ImageFeatures :=
  {| fe_words := None; fe_boxes := None; fe_rest := [] |}.

(** The inputs of the model for one span. *)
Record ModelInputs : Type := {
  mi_input_ids : list Z;
  mi_token_type_ids : list Z;
  mi_attention_mask : list Z;
  mi_image_features : ImageFeatures;
  mi_bbox : list (list Z)
}.

(** The pipeline instance: tokenizer, optional feature extractor, framework
    name and model. *)
Class Pipeline `{PIL} : Type := {
  tokenizer :: Tokenizer;
  feature_extractor : option (Image -> ImageFeatures);
  framework : string;
  model : ModelInputs -> list Q * list Q
}.

(** The input dictionary: [None] for an absent key (for ["image"], also for
    the value [None]). *)
Record Input `{PIL} : Type := {
  in_image : option ImageSource;
  in_question : option string;
  in_word_boxes : option (list (string * list Z))
}.

(** The keyword arguments of a call. *)
Record CallParams : Type := {
  padding : option string;
  doc_stride : option Z;
  max_question_len : option Z;
  lang : option string;
  tesseract_config : option string;
  max_answer_len : option Z;
  max_seq_len : option Z;
  top_k : option Z;
  handle_impossible_answer : option bool
}.

Record PreprocessParams : Type := {
  pre_padding : option string;
  pre_doc_stride : option Z;
  pre_max_question_len : option Z;
  pre_max_seq_len : option Z;
  pre_lang : option string;
  pre_tesseract_config : option string
}.

Record PostprocessParams : Type := {
  post_top_k : option Z;
  post_max_answer_len : option Z;
  post_handle_impossible_answer : option bool
}.

(** [_sanitize_parameters]; the middle (forward) dictionary is always
    empty. *)
Definition _sanitize_parameters (kw : CallParams)
  : result (PreprocessParams * unit * PostprocessParams) :=
  let preprocess_params :=
    {| pre_padding := padding kw;
       pre_doc_stride := doc_stride kw;
       pre_max_question_len := max_question_len kw;
       pre_max_seq_len := max_seq_len kw;
       pre_lang := lang kw;
       pre_tesseract_config := tesseract_config kw |} in
  post_top_k <-
    match top_k kw with
    | Some k =>
        if k <? 1 then
          Raise (ValueError ("top_k parameter should be >= 1 (got " ++ str_of_int k ++ ")"))
        else Ok (Some k)
    | None => Ok None
    end ;;
  post_max_answer_len <-
    match max_answer_len kw with
    | Some m =>
        if m <? 1 then
          Raise (ValueError ("max_answer_len parameter should be >= 1 (got " ++ str_of_int m))
        else Ok (Some m)
    | None => Ok None
    end ;;
  Ok (preprocess_params, tt,
      {| post_top_k := post_top_k;
         post_max_answer_len := post_max_answer_len;
         post_handle_impossible_answer := handle_impossible_answer kw |}).

(** A chunk, as [preprocess] yields it. *)
Record Chunk : Type := {
  ch_inputs : ModelInputs;
  ch_overflow_to_sample_mapping : Z;
  ch_p_mask : list bool;
  ch_word_ids : list (option nat);
  ch_words : list string
}.

(** A model output with the auxiliary fields [_forward] reattaches. *)
Record ModelOutput : Type := {
  out_start_logits : list Q;
  out_end_logits : list Q;
  out_p_mask : list bool;
  out_word_ids : list (option nat);
  out_words : list string;
  out_attention_mask : option (list Z)
}.

Record Answer : Type := {
  score : Q;
  answer : string;
  start : nat;
  end_ : nat
}.

(** What [postprocess] returns: one record, or a list of records. *)
Inductive Answers : Type :=
| Single (a : Answer)
| Many (l : list Answer).

(** [zip(a, b, c)] *)
Fixpoint zip3 {A B C : Type} (a : list A) (b : list B) (c : list C) : list (A * B * C) :=
  match a, b, c with
  | x :: a', y :: b', z :: c' => (x, y, z) :: zip3 a' b' c'
  | _, _, _ => []
  end.

(** [l[a:b]] for non-negative [a], [b]. *)
Definition slice {A : Type} (l : list A) (a b : nat) : list A :=
  firstn (b - a) (skipn a l).

(** [l[:k]] for an int [k] of either sign. *)
Definition take {A : Type} (k : Z) (l : list A) : list A :=
  if 0 <=? k then firstn (Z.to_nat k) l
  else firstn (Z.to_nat (Z.of_nat (List.length l) + k)) l.

(** [sorted(answers, key=lambda x: x["score"], reverse=True)]: a stable sort,
    larger scores first, equal scores in their original order. *)
Fixpoint insert_desc (a : Answer) (l : list Answer) : list Answer :=
  match l with
  | [] => [a]
  | b :: l' =>
      if Qle_bool (score a) (score b) then b :: insert_desc a l'
      else a :: b :: l'
  end.

Definition sorted_desc (answers : list Answer) : list Answer :=
  fold_left (fun acc a => insert_desc a acc) answers [].

(** Running a generator body over a list: the items yielded, and the
    exception that ended the iteration, if any. *)
Fixpoint generate {A B : Type} (f : A -> result B) (l : list A) : list B * option exn :=
  match l with
  | [] => ([], None)
  | x :: l' =>
      match f x with
      | Ok y => let '(ys, e) := generate f l' in (y :: ys, e)
      | Raise e => ([], Some e)
      end
  end.

(** [for x in l: f(x)] for an effectful body, collecting the results. *)
Fixpoint emap {A B : Type} (f : A -> Eff B) (l : list A) : Eff (list B) :=
  match l with
  | [] => ret []
  | x :: l' => y <~ f x ;; ys <~ emap f l' ;; ret (y :: ys)
  end.

Section DocumentQuestionAnsweringPipeline.

Context `{Pytesseract} `{!QAHelpers} `{!Pipeline}.

(** [preprocess], lines 220-230: decoding the image and running the
    feature extractor. *)
Definition preprocess_image (input : Input) : Eff (option Image * ImageFeatures) :=
  match in_image input with
  | Some src =>
      if negb VISION_LOADED then
        raise (ValueError
                 "If you provide an image, then the pipeline will run process it with PIL (Pillow), but PIL is not available. Install it with pip install Pillow.")
      else
        emit CallLoadImage ;;;
        image <~ lift (load_image src) ;;
        match feature_extractor with
        | Some fe => emit CallFeatureExtractor ;;; ret (Some image, fe image)
        | None => ret (Some image, no_features)
        end
  | None => ret (None, no_features)
  end.

(** [preprocess], lines 232-250: the words and boxes, from the explicit
    [word_boxes], else from the feature extractor, else from OCR. *)
Definition preprocess_words_boxes (input : Input) (image : option Image)
    (image_features : ImageFeatures) (lang : option string) (tesseract_config : string)
  : Eff (list string * list (list Z) * ImageFeatures) :=
  match in_word_boxes input with
  | Some word_boxes =>
      ret (map fst word_boxes, map snd word_boxes, image_features)
  | None =>
      match fe_words image_features, fe_boxes image_features with
      | Some words, Some boxes =>
          ret (words, boxes,
               {| fe_words := None; fe_boxes := None;
                  fe_rest := fe_rest image_features |})
      | _, _ =>
          match image with
          | Some image =>
              if negb TESSERACT_LOADED then
                raise (ValueError
                         "If you provide an image without word_boxes, then the pipeline will run OCR using Tesseract, but pytesseract is not available. Install it with pip install pytesseract.")
              else
                wb <~ apply_tesseract image lang (Some tesseract_config) ;;
                ret (fst wb, snd wb, image_features)
          | None =>
              raise (ValueError
                       "You must provide an image or word_boxes. If you provide an image, the pipeline will automatically run OCR to derive words and boxes")
          end
      end
  end.

(** [torch.tensor(rows)] on a list of lists of ints: the rows must have
    one length. *)
Definition torch_tensor (rows : list (list Z)) : result (list (list Z)) :=
  match rows with
  | [] => Ok []
  | row :: rest =>
      if forallb (fun r => (List.length r =? List.length row)%nat) rest then Ok rows
      else Raise (ValueError
                    ("expected sequence of length "
                       ++ str_of_int (Z.of_nat (List.length row)) ++ " at dim 1"))
  end.

(** [p_mask[span_idx][cls_index] = 0] *)
Definition unmask (p_mask : list bool) (cls_index : nat) : result (list bool) :=
  if (cls_index <? List.length p_mask)%nat then
    Ok (firstn cls_index p_mask ++ false :: skipn (S cls_index) p_mask)
  else Raise IndexError.

Fixpoint unmask_all (p_mask : list bool) (cls_indices : list nat) : result (list bool) :=
  match cls_indices with
  | [] => Ok p_mask
  | i :: rest => m <- unmask p_mask i ;; unmask_all m rest
  end.

(** [np.nonzero(np.array(ids) == tok)[0]] *)
Definition positions (ids : list Z) (tok : Z) : list nat :=
  map fst (filter (fun p => snd p =? tok) (enumerate ids)).

Definition is_one (s : option Z) : bool :=
  match s with
  | Some v => v =? 1
  | None => false
  end.

(** [preprocess], lines 277-315: the body of the loop over the spans. *)
Definition preprocess_span (words : list string) (boxes : list (list Z))
    (image_features : ImageFeatures) (span : Span) : result Chunk :=
  _ <- (if (framework =? "pt")%string then Ok tt
        else Raise (ValueError
                      "Unsupported: Tensorflow preprocessing for DocumentQuestionAnsweringPipeline")) ;;
  let p_mask := map (fun tok => negb (is_one tok)) (sequence_ids span) in
  p_mask <- match cls_token_id with
            | Some cid => unmask_all p_mask (positions (input_ids span) cid)
            | None => Ok p_mask
            end ;;
  bbox <- mmap (fun '(i, s, w) =>
                  if is_one s then
                    match w with
                    | Some w => index boxes w
                    | None => Raise (TypeError
                                       "list indices must be integers or slices, not NoneType")
                    end
                  else if match sep_token_id with
                          | Some sep => i =? sep
                          | None => false
                          end
                  then Ok [1000; 1000; 1000; 1000]
                  else Ok [0; 0; 0; 0])
               (zip3 (input_ids span) (sequence_ids span) (word_ids span)) ;;
  bbox <- torch_tensor bbox ;;
  Ok {| ch_inputs := {| mi_input_ids := input_ids span;
                        mi_token_type_ids := token_type_ids span;
                        mi_attention_mask := attention_mask span;
                        mi_image_features := image_features;
                        mi_bbox := bbox |};
        ch_overflow_to_sample_mapping := overflow_to_sample_mapping span;
        ch_p_mask := p_mask;
        ch_word_ids := word_ids span;
        ch_words := words |}.

(** [preprocess]: a generator; what precedes the loop runs (and may raise)
    before the first chunk is yielded.  The result is the list of the chunks
    yielded and the exception that ended the loop, if any.  (The parameter
    [word_boxes] of the signature is not read by the body.) *)
Definition preprocess (input : Input) (padding : string) (doc_stride : option Z)
    (max_question_len : Z) (max_seq_len : option Z) (lang : option string)
    (tesseract_config : string) : Eff (list Chunk * option exn) :=
  let max_seq_len :=
    match max_seq_len with
    | None => Z.min model_max_length 512
    | Some v => v
    end in
  let doc_stride :=
    match doc_stride with
    | None => Z.min (max_seq_len / 2) 128
    | Some v => v
    end in
  image_and_features <~ preprocess_image input ;;
  let '(image, image_features) := image_and_features in
  resolved <~ preprocess_words_boxes input image image_features lang tesseract_config ;;
  let '(words, boxes, image_features) := resolved in
  if negb (padding_side =? "right")%string then
    raise (ValueError
             ("Document question answering only supports tokenizers whose padding side is 'right', not "
                ++ padding_side))
  else
    question <~ lift (match in_question input with
                      | Some q => Ok q
                      | None => Raise (KeyError "question")
                      end) ;;
    emit (CallTokenizer (split question) words) ;;;
    let encoding := tokenize (split question) words padding max_seq_len doc_stride in
    ret (generate (preprocess_span words boxes image_features) encoding).

(** [_forward] *)
Definition _forward (model_inputs : Chunk) : Eff ModelOutput :=
  let p_mask := ch_p_mask model_inputs in
  let word_ids := ch_word_ids model_inputs in
  let words := ch_words model_inputs in
  emit CallModel ;;;
  let '(start_logits, end_logits) := model (ch_inputs model_inputs) in
  ret {| out_start_logits := start_logits;
         out_end_logits := end_logits;
         out_p_mask := p_mask;
         out_word_ids := word_ids;
         out_words := words;
         out_attention_mask := Some (mi_attention_mask (ch_inputs model_inputs)) |}.

(** [postprocess], lines 352-363: the inner loop over the selected spans. *)
Fixpoint postprocess_spans (words : list string) (word_ids : list (option nat))
    (selected : list (nat * nat * Q)) (answers : list Answer) : result (list Answer) :=
  match selected with
  | [] => Ok answers
  | (s, e, score) :: rest =>
      word_start <- index word_ids s ;;
      word_end <- index word_ids e ;;
      match word_start, word_end with
      | Some word_start, Some word_end =>
          postprocess_spans words word_ids rest
            (answers ++ [{| score := score;
                            answer := String.concat " " (slice words word_start (word_end + 1));
                            start := word_start;
                            end_ := word_end |}])
      | _, _ => postprocess_spans words word_ids rest answers
      end
  end.

(** [postprocess], lines 335-363: the loop over the model outputs. *)
Fixpoint postprocess_outputs (model_outputs : list ModelOutput) (top_k : Z)
    (handle_impossible_answer : bool) (max_answer_len : Z)
    (min_null_score : Q) (answers : list Answer) : result (Q * list Answer) :=
  match model_outputs with
  | [] => Ok (min_null_score, answers)
  | output :: rest =>
      let words := out_words output in
      let '(starts, ends, scores, min_null_score) :=
        select_starts_ends (out_start_logits output) (out_end_logits output)
          (out_p_mask output) (out_attention_mask output)
          min_null_score top_k handle_impossible_answer max_answer_len in
      let word_ids := out_word_ids output in
      answers <- postprocess_spans words word_ids (zip3 starts ends scores) answers ;;
      postprocess_outputs rest top_k handle_impossible_answer max_answer_len
        min_null_score answers
  end.

(** [postprocess] *)
Definition postprocess (model_outputs : list ModelOutput) (top_k : Z)
    (handle_impossible_answer : bool) (max_answer_len : Z) : result Answers :=
  let min_null_score := 1000000%Q in
  r <- postprocess_outputs model_outputs top_k handle_impossible_answer
         max_answer_len min_null_score [] ;;
  let '(min_null_score, answers) := r in
  let answers :=
    if handle_impossible_answer then
      answers ++ [{| score := min_null_score; answer := ""; start := 0; end_ := 0 |}]
    else answers in
  let answers := take top_k (sorted_desc answers) in
  if (List.length answers =? 1)%nat then
    match answers with
    | a :: _ => Ok (Single a)
    | [] => Ok (Many answers)
    end
  else Ok (Many answers).

(** The two ways of calling the pipeline: with a [str] question (and an
    image, and possibly word boxes), or with a prepared input. *)
Inductive CallArgs : Type :=
| ByKeywords (image : option ImageSource) (question : string)
             (word_boxes : option (list (string * list Z)))
| ByInput (inputs : Input).

Definition default {A : Type} (d : A) (o : option A) : A :=
  match o with
  | Some v => v
  | None => d
  end.

(** The host framework's protocol for one input: iterate [preprocess],
    forward every chunk as it is yielded, then [postprocess] all the
    outputs; absent parameters take the defaults of the signatures. *)
Definition run_single (inputs : Input) (pre : PreprocessParams)
    (post : PostprocessParams) : Eff Answers :=
  gen <~ preprocess inputs (default "do_not_pad" (pre_padding pre))
           (pre_doc_stride pre) (default 64 (pre_max_question_len pre))
           (pre_max_seq_len pre) (pre_lang pre)
           (default "" (pre_tesseract_config pre)) ;;
  let '(chunks, stopped) := gen in
  all_outputs <~ emap _forward chunks ;;
  match stopped with
  | Some e => raise e
  | None =>
      lift (postprocess all_outputs (default 1 (post_top_k post))
              (default false (post_handle_impossible_answer post))
              (default 15 (post_max_answer_len post)))
  end.

(** [__call__]: builds the input, then hands over to the host framework,
    which sanitizes the keyword arguments before anything else. *)
Definition __call__ (args : CallArgs) (kwargs : CallParams) : Eff Answers :=
  let inputs :=
    match args with
    | ByKeywords image question word_boxes =>
        {| in_image := image; in_question := Some question;
           in_word_boxes := word_boxes |}
    | ByInput inputs => inputs
    end in
  params <~ lift (_sanitize_parameters kwargs) ;;
  let '(preprocess_params, _, postprocess_params) := params in
  run_single inputs preprocess_params postprocess_params.

End DocumentQuestionAnsweringPipeline.

(** ** The factory of [docqa/pipeline.py] *)

Module Factory.

Definition CHECKPOINT : string := "impira/layoutlm-document-qa".
Definition REVISION : string := "02daaaf614d4ae08fa6a1d51693baaf7de819585".

(** Bracket matching, as the Python tokenizer performs it on a statement
    without string literals: a closing bracket must close the innermost
    open one, and no bracket may stay open. *)
Definition opening (c : ascii) : option ascii :=
  if Ascii.eqb c "(" then Some ")"%char
  else if Ascii.eqb c "[" then Some "]"%char
  else if Ascii.eqb c "{" then Some "}"%char
  else None.

Definition closing (c : ascii) : bool :=
  Ascii.eqb c ")" || Ascii.eqb c "]" || Ascii.eqb c "}".

Fixpoint brackets (s : string) (stack : list ascii) : result unit :=
  match s with
  | EmptyString =>
      match stack with
      | [] => Ok tt
      | _ => Raise (SyntaxError "bracket was never closed")
      end
  | String c s' =>
      match opening c with
      | Some close => brackets s' (close :: stack)
      | None =>
          if closing c then
            match stack with
            | expected :: stack' =>
                if Ascii.eqb c expected then brackets s' stack'
                else Raise (SyntaxError
                              "closing parenthesis does not match opening parenthesis")
            | [] => Raise (SyntaxError "unmatched closing parenthesis")
            end
          else brackets s' stack
      end
  end.

(** Line 70 of the module, inside the body of [get_pipeline]. *)
Definition line_70 : string := "    pipeline_kwargs = {device : device)}".

(** Importing the module compiles all of it, line 70 included. *)
Definition import_module : result unit := brackets line_70 [].

Inductive ConfigClass : Type := LayoutLMConfig | AutoConfig.

Inductive ModelRef : Type :=
| LayoutLMForQuestionAnswering_from_pretrained (checkpoint : string)
                                               (revision : option string)
| ByName (checkpoint : string).

(** The state of [get_pipeline] after line 68. *)
Record Resolved : Type := {
  r_checkpoint : string;
  r_revision : option string;
  r_device : string;
  r_config : ConfigClass;
  r_add_prefix_space : bool;
  r_model : ModelRef
}.

(** Lines 42-68 of [get_pipeline]. *)
Definition get_pipeline_resolve (cuda_is_available : bool)
    (checkpoint revision device : option string) : Resolved :=
  let checkpoint :=
    match checkpoint with
    | None => CHECKPOINT
    | Some c => c
    end in
  let revision :=
    if (checkpoint =? CHECKPOINT)%string
       && match revision with None => true | Some _ => false end
    then Some REVISION else revision in
  let device :=
    match device with
    | None => if cuda_is_available then "cuda:0" else "cpu"
    | Some d => d
    end in
  let '(config, add_prefix_space) :=
    if (checkpoint =? CHECKPOINT)%string then (LayoutLMConfig, true)
    else (AutoConfig, false) in
  let model :=
    if (checkpoint =? CHECKPOINT)%string
    then LayoutLMForQuestionAnswering_from_pretrained checkpoint revision
    else ByName checkpoint in
  {| r_checkpoint := checkpoint; r_revision := revision; r_device := device;
     r_config := config; r_add_prefix_space := add_prefix_space;
     r_model := model |}.

(** Calling [get_pipeline] from a client: the module is imported first. *)
Definition get_pipeline (cuda_is_available : bool)
    (checkpoint revision device : option string) : result Resolved :=
  _ <- import_module ;;
  Ok (get_pipeline_resolve cuda_is_available checkpoint revision device).

End Factory.

(** ** The span selection of the helper module *)

Module QAHelpersSpec.

(** The value the logits of excluded positions are set to. *)
Definition sentinel : Q := (-10000)%Q.

Definition masked (p_mask : list bool) (attention_mask : option (list Z)) (i : nat) : bool :=
  nth i p_mask false
  || match attention_mask with
     | Some am => nth i am 1 =? 0
     | None => false
     end.

Definition mask_logits (logits : list Q) (p_mask : list bool)
    (attention_mask : option (list Z)) : list Q :=
  map (fun p => if masked p_mask attention_mask (fst p) then sentinel else snd p)
      (enumerate logits).

(** All pairs [(start, end)] with [start <= end] and
    [end - start < max_answer_len], in their original order. *)
Definition candidates (n : nat) (max_answer_len : Z) : list (nat * nat) :=
  flat_map (fun s =>
              map (fun e => (s, e))
                  (filter (fun e => (s <=? e)%nat && (Z.of_nat (e - s) <? max_answer_len))
                          (seq 0 n)))
           (seq 0 n).

Fixpoint insert_by_score (x : nat * nat * Q) (l : list (nat * nat * Q))
  : list (nat * nat * Q) :=
  match l with
  | [] => [x]
  | y :: l' =>
      if Qle_bool (snd x) (snd y) then y :: insert_by_score x l'
      else x :: y :: l'
  end.

(** Modelled from the spec: [select_starts_ends] of the helper module
    [qa_helpers], which is not part of the sources; section 4.2 of the
    specification, steps 1 to 3.  The classification token is taken to be
    at position 0, and the sentinel to be -10000. *)
Definition select_starts_ends (start_logits end_logits : list Q) (p_mask : list bool)
    (attention_mask : option (list Z)) (min_null_score : Q) (top_k : Z)
    (handle_impossible_answer : bool) (max_answer_len : Z)
  : list nat * list nat * list Q * Q :=
  let start_ := mask_logits start_logits p_mask attention_mask in
  let end_ := mask_logits end_logits p_mask attention_mask in
  let null_score := (nth 0 start_ 0 + nth 0 end_ 0)%Q in
  let min_null_score := Qmin min_null_score null_score in
  let scored :=
    map (fun p => (fst p, snd p, (nth (fst p) start_ 0 + nth (snd p) end_ 0)%Q))
        (candidates (List.length start_) max_answer_len) in
  let ranked := fold_left (fun acc x => insert_by_score x acc) scored [] in
  let best := firstn (Z.to_nat top_k) ranked in
  (map (fun t => fst (fst t)) best, map (fun t => snd (fst t)) best,
   map snd best, min_null_score).

End QAHelpersSpec.

(** ** Vocabulary of the statements *)

(** A string without a non-blank character: empty, or all whitespace. *)
Fixpoint all_space (s : string) : bool :=
  match s with
  | EmptyString => true
  | String c s' => isspace c && all_space s'
  end.

(** The positions of the detections whose text is not blank, in order. *)
Definition nonblank_indices (words : list string) : list nat :=
  filter (fun i => negb (all_space (nth i words ""))) (seq 0 (List.length words)).

(** The pixel box [[left, top, left + width, top + height]] of detection
    [i]. *)
Definition box_at (data : TessData) (i : nat) : list Z :=
  let x := nth i (left data) 0 in
  let y := nth i (top data) 0 in
  let w := nth i (width data) 0 in
  let h := nth i (height data) 0 in
  [x; y; x + w; y + h].

(** The five columns describe the same detections. *)
Definition columns_aligned (data : TessData) : Prop :=
  List.length (left data) = List.length (text data) /\
  List.length (top data) = List.length (text data) /\
  List.length (width data) = List.length (text data) /\
  List.length (height data) = List.length (text data).

(** The top-left and bottom-right corners of a detected quadrilateral. *)
Definition corners (quad : point * point * point * point) : list Z :=
  let '(tl, tr, br, bl) := quad in tl ++ br.

(** The message of the [TypeError] for a call of the base initializer without
    its [device]. *)
Definition missing_device : string :=
  "OCRProcessor.__init__() missing 1 required positional argument: 'device'".

(** [a] ranks at least as high as [b]. *)
Definition ge_score (a b : Answer) : Prop := (score b <= score a)%Q.

(** The answers of a result, as a list. *)
Definition answers_of (r : Answers) : list Answer :=
  match r with
  | Single a => [a]
  | Many l => l
  end.

(** The synthetic no-answer record. *)
Definition null_answer (min_null_score : Q) : Answer :=
  {| score := min_null_score; answer := ""; start := 0; end_ := 0 |}.

(** The answers a model output contributes: one for each selected span
    whose two boundary tokens both belong to a word. *)
Definition surviving (words : list string) (word_ids : list (option nat))
    (selected : list (nat * nat * Q)) : list Answer :=
  flat_map (fun '(s, e, sc) =>
              match nth_error word_ids s, nth_error word_ids e with
              | Some (Some word_start), Some (Some word_end) =>
                  [{| score := sc;
                      answer := String.concat " " (slice words word_start (word_end + 1));
                      start := word_start;
                      end_ := word_end |}]
              | _, _ => []
              end)
           selected.

(** The selected spans are token positions of the chunk. *)
Definition in_range (word_ids : list (option nat)) (selected : list (nat * nat * Q)) : Prop :=
  Forall (fun '(s, e, _) =>
            (s < List.length word_ids)%nat /\ (e < List.length word_ids)%nat)
         selected.

(** Every selected span has a boundary token that belongs to no word. *)
Definition all_dropped (word_ids : list (option nat)) (selected : list (nat * nat * Q)) : Prop :=
  Forall (fun '(s, e, _) =>
            exists word_start word_end,
              nth_error word_ids s = Some word_start /\
              nth_error word_ids e = Some word_end /\
              (word_start = None \/ word_end = None))
         selected.

Section Candidates.

Context `{QAHelpers}.

(** The spans selected for one output, and the updated minimum null score. *)
Definition selected (output : ModelOutput) (min_null_score : Q) (top_k : Z)
    (handle_impossible_answer : bool) (max_answer_len : Z) : list (nat * nat * Q) * Q :=
  let '(starts, ends, scores, min_null_score) :=
    select_starts_ends (out_start_logits output) (out_end_logits output)
      (out_p_mask output) (out_attention_mask output)
      min_null_score top_k handle_impossible_answer max_answer_len in
  (zip3 starts ends scores, min_null_score).

(** The candidate answers of all the outputs, in order. *)
Fixpoint merged (model_outputs : list ModelOutput) (top_k : Z)
    (handle_impossible_answer : bool) (max_answer_len : Z) (min_null_score : Q)
  : list Answer :=
  match model_outputs with
  | [] => []
  | output :: rest =>
      let sel := selected output min_null_score top_k handle_impossible_answer
                   max_answer_len in
      surviving (out_words output) (out_word_ids output) (fst sel)
      ++ merged rest top_k handle_impossible_answer max_answer_len (snd sel)
  end.

(** The minimum null score after all the outputs. *)
Fixpoint final_null_score (model_outputs : list ModelOutput) (top_k : Z)
    (handle_impossible_answer : bool) (max_answer_len : Z) (min_null_score : Q) : Q :=
  match model_outputs with
  | [] => min_null_score
  | output :: rest =>
      final_null_score rest top_k handle_impossible_answer max_answer_len
        (snd (selected output min_null_score top_k handle_impossible_answer
                max_answer_len))
  end.

(** All the candidates [postprocess] ranks. *)
Definition candidates (model_outputs : list ModelOutput) (top_k : Z)
    (handle_impossible_answer : bool) (max_answer_len : Z) : list Answer :=
  merged model_outputs top_k handle_impossible_answer max_answer_len 1000000%Q
  ++ (if handle_impossible_answer then
        [null_answer (final_null_score model_outputs top_k handle_impossible_answer
                        max_answer_len 1000000%Q)]
      else []).

(** Every output's selected spans are token positions of its chunk. *)
Definition well_formed (model_outputs : list ModelOutput) (top_k : Z)
    (handle_impossible_answer : bool) (max_answer_len : Z) : Prop :=
  Forall (fun output =>
            forall m, in_range (out_word_ids output)
                        (fst (selected output m top_k handle_impossible_answer
                                max_answer_len)))
         model_outputs.

End Candidates.

(** ** The normalization formula of the specification *)

(** [round(n / d)] on the exact quotient, for [0 < d]: to the nearest
    integer, halves to the even one. *)
Definition round_half_even (n d : Z) : Z :=
  let q := n / d in
  let r := n mod d in
  if 2 * r <? d then q
  else if d <? 2 * r then q + 1
  else if Z.even q then q else q + 1.

(** The normalization as the specification words it:
    [round(1000 * coordinate / dimension)], clamped to [[0, 1000]]. *)
Definition normalize_box_spec (box : list Z) (width height : Z) : list Z :=
  match box with
  | [l; t; r; b] =>
      map clamp [round_half_even (1000 * l) width; round_half_even (1000 * t) height;
                 round_half_even (1000 * r) width; round_half_even (1000 * b) height]
  | _ => []
  end.

(** ** Concrete environments for the examples *)

Module Examples.

(** An image is represented by its size alone. *)
Definition pil : PIL := {| Image := Z * Z; size := fun image => image |}.

(** Four detections, the second and the fourth blank. *)
Definition page : TessData :=
  {| text := ["Invoice"; "  "; "42"; ""];
     left := [10; 0; 120; 0];
     top := [20; 0; 20; 0];
     width := [100; 200; 30; 0];
     height := [10; 100; 10; 0] |}.

Definition pytesseract : @Pytesseract pil :=
  {| image_to_data := fun _ _ _ => page |}.

Definition easyocr : @EasyOCR pil :=
  {| Reader := bool;
     easyocr_Reader := fun _ gpu => gpu;
     readtext := fun _ _ =>
       [(([10; 20], [110; 20], [110; 30], [10; 30]), "Invoice", (9 # 10)%Q);
        (([0; 0], [200; 0], [200; 100], [0; 100]), " ", (1 # 10)%Q)] |}.

Definition helpers : @QAHelpers pil :=
  {| TESSERACT_LOADED := true;
     VISION_LOADED := true;
     load_image := fun src =>
       match src with
       | Decoded image => Ok image
       | Location _ => Raise (ValueError "Incorrect path or url")
       end;
     select_starts_ends := QAHelpersSpec.select_starts_ends |}.

(** A tokenizer that makes one token per word:
    [[CLS] question [SEP] words [SEP]], a single span. *)
Definition toy_tokenizer : Tokenizer :=
  {| padding_side := "right";
     model_max_length := 512;
     cls_token_id := Some 101;
     sep_token_id := Some 102;
     tokenize := fun text text_pair _ _ _ =>
       let nq := List.length text in
       let nw := List.length text_pair in
       [{| input_ids := [101] ++ repeat 7 nq ++ [102] ++ repeat 8 nw ++ [102];
           token_type_ids := repeat 0 (nq + 2) ++ repeat 1 (nw + 1);
           attention_mask := repeat 1 (nq + nw + 3);
           overflow_to_sample_mapping := 0;
           sequence_ids := [None] ++ repeat (Some 0) nq ++ [None]
                           ++ repeat (Some 1) nw ++ [None];
           word_ids := [None] ++ map Some (seq 0 nq) ++ [None]
                       ++ map Some (seq 0 nw) ++ [None] |}] |}.

(** A model that puts all the weight on the token at position [best]. *)
Definition peak (best : nat) (n : nat) : list Q :=
  map (fun i => if (i =? best)%nat then 5 else 0)%Q (seq 0 n).

Definition pipeline (best_start best_end : nat) : @Pipeline pil :=
  {| tokenizer := toy_tokenizer;
     feature_extractor := None;
     framework := "pt";
     model := fun inputs =>
       (peak best_start (List.length (mi_input_ids inputs)),
        peak best_end (List.length (mi_input_ids inputs))) |}.

Definition nothing_installed : Installed :=
  {| pytesseract_importable := false;
     tesseract_binary_found := false;
     easyocr_importable := false |}.

Definition france : list (string * list Z) :=
  [("The", [10; 10; 40; 20]); ("capital", [50; 10; 120; 20]);
   ("of", [130; 10; 150; 20]); ("France", [160; 10; 230; 20]);
   ("is", [240; 10; 260; 20]); ("Paris", [270; 10; 330; 20]);
   (".", [331; 10; 335; 20])].

Definition france_input : @Input pil :=
  {| in_image := Some (@Decoded pil (1000, 500));
     in_question := Some "What is the capital of France?";
     in_word_boxes := Some france |}.

(** The output of the model above for the single chunk of a document:
    [[CLS] question [SEP] words [SEP]], with the start logits peaking at one
    position and the end logits at another. *)
Definition document_output (question_len : nat) (words : list string)
    (start_peak end_peak : nat) : ModelOutput :=
  let nw := List.length words in
  {| out_start_logits := peak start_peak (question_len + nw + 3);
     out_end_logits := peak end_peak (question_len + nw + 3);
     out_p_mask := [false] ++ repeat true (question_len + 1) ++ repeat false nw ++ [true];
     out_word_ids := [None] ++ map Some (seq 0 question_len) ++ [None]
                     ++ map Some (seq 0 nw) ++ [None];
     out_words := words;
     out_attention_mask := Some (repeat 1 (question_len + nw + 3)) |}.

(** "What is the capital of France?" on the seven words of [france]. *)
Definition france_output (start_peak end_peak : nat) : ModelOutput :=
  document_output 6 (map fst france) start_peak end_peak.

(** "Where?" on a document of the single word "Paris", which the model
    selects: [[CLS] Where? [SEP] Paris [SEP]]. *)
Definition one_word_output : ModelOutput := document_output 1 ["Paris"] 3 3.

(** "Where?" on a document without words, the model pointing at the
    classification token: [[CLS] Where? [SEP] [SEP]]. *)
Definition no_word_output : ModelOutput := document_output 1 [] 0 0.

(** The null score of an output, for the span selection above. *)
Definition null_score (output : ModelOutput) : Q :=
  (nth 0 (QAHelpersSpec.mask_logits (out_start_logits output) (out_p_mask output)
            (out_attention_mask output)) 0
   + nth 0 (QAHelpersSpec.mask_logits (out_end_logits output) (out_p_mask output)
              (out_attention_mask output)) 0)%Q.

Definition no_params : CallParams :=
  {| padding := None; doc_stride := None; max_question_len := None; lang := None;
     tesseract_config := None; max_answer_len := None; max_seq_len := None;
     top_k := None; handle_impossible_answer := None |}.

End Examples.

(** ** Vocabulary of the further properties *)

(** The float [x] with its sign bit set to [s]. *)
Definition with_sign (s : bool) (x : spec_float) : spec_float :=
  match x with
  | S754_zero _ => S754_zero s
  | S754_infinity _ => S754_infinity s
  | S754_nan => S754_nan
  | S754_finite _ m e => S754_finite s m e
  end.

(** The sign of an int, as a sign bit. *)
Definition sign_of (z : Z) : bool :=
  match z with
  | Zneg _ => true
  | _ => false
  end.


(** Further environments for the examples. *)
Module MoreExamples.

(** A page on which Tesseract reports two detections, both blank. *)
Definition blank_page : TessData :=
  {| text := [""; "   "];
     left := [0; 5];
     top := [0; 5];
     width := [300; 1];
     height := [200; 1] |}.

Definition blank_pytesseract : @Pytesseract Examples.pil :=
  {| image_to_data := fun _ _ _ => blank_page |}.

(** An EasyOCR reader that detects nothing. *)
Definition silent_easyocr : @EasyOCR Examples.pil :=
  {| Reader := bool;
     easyocr_Reader := fun _ gpu => gpu;
     readtext := fun _ _ => [] |}.

(** An EasyOCR processor after the initializer of the base class, given the
    device 0, and the assignment [self.reader = None]. *)
Definition fresh_easyocr_processor : @processor Examples.pil Examples.easyocr :=
  {| cls := EasyOCRProcessor; device := Some (Some 0); reader := Some None |}.

(** The same processor once its reader exists (a reader on the GPU). *)
Definition warm_easyocr_processor : @processor Examples.pil Examples.easyocr :=
  @Build_processor Examples.pil Examples.easyocr EasyOCRProcessor (Some (Some 0))
    (Some (Some true)).

Definition silent_easyocr_processor : @processor Examples.pil silent_easyocr :=
  @Build_processor Examples.pil silent_easyocr EasyOCRProcessor (Some (Some 0))
    (Some (Some true)).

End MoreExamples.


(** Whether the backend of a processor class can be used on a machine: the
    fallback always can. *)
Definition available (env : Installed) (c : processor_class) : bool :=
  match c with
  | TesseractProcessor => pytesseract_importable env && tesseract_binary_found env
  | EasyOCRProcessor => easyocr_importable env
  | DummyProcessor => true
  end.


(** More environments: helper modules that lack a capability, a pipeline
    whose feature extractor yields a layout, a tokenizer that pads on the
    left. *)
Module Capabilities.

Definition helpers_without_pil : @QAHelpers Examples.pil :=
  {| TESSERACT_LOADED := true;
     VISION_LOADED := false;
     load_image := @load_image Examples.pil Examples.helpers;
     select_starts_ends := QAHelpersSpec.select_starts_ends |}.

Definition helpers_without_tesseract : @QAHelpers Examples.pil :=
  {| TESSERACT_LOADED := false;
     VISION_LOADED := true;
     load_image := @load_image Examples.pil Examples.helpers;
     select_starts_ends := QAHelpersSpec.select_starts_ends |}.

(** A feature extractor that reads the layout of the page itself. *)
Definition layout_extractor (image : @Image Examples.pil) : ImageFeatures :=
  {| fe_words := Some ["Total"; "42"];
     fe_boxes := Some [[10; 10; 60; 20]; [70; 10; 90; 20]];
     fe_rest := [("pixel_values", [0; 0; 0])] |}.

Definition pipeline_with_extractor : @Pipeline Examples.pil :=
  {| tokenizer := Examples.toy_tokenizer;
     feature_extractor := Some layout_extractor;
     framework := "pt";
     model := @model Examples.pil (Examples.pipeline 4 4) |}.

Definition left_tokenizer : Tokenizer :=
  {| padding_side := "left";
     model_max_length := 512;
     cls_token_id := Some 101;
     sep_token_id := Some 102;
     tokenize := @tokenize Examples.toy_tokenizer |}.

Definition left_pipeline : @Pipeline Examples.pil :=
  {| tokenizer := left_tokenizer;
     feature_extractor := None;
     framework := "pt";
     model := @model Examples.pil (Examples.pipeline 4 4) |}.

(** An input with an image and nothing else but the question. *)
Definition image_only_input : @Input Examples.pil :=
  {| in_image := Some (@Decoded Examples.pil (300, 200));
     in_question := Some "Which number?";
     in_word_boxes := None |}.

(** An input with neither image nor word boxes. *)
Definition empty_input : @Input Examples.pil :=
  {| in_image := None; in_question := Some "Which number?"; in_word_boxes := None |}.

End Capabilities.


(** Whether the token at position [j] of [ids] is the token [tok] (if there
    is such a token at all). *)
Definition token_is (ids : list Z) (tok : option Z) (j : nat) : bool :=
  match tok, nth_error ids j with
  | Some t, Some i => i =? t
  | _, _ => false
  end.

(** A tokenizer whose sequence ids are one entry short of its input ids, on
    the side of the classification token: a malformed encoding. *)
Definition short_span : Span :=
  {| input_ids := [7; 101];
     token_type_ids := [0; 0];
     attention_mask := [1; 1];
     overflow_to_sample_mapping := 0;
     sequence_ids := [Some 0];
     word_ids := [Some 0%nat; None] |}.


(** The span of the toy tokenizer for "Where?" on the one word "Paris", and
    a pipeline on another framework. *)
Module Spans.

Definition paris_span : Span :=
  {| input_ids := [101; 7; 102; 8; 102];
     token_type_ids := [0; 0; 0; 1; 1];
     attention_mask := [1; 1; 1; 1; 1];
     overflow_to_sample_mapping := 0;
     sequence_ids := [None; Some 0; None; Some 1; None];
     word_ids := [None; Some 0%nat; None; Some 0%nat; None] |}.

Definition tf_pipeline : @Pipeline Examples.pil :=
  {| tokenizer := Examples.toy_tokenizer;
     feature_extractor := None;
     framework := "tf";
     model := @model Examples.pil (Examples.pipeline 3 3) |}.

End Spans.


(** The answers whose score equals [q]. *)
Definition same_score (q : Q) (a : Answer) : bool := Qeq_bool (score a) q.

(** The number of items of [answers[:top_k]] for a [top_k] that is not
    positive, on a list of [n] items. *)
Definition sliced_length (n : nat) (top_k : Z) : nat :=
  if top_k =? 0 then 0%nat else Z.to_nat (Z.of_nat n + top_k).

(** An output whose record of word ids lost its entries: the model points at
    token 3, which the word ids do not reach. *)
Module Outputs.


Definition paris : Answer :=
  {| score := 10; answer := "Paris"; start := 0; end_ := 0 |}.

End Outputs.

(** * Properties *)

(** ** Fallible computations *)

Lemma bind_Ok_inv {A B : Type} (m : result A) (k : A -> result B) (b : B) :
  bind m k = Ok b -> exists a, m = Ok a /\ k a = Ok b.
Proof.
  destruct m as [a | e]; simpl; intros Hk.
  - exists a. split; [reflexivity | exact Hk].
  - discriminate.
Qed.

Lemma mmap_length {A B : Type} (f : A -> result B) (l : list A) (out : list B) :
  mmap f l = Ok out -> List.length out = List.length l.
Proof.
  revert out. induction l as [| x l IH]; simpl; intros out Hout.
  - injection Hout as <-. reflexivity.
  - apply bind_Ok_inv in Hout as (y & _ & Hout).
    apply bind_Ok_inv in Hout as (ys & Hys & Hout).
    injection Hout as <-. simpl. f_equal. apply IH. exact Hys.
Qed.

Lemma mmap_Forall {A B : Type} (f : A -> result B) (P : B -> Prop) (l : list A)
    (out : list B) :
  (forall x y, f x = Ok y -> P y) -> mmap f l = Ok out -> Forall P out.
Proof.
  intros HP. revert out. induction l as [| x l IH]; simpl; intros out Hout.
  - injection Hout as <-. constructor.
  - apply bind_Ok_inv in Hout as (y & Hy & Hout).
    apply bind_Ok_inv in Hout as (ys & Hys & Hout).
    injection Hout as <-. constructor; [eapply HP; eassumption | apply IH; exact Hys].
Qed.

(** ** Box normalization *)

Lemma clamp_range (c : Z) : 0 <= clamp c <= 1000.
Proof. unfold clamp. lia. Qed.

(** [int] of a finite float drops the fractional part of the magnitude and
    then applies the sign: truncation toward zero. *)
Lemma to_int_truncates (s : bool) (m : positive) (e : Z) :
  PyFloat.to_int (S754_finite s m e)
  = Ok (cond_Zopp s (if 0 <=? e then Zpos m * 2 ^ e else Zpos m / 2 ^ (- e))).
Proof.
  simpl. do 2 f_equal. destruct (Z.leb_spec 0 e) as [He | He].
  - apply Z.shiftl_mul_pow2. exact He.
  - apply Z.shiftl_div_pow2. lia.
Qed.

(** Division by zero is the only source of [ZeroDivisionError]. *)
Lemma scale_zero_division (c d : Z) :
  scale c d = Raise ZeroDivisionError <-> d = 0.
Proof.
  unfold scale, PyFloat.truediv. split.
  - destruct (Z.eqb_spec d 0) as [Hd | Hd]; [intros _; exact Hd |].
    destruct (SFdiv PyFloat.prec PyFloat.emax (PyFloat.of_int c) (PyFloat.of_int d))
      as [s | s | | s m e]; simpl; intros Heq; try discriminate Heq.
    destruct (PyFloat.mul_int 1000 (S754_finite s m e)); simpl in Heq; discriminate Heq.
  - intros ->. reflexivity.
Qed.

(** The processor's normalization is the pipeline's, followed by the clamp. *)
Lemma OCRProcessor_normalize_box_clamps (box : list Z) (width height : Z) :
  OCRProcessor.normalize_box box width height
  = (r <- normalize_box box width height ;; Ok (map clamp r)).
Proof.
  unfold OCRProcessor.normalize_box, normalize_box.
  destruct (index box 0) as [b0 | e]; simpl; [| reflexivity].
  destruct (scale b0 width) as [c0 | e]; simpl; [| reflexivity].
  destruct (index box 1) as [b1 | e]; simpl; [| reflexivity].
  destruct (scale b1 height) as [c1 | e]; simpl; [| reflexivity].
  destruct (index box 2) as [b2 | e]; simpl; [| reflexivity].
  destruct (scale b2 width) as [c2 | e]; simpl; [| reflexivity].
  destruct (index box 3) as [b3 | e]; simpl; [| reflexivity].
  destruct (scale b3 height) as [c3 | e]; simpl; reflexivity.
Qed.

Lemma OCRProcessor_normalize_box_range (box : list Z) (width height : Z) (out : list Z) :
  OCRProcessor.normalize_box box width height = Ok out ->
  List.length out = 4%nat /\ Forall (fun c => 0 <= c <= 1000) out.
Proof.
  rewrite OCRProcessor_normalize_box_clamps. intros Hout.
  apply bind_Ok_inv in Hout as (r & Hr & Hout). injection Hout as <-.
  split.
  - unfold normalize_box in Hr.
    repeat (apply bind_Ok_inv in Hr as (? & _ & Hr)).
    injection Hr as <-. reflexivity.
  - apply Forall_forall. intros c Hc. apply in_map_iff in Hc as (c' & <- & _).
    apply clamp_range.
Qed.

(** The float quotient is not the exact one: [201 / 100] is a double slightly
    below 2.01, and the product with 1000 stays below 2010. *)
Example scale_is_double_precision :
  scale 201 100 = Ok 2009 /\ 1000 * 201 / 100 = 2010.
Proof. split; vm_compute; reflexivity. Qed.

(** On a sample of small boxes inside their image, scaling returns. *)
Example scale_returns_on_small_inputs :
  forallb (fun d => forallb (fun c => match scale (Z.of_nat c) (Z.of_nat d) with
                                      | Ok v => (0 <=? v) && (v <=? 1000)
                                      | Raise _ => false
                                      end)
                            (seq 0 (S d)))
          (seq 1 40) = true.
Proof. vm_compute. reflexivity. Qed.

(** C1 (as amended): each component of a normalized box is
    [int(1000 * (coordinate / dimension))] evaluated in double precision, that
    is truncated toward zero and not rounded; the OCR processor's
    normalization then clamps each component to [[0, 1000]], the pipeline's
    returns it as it is; and the box [[0, 0, 100, 50]] on a 200 x 100 image
    normalizes to [[0, 0, 500, 500]] with both. *)
Theorem normalize_box_truncates_then_clamps :
  (forall (l t r b width height : Z) (out : list Z),
      OCRProcessor.normalize_box [l; t; r; b] width height = Ok out ->
      exists c0 c1 c2 c3,
        scale l width = Ok c0 /\ scale t height = Ok c1 /\
        scale r width = Ok c2 /\ scale b height = Ok c3 /\
        normalize_box [l; t; r; b] width height = Ok [c0; c1; c2; c3] /\
        out = [clamp c0; clamp c1; clamp c2; clamp c3] /\
        Forall (fun c => 0 <= c <= 1000) out)
  /\ OCRProcessor.normalize_box [0; 0; 100; 50] 200 100 = Ok [0; 0; 500; 500]
  /\ normalize_box [0; 0; 100; 50] 200 100 = Ok [0; 0; 500; 500].
Proof.
  split; [| split; vm_compute; reflexivity].
  intros l t r b width height out Hout.
  pose proof (OCRProcessor_normalize_box_range _ _ _ _ Hout) as [_ Hrange].
  unfold OCRProcessor.normalize_box, normalize_box in *. simpl index in *. simpl bind in *.
  destruct (scale l width) as [c0 | e]; simpl in *; [| discriminate].
  destruct (scale t height) as [c1 | e]; simpl in *; [| discriminate].
  destruct (scale r width) as [c2 | e]; simpl in *; [| discriminate].
  destruct (scale b height) as [c3 | e]; simpl in *; [| discriminate].
  injection Hout as <-.
  exists c0, c1, c2, c3. repeat split; try reflexivity. exact Hrange.
Qed.

Lemma normalize_box_truncates_then_clamps_witness :
  OCRProcessor.normalize_box [2; 0; 3; 3] 3 3 = Ok [666; 0; 1000; 1000]
  /\ exists c0 c1 c2 c3,
       scale 2 3 = Ok c0 /\ scale 0 3 = Ok c1 /\
       scale 3 3 = Ok c2 /\ scale 3 3 = Ok c3 /\
       normalize_box [2; 0; 3; 3] 3 3 = Ok [c0; c1; c2; c3] /\
       [666; 0; 1000; 1000] = [clamp c0; clamp c1; clamp c2; clamp c3] /\
       Forall (fun c => 0 <= c <= 1000) [666; 0; 1000; 1000].
Proof.
  split; [vm_compute; reflexivity |].
  apply (proj1 normalize_box_truncates_then_clamps 2 0 3 3 3 3).
  vm_compute. reflexivity.
Defined.

(** C1 (as stated) fails: two thirds of 1000 is truncated to 666 where
    rounding gives 667, and the pipeline's normalization leaves a box that
    exceeds the image outside [[0, 1000]]. *)
Lemma normalize_box_rounds_counterexample :
  OCRProcessor.normalize_box [2; 0; 3; 3] 3 3 <> Ok (normalize_box_spec [2; 0; 3; 3] 3 3)
  /\ normalize_box [2; 0; 3; 3] 3 3 <> Ok (normalize_box_spec [2; 0; 3; 3] 3 3)
  /\ normalize_box [0; 0; 400; 50] 200 100 = Ok [0; 0; 2000; 500].
Proof.
  repeat split; vm_compute; try reflexivity; discriminate.
Qed.

(** ** Blank words and index filtering *)

Lemma lstrip_truthy (s : string) : truthy (lstrip s) = negb (all_space s).
Proof.
  induction s as [| c s IH]; simpl; [reflexivity |].
  destruct (isspace c); simpl; [exact IH | reflexivity].
Qed.

Lemma rstrip_all_space (s : string) : all_space (rstrip s) = all_space s.
Proof.
  induction s as [| c s IH]; simpl; [reflexivity |].
  destruct (rstrip s) as [| c' r] eqn:Hr.
  - simpl in IH. rewrite <- IH.
    destruct (isspace c) eqn:Hc; simpl; rewrite ?Hc; reflexivity.
  - change (all_space (String c (String c' r))) with (isspace c && all_space (String c' r)).
    rewrite IH. reflexivity.
Qed.

(** [not word.strip()] holds exactly for the empty and the all-whitespace
    words. *)
Lemma strip_truthy (s : string) : truthy (strip s) = negb (all_space s).
Proof. unfold strip. rewrite lstrip_truthy, rstrip_all_space. reflexivity. Qed.

Lemma filter_enumerate_snd {A : Type} (d : A) (P : nat -> bool) (l : list A) (k : nat) :
  map snd (filter (fun p => P (fst p)) (combine (seq k (List.length l)) l))
  = map (fun i => nth (i - k) l d) (filter P (seq k (List.length l))).
Proof.
  revert k. induction l as [| a l IH]; intros k; [reflexivity |].
  assert (Htail : map (fun i => nth (i - k) (a :: l) d) (filter P (seq (S k) (List.length l)))
                  = map (fun i => nth (i - S k) l d) (filter P (seq (S k) (List.length l)))).
  { apply map_ext_in. intros i Hi. apply filter_In in Hi as [Hi _].
    apply in_seq in Hi. replace (i - k)%nat with (S (i - S k)) by lia. reflexivity. }
  cbn [List.length seq combine filter map fst snd].
  destruct (P k); cbn [map snd fst]; rewrite IH, Htail.
  - rewrite Nat.sub_diag. reflexivity.
  - reflexivity.
Qed.

Lemma filter_enumerate_fst {A : Type} (d : A) (Q : A -> bool) (l : list A) (k : nat) :
  map fst (filter (fun p => Q (snd p)) (combine (seq k (List.length l)) l))
  = filter (fun i => Q (nth (i - k) l d)) (seq k (List.length l)).
Proof.
  revert k. induction l as [| a l IH]; intros k; [reflexivity |].
  assert (Htail : filter (fun i => Q (nth (i - k) (a :: l) d)) (seq (S k) (List.length l))
                  = filter (fun i => Q (nth (i - S k) l d)) (seq (S k) (List.length l))).
  { apply filter_ext_in. intros i Hi. apply in_seq in Hi.
    replace (i - k)%nat with (S (i - S k)) by lia. reflexivity. }
  cbn [List.length seq combine filter map fst snd].
  rewrite Nat.sub_diag. change (nth 0 (a :: l) d) with a.
  destruct (Q a); cbn [map snd fst]; rewrite IH, Htail; reflexivity.
Qed.

Lemma mem_In (i : nat) (l : list nat) : mem i l = true <-> In i l.
Proof.
  unfold mem. rewrite existsb_exists. split.
  - intros (j & Hj & Heq). apply Nat.eqb_eq in Heq. subst. exact Hj.
  - intros Hi. exists i. split; [exact Hi | apply Nat.eqb_refl].
Qed.

Lemma blank_indices_filter (words : list string) :
  blank_indices words
  = filter (fun i => all_space (nth i words "")) (seq 0 (List.length words)).
Proof.
  unfold blank_indices, enumerate.
  rewrite (filter_enumerate_fst "" (fun w => negb (truthy (strip w)))).
  apply filter_ext. intros i. rewrite Nat.sub_0_r, strip_truthy.
  apply negb_involutive.
Qed.

(** Dropping the blank positions from a column as long as the text column
    keeps the entries at the non-blank positions, in order. *)
Lemma drop_blank_indices {A : Type} (d : A) (words : list string) (col : list A) :
  List.length col = List.length words ->
  drop_indices (blank_indices words) col
  = map (fun i => nth i col d) (nonblank_indices words).
Proof.
  intros Hlen. unfold drop_indices, enumerate, nonblank_indices.
  rewrite (filter_enumerate_snd d (fun i => negb (mem i (blank_indices words)))).
  rewrite Hlen. transitivity
    (map (fun i => nth i col d)
         (filter (fun i => negb (mem i (blank_indices words))) (seq 0 (List.length words)))).
  { apply map_ext. intros i. rewrite Nat.sub_0_r. reflexivity. }
  f_equal. apply filter_ext_in. intros i Hi. f_equal.
  apply eq_true_iff_eq. rewrite mem_In, blank_indices_filter, filter_In.
  tauto.
Qed.

Lemma nonblank_indices_spec (words : list string) :
  Forall (fun w => all_space w = false)
         (map (fun i => nth i words "") (nonblank_indices words)).
Proof.
  apply Forall_forall. intros w Hw. apply in_map_iff in Hw as (i & <- & Hi).
  unfold nonblank_indices in Hi. apply filter_In in Hi as [_ Hi].
  apply negb_true_iff. exact Hi.
Qed.

Lemma zip4_map {A B : Type} (f1 f2 f3 f4 : A -> B) (l : list A) :
  zip4 (map f1 l) (map f2 l) (map f3 l) (map f4 l)
  = map (fun i => (f1 i, f2 i, f3 i, f4 i)) l.
Proof. induction l as [| a l IH]; simpl; [| rewrite IH]; reflexivity. Qed.

Lemma assert_Ok_inv (b : bool) (msg : string) (u : unit) :
  assert_ b msg = Ok u -> b = true.
Proof. destruct b; simpl; [reflexivity | discriminate]. Qed.

(** ** OCR output *)

Section OCRProperties.

Context `{Pytesseract} `{!EasyOCR}.

Lemma rows_aligned (norm : list Z -> result (list Z)) (data : TessData)
    (boxes : list (list Z)) :
  columns_aligned data ->
  mmap norm
       (map (fun '(x, y, w, h) => [x; y; x + w; y + h])
            (zip4 (drop_indices (blank_indices (text data)) (left data))
                  (drop_indices (blank_indices (text data)) (top data))
                  (drop_indices (blank_indices (text data)) (width data))
                  (drop_indices (blank_indices (text data)) (height data))))
  = Ok boxes ->
  mmap norm (map (box_at data) (nonblank_indices (text data))) = Ok boxes.
Proof.
  intros (Hl & Ht & Hw & Hh).
  rewrite (drop_blank_indices 0 _ _ Hl), (drop_blank_indices 0 _ _ Ht),
    (drop_blank_indices 0 _ _ Hw), (drop_blank_indices 0 _ _ Hh).
  rewrite zip4_map, map_map. intros Hb. exact Hb.
Qed.

Lemma apply_tesseract_inv (image : Image) (lang cfg : option string) (tr tr' : trace)
    (words : list string) (boxes : list (list Z)) :
  apply_tesseract image lang cfg tr = (Ok (words, boxes), tr') ->
  let data := image_to_data image lang cfg in
  tr' = tr ++ [CallImageToData] /\
  words = drop_indices (blank_indices (text data)) (text data) /\
  mmap (fun box => normalize_box box (fst (size image)) (snd (size image)))
       (map (fun '(x, y, w, h) => [x; y; x + w; y + h])
            (zip4 (drop_indices (blank_indices (text data)) (left data))
                  (drop_indices (blank_indices (text data)) (top data))
                  (drop_indices (blank_indices (text data)) (width data))
                  (drop_indices (blank_indices (text data)) (height data))))
  = Ok boxes /\
  List.length words = List.length boxes.
Proof.
  unfold apply_tesseract, ebind, emit, lift. cbn beta iota zeta.
  destruct (size image) as [image_width image_height]. cbn [fst snd].
  intros Heq. injection Heq as Hr Htr.
  apply bind_Ok_inv in Hr as (normalized & Hn & Hr).
  apply bind_Ok_inv in Hr as (u & Ha & Hr).
  injection Hr as Hw Hb. subst normalized.
  apply assert_Ok_inv, Nat.eqb_eq in Ha.
  repeat split; [symmetry; exact Htr | symmetry; exact Hw | exact Hn |].
  rewrite <- Hw. exact Ha.
Qed.

Lemma TesseractProcessor_apply_ocr_inv (self : processor) (image : Image)
    (tr tr' : trace) (words : list string) (boxes : list (list Z)) :
  TesseractProcessor_apply_ocr self image tr = (Ok (words, boxes), tr') ->
  let data := image_to_data image None (Some "") in
  tr' = tr ++ [CallImageToData] /\
  words = drop_indices (blank_indices (text data)) (text data) /\
  mmap (fun box => OCRProcessor.normalize_box box (fst (size image)) (snd (size image)))
       (map (fun '(x, y, w, h) => [x; y; x + w; y + h])
            (zip4 (drop_indices (blank_indices (text data)) (left data))
                  (drop_indices (blank_indices (text data)) (top data))
                  (drop_indices (blank_indices (text data)) (width data))
                  (drop_indices (blank_indices (text data)) (height data))))
  = Ok boxes /\
  List.length words = List.length boxes.
Proof.
  unfold TesseractProcessor_apply_ocr, ebind, emit, lift. cbn beta iota zeta.
  destruct (size image) as [image_width image_height]. cbn [fst snd].
  intros Heq. injection Heq as Hr Htr.
  apply bind_Ok_inv in Hr as (normalized & Hn & Hr).
  apply bind_Ok_inv in Hr as (u & Ha & Hr).
  injection Hr as Hw Hb. subst normalized.
  apply assert_Ok_inv, Nat.eqb_eq in Ha.
  repeat split; [symmetry; exact Htr | symmetry; exact Hw | exact Hn |].
  rewrite <- Hw. exact Ha.
Qed.

Lemma kept_words (words : list string) :
  drop_indices (blank_indices words) words
  = map (fun i => nth i words "") (nonblank_indices words).
Proof. apply drop_blank_indices. reflexivity. Qed.

(** Conversely, when the five columns are aligned and every kept box
    normalizes, [apply_tesseract] returns the non-blank words and their
    boxes. *)
Lemma apply_tesseract_returns (image : Image) (lang cfg : option string) (tr : trace)
    (boxes : list (list Z)) :
  columns_aligned (image_to_data image lang cfg) ->
  mmap (fun box => normalize_box box (fst (size image)) (snd (size image)))
       (map (box_at (image_to_data image lang cfg))
            (nonblank_indices (text (image_to_data image lang cfg)))) = Ok boxes ->
  apply_tesseract image lang cfg tr
  = (Ok (map (fun i => nth i (text (image_to_data image lang cfg)) "")
             (nonblank_indices (text (image_to_data image lang cfg))), boxes),
     tr ++ [CallImageToData]).
Proof.
  intros Hcols Hb. pose proof Hcols as (Hl & Ht & Hw & Hh).
  unfold apply_tesseract, ebind, emit, lift. cbn beta iota zeta.
  destruct (size image) as [image_width image_height]. cbn [fst snd] in Hb.
  rewrite (drop_blank_indices 0 _ _ Hl), (drop_blank_indices 0 _ _ Ht),
    (drop_blank_indices 0 _ _ Hw), (drop_blank_indices 0 _ _ Hh), kept_words.
  rewrite zip4_map, map_map.
  change (mmap (fun box => normalize_box box image_width image_height)
               (map (box_at (image_to_data image lang cfg))
                    (nonblank_indices (text (image_to_data image lang cfg)))))
    with (mmap (fun box => normalize_box box image_width image_height)
               (map (fun x =>
                       let '(x0, y, w, h) :=
                         (nth x (left (image_to_data image lang cfg)) 0,
                          nth x (top (image_to_data image lang cfg)) 0,
                          nth x (width (image_to_data image lang cfg)) 0,
                          nth x (height (image_to_data image lang cfg)) 0) in
                       [x0; y; x0 + w; y + h])
                    (nonblank_indices (text (image_to_data image lang cfg))))) in Hb.
  rewrite Hb. cbn [bind].
  apply mmap_length in Hb. rewrite !length_map in Hb.
  rewrite length_map, Hb, Nat.eqb_refl. reflexivity.
Qed.

Lemma unzip3_Ok_inv (data : list detection) quads all_words acc :
  unzip3 data = Ok (quads, all_words, acc) ->
  quads = map (fun d => fst (fst d)) data /\
  all_words = map (fun d => snd (fst d)) data.
Proof.
  destruct data as [| d data]; simpl; [discriminate |].
  intros Heq. injection Heq as <- <- _. split; reflexivity.
Qed.

Lemma EasyOCRProcessor_apply_ocr_inv (self self' : processor) (image : Image)
    (tr tr' : trace) (words : list string) (boxes : list (list Z)) :
  EasyOCRProcessor_apply_ocr self image tr = (Ok (self', (words, boxes)), tr') ->
  exists rd : Reader,
    let data := readtext rd image in
    let all_words := map (fun d => snd (fst d)) data in
    let quads := map (fun d => fst (fst d)) data in
    reader self' = Some (Some rd) /\
    words = drop_indices (blank_indices all_words) all_words /\
    mmap (fun box => OCRProcessor.normalize_box box (fst (size image)) (snd (size image)))
         (map corners (drop_indices (blank_indices all_words) quads))
    = Ok boxes /\
    List.length words = List.length boxes.
Proof.
  unfold EasyOCRProcessor_apply_ocr, ebind, emit, lift.
  assert (Htail : forall (self0 : processor) (rd : Reader),
             reader self0 = Some (Some rd) ->
             (cols <- unzip3 (readtext rd image) ;;
              (let '(boxes0, words0, _) := cols in
               let irrelevant_indices := blank_indices words0 in
               let words1 := drop_indices irrelevant_indices words0 in
               let boxes1 := drop_indices irrelevant_indices boxes0 in
               let actual_boxes := map (fun '(tl, _, br, _) => tl ++ br) boxes1 in
               let '(image_width, image_height) := size image in
               normalized_boxes <-
                 mmap (fun box => OCRProcessor.normalize_box box image_width image_height)
                      actual_boxes ;;
               _ <- assert_ (List.length words1 =? List.length normalized_boxes)%nat
                            "Not as many words as there are bounding boxes" ;;
               Ok (self0, (words1, normalized_boxes))))
             = Ok (self', (words, boxes)) ->
             exists rd0 : Reader,
               reader self' = Some (Some rd0) /\
               words = drop_indices (blank_indices (map (fun d => snd (fst d)) (readtext rd0 image)))
                                    (map (fun d => snd (fst d)) (readtext rd0 image)) /\
               mmap (fun box => OCRProcessor.normalize_box box (fst (size image)) (snd (size image)))
                    (map corners
                         (drop_indices (blank_indices (map (fun d => snd (fst d)) (readtext rd0 image)))
                                       (map (fun d => fst (fst d)) (readtext rd0 image))))
               = Ok boxes /\
               List.length words = List.length boxes).
  { intros self0 rd Hrd Hr.
    apply bind_Ok_inv in Hr as ([[quads all_words] acc] & Hc & Hr).
    apply unzip3_Ok_inv in Hc as [-> ->].
    destruct (size image) as [image_width image_height]. cbn [fst snd].
    apply bind_Ok_inv in Hr as (normalized & Hn & Hr).
    apply bind_Ok_inv in Hr as (u & Ha & Hr).
    injection Hr as Hs Hw Hb. subst normalized self0.
    apply assert_Ok_inv, Nat.eqb_eq in Ha.
    exists rd. repeat split; [exact Hrd | symmetry; exact Hw | exact Hn |].
    rewrite <- Hw. exact Ha. }
  destruct (reader self) as [[rd |] |] eqn:Hreader; cbn.
  - intros Heq. injection Heq as Hr Htr. eapply Htail; [| exact Hr]. exact Hreader.
  - destruct (device self) as [[dev |] |]; cbn; try (intros Heq; discriminate Heq).
    intros Heq. injection Heq as Hr Htr. eapply Htail; [| exact Hr]. reflexivity.
  - intros Heq. discriminate Heq.
Qed.

(** C6: whatever an OCR backend returns, there are as many words as boxes
    and no word is empty or all-whitespace; the words are the non-blank
    detections in order, and the boxes are the normalized boxes of those same
    detections (for Tesseract, whose output comes in five columns, provided
    the columns have one entry per detection). *)
Theorem ocr_output_aligned_and_nonblank :
  (forall (image : Image) (lang cfg : option string) (tr tr' : trace)
          (words : list string) (boxes : list (list Z)),
      apply_tesseract image lang cfg tr = (Ok (words, boxes), tr') ->
      let data := image_to_data image lang cfg in
      List.length words = List.length boxes /\
      Forall (fun w => all_space w = false) words /\
      words = map (fun i => nth i (text data) "") (nonblank_indices (text data)) /\
      (columns_aligned data ->
       mmap (fun box => normalize_box box (fst (size image)) (snd (size image)))
            (map (box_at data) (nonblank_indices (text data))) = Ok boxes))
  /\
  (forall (self : processor) (image : Image) (tr tr' : trace)
          (words : list string) (boxes : list (list Z)),
      TesseractProcessor_apply_ocr self image tr = (Ok (words, boxes), tr') ->
      let data := image_to_data image None (Some "") in
      List.length words = List.length boxes /\
      Forall (fun w => all_space w = false) words /\
      words = map (fun i => nth i (text data) "") (nonblank_indices (text data)) /\
      (columns_aligned data ->
       mmap (fun box => OCRProcessor.normalize_box box (fst (size image)) (snd (size image)))
            (map (box_at data) (nonblank_indices (text data))) = Ok boxes))
  /\
  (forall (self self' : processor) (image : Image) (tr tr' : trace)
          (words : list string) (boxes : list (list Z)),
      EasyOCRProcessor_apply_ocr self image tr = (Ok (self', (words, boxes)), tr') ->
      exists rd : Reader,
        let data := readtext rd image in
        let all_words := map (fun d => snd (fst d)) data in
        List.length words = List.length boxes /\
        Forall (fun w => all_space w = false) words /\
        words = map (fun i => nth i all_words "") (nonblank_indices all_words) /\
        mmap (fun box => OCRProcessor.normalize_box box (fst (size image)) (snd (size image)))
             (map (fun i => corners (fst (fst (nth i data (([], [], [], []), "", 0%Q)))))
                  (nonblank_indices all_words)) = Ok boxes).
Proof.
  split; [| split].
  - intros image lang cfg tr tr' words boxes Hrun.
    apply apply_tesseract_inv in Hrun as (_ & Hw & Hb & Hlen).
    rewrite kept_words in Hw.
    repeat split; [exact Hlen | | exact Hw |].
    + rewrite Hw. apply nonblank_indices_spec.
    + intros Hcols. apply rows_aligned; assumption.
  - intros self image tr tr' words boxes Hrun.
    apply TesseractProcessor_apply_ocr_inv in Hrun as (_ & Hw & Hb & Hlen).
    rewrite kept_words in Hw.
    repeat split; [exact Hlen | | exact Hw |].
    + rewrite Hw. apply nonblank_indices_spec.
    + intros Hcols. apply rows_aligned; assumption.
  - intros self self' image tr tr' words boxes Hrun.
    apply EasyOCRProcessor_apply_ocr_inv in Hrun as (rd & _ & Hw & Hb & Hlen).
    exists rd. cbn zeta. rewrite kept_words in Hw.
    repeat split; [exact Hlen | | exact Hw |].
    + rewrite Hw. apply nonblank_indices_spec.
    + pose (dq := ([], [], [], []) : point * point * point * point).
      rewrite (drop_blank_indices dq) in Hb by (rewrite !length_map; reflexivity).
      rewrite map_map in Hb. rewrite <- Hb. f_equal.
      apply map_ext. intros i. f_equal.
      symmetry.
      exact (map_nth (fun d : detection => fst (fst d)) (readtext rd image)
                     (dq, "", 0%Q) i).
Qed.

End OCRProperties.

Lemma ocr_output_aligned_and_nonblank_witness :
  List.length ["Invoice"; "42"] = List.length [[33; 100; 366; 150]; [400; 100; 500; 150]]
  /\ Forall (fun w => all_space w = false) ["Invoice"; "42"]
  /\ ["Invoice"; "42"]
     = map (fun i => nth i (text Examples.page) "") (nonblank_indices (text Examples.page))
  /\ (columns_aligned Examples.page ->
      mmap (fun box => normalize_box box 300 200)
           (map (box_at Examples.page) (nonblank_indices (text Examples.page)))
      = Ok [[33; 100; 366; 150]; [400; 100; 500; 150]]).
Proof.
  apply (proj1 (@ocr_output_aligned_and_nonblank Examples.pil Examples.pytesseract
                  Examples.easyocr)
               (300, 200) None None [] [CallImageToData]).
  vm_compute. reflexivity.
Defined.

(** ** Sorting and truncation *)

Lemma insert_desc_perm (a : Answer) (l : list Answer) :
  Permutation (insert_desc a l) (a :: l).
Proof.
  induction l as [| b l IH]; simpl; [reflexivity |].
  destruct (Qle_bool (score a) (score b)).
  - rewrite IH. apply perm_swap.
  - reflexivity.
Qed.

Lemma insert_desc_sorted (a : Answer) (l : list Answer) :
  StronglySorted ge_score l -> StronglySorted ge_score (insert_desc a l).
Proof.
  induction l as [| b l IH]; simpl; intros Hs.
  - constructor; constructor.
  - apply StronglySorted_inv in Hs as [Hs Hb].
    destruct (Qle_bool (score a) (score b)) eqn:Hab.
    + constructor; [apply IH; exact Hs |].
      rewrite (insert_desc_perm a l). constructor; [| exact Hb].
      apply Qle_bool_iff. exact Hab.
    + assert (Hba : (score b <= score a)%Q).
      { destruct (Qlt_le_dec (score b) (score a)) as [Hlt | Hle].
        - apply Qlt_le_weak. exact Hlt.
        - apply Qle_bool_iff in Hle. congruence. }
      constructor; [constructor; assumption |].
      constructor; [exact Hba |].
      eapply Forall_impl; [| exact Hb].
      intros c Hc. unfold ge_score in *. eapply Qle_trans; eassumption.
Qed.

Lemma fold_insert_desc_perm (l acc : list Answer) :
  Permutation (fold_left (fun acc a => insert_desc a acc) l acc) (acc ++ l).
Proof.
  revert acc. induction l as [| a l IH]; intros acc; simpl.
  - rewrite app_nil_r. reflexivity.
  - rewrite IH, insert_desc_perm. apply Permutation_middle.
Qed.

Lemma fold_insert_desc_sorted (l acc : list Answer) :
  StronglySorted ge_score acc ->
  StronglySorted ge_score (fold_left (fun acc a => insert_desc a acc) l acc).
Proof.
  revert acc. induction l as [| a l IH]; intros acc Hacc; simpl.
  - exact Hacc.
  - apply IH, insert_desc_sorted, Hacc.
Qed.

Lemma sorted_desc_perm (l : list Answer) : Permutation (sorted_desc l) l.
Proof. unfold sorted_desc. apply (fold_insert_desc_perm l []). Qed.

Lemma sorted_desc_sorted (l : list Answer) : StronglySorted ge_score (sorted_desc l).
Proof. unfold sorted_desc. apply fold_insert_desc_sorted. constructor. Qed.

Lemma sorted_desc_length (l : list Answer) : List.length (sorted_desc l) = List.length l.
Proof. apply Permutation_length, sorted_desc_perm. Qed.

Lemma take_nonneg {A : Type} (k : Z) (l : list A) :
  0 <= k -> take k l = firstn (Z.to_nat k) l.
Proof. intros Hk. unfold take. destruct (Z.leb_spec 0 k); [reflexivity | lia]. Qed.

Lemma take_nil {A : Type} (k : Z) : take k (@nil A) = [].
Proof. unfold take. destruct (0 <=? k); apply firstn_nil. Qed.

(** ** The loops of [postprocess] *)

Section PostprocessProperties.

Context `{Pytesseract} `{!QAHelpers} `{!Pipeline}.

Lemma postprocess_spans_surviving (words : list string) (word_ids : list (option nat))
    (sel : list (nat * nat * Q)) (answers : list Answer) :
  in_range word_ids sel ->
  postprocess_spans words word_ids sel answers
  = Ok (answers ++ surviving words word_ids sel).
Proof.
  intros Hsel. revert answers.
  induction Hsel as [| [[s e] sc] sel [Hs He] _ IH]; intros answers; simpl.
  - rewrite app_nil_r. reflexivity.
  - unfold index.
    destruct (nth_error word_ids s) as [ws |] eqn:Hws;
      [| apply nth_error_None in Hws; lia].
    destruct (nth_error word_ids e) as [we |] eqn:Hwe;
      [| apply nth_error_None in Hwe; lia].
    simpl. destruct ws as [ws |], we as [we |]; rewrite IH;
      rewrite <- ?app_assoc; reflexivity.
Qed.

Lemma postprocess_outputs_merged (model_outputs : list ModelOutput) (top_k : Z)
    (h : bool) (max_answer_len : Z) (m : Q) (answers : list Answer) :
  well_formed model_outputs top_k h max_answer_len ->
  postprocess_outputs model_outputs top_k h max_answer_len m answers
  = Ok (final_null_score model_outputs top_k h max_answer_len m,
        answers ++ merged model_outputs top_k h max_answer_len m).
Proof.
  intros Hwf. revert m answers.
  induction Hwf as [| output rest Hout _ IH]; intros m answers; simpl.
  - rewrite app_nil_r. reflexivity.
  - specialize (Hout m). unfold selected in *.
    destruct (select_starts_ends (out_start_logits output) (out_end_logits output)
                (out_p_mask output) (out_attention_mask output) m top_k h max_answer_len)
      as [[[starts ends] scores] m'].
    cbn [fst snd] in *.
    rewrite (postprocess_spans_surviving _ _ _ _ Hout). simpl.
    rewrite IH, app_assoc. reflexivity.
Qed.

(** The shape of the result: a record when one answer is left, else the
    list. *)
Lemma postprocess_result (model_outputs : list ModelOutput) (top_k : Z) (h : bool)
    (max_answer_len : Z) :
  well_formed model_outputs top_k h max_answer_len ->
  exists r,
    postprocess model_outputs top_k h max_answer_len = Ok r /\
    answers_of r
    = take top_k (sorted_desc (candidates model_outputs top_k h max_answer_len)) /\
    ((exists a, r = Single a) <-> List.length (answers_of r) = 1%nat).
Proof.
  intros Hwf. unfold postprocess.
  rewrite (postprocess_outputs_merged _ _ _ _ _ _ Hwf). simpl bind. cbn iota beta.
  change (@nil Answer ++ merged model_outputs top_k h max_answer_len 1000000%Q)
    with (merged model_outputs top_k h max_answer_len 1000000%Q).
  assert (Hc : (if h
                then merged model_outputs top_k h max_answer_len 1000000%Q
                     ++ [{| score := final_null_score model_outputs top_k h max_answer_len
                                       1000000%Q;
                            answer := ""; start := 0; end_ := 0 |}]
                else merged model_outputs top_k h max_answer_len 1000000%Q)
               = candidates model_outputs top_k h max_answer_len).
  { unfold candidates, null_answer. destruct h; [reflexivity |].
    rewrite app_nil_r. reflexivity. }
  rewrite Hc.
  destruct (take top_k (sorted_desc (candidates model_outputs top_k h max_answer_len)))
    as [| a [| b l]] eqn:Htake; simpl.
  - exists (Many []). repeat split; try reflexivity.
    + intros [a Ha]. discriminate Ha.
    + simpl. discriminate.
  - exists (Single a). repeat split; try reflexivity. intros _. exists a. reflexivity.
  - exists (Many (a :: b :: l)). repeat split; try reflexivity.
    + intros [c Hc']. discriminate Hc'.
    + simpl. discriminate.
Qed.

End PostprocessProperties.

(** ** Ranking and truncation of the answers *)

Section Ranking.

Context `{QAHelpers}.

Lemma final_null_score_min (null_score : ModelOutput -> Q)
    (model_outputs : list ModelOutput) (top_k : Z) (h : bool) (max_answer_len : Z) (m : Q) :
  (forall output m', snd (selected output m' top_k h max_answer_len)
                     = Qmin m' (null_score output)) ->
  final_null_score model_outputs top_k h max_answer_len m
  = fold_left Qmin (map null_score model_outputs) m.
Proof.
  intros Hsel. revert m.
  induction model_outputs as [| output rest IH]; intros m; simpl; [reflexivity |].
  rewrite Hsel. apply IH.
Qed.

(** C5: over any sequence of chunk outputs, the candidates are the
    surviving answers of all chunks in order, followed, exactly when
    [handle_impossible_answer] is set, by one no-answer record (start 0,
    end 0, empty text) scored with the minimum of 1000000 and the null scores
    of all chunks; the result is the first [top_k] of these candidates sorted
    by descending score, so it has [top_k] answers, or all of them when there
    are fewer. *)
Theorem postprocess_merges_sorts_truncates
    (null_score : ModelOutput -> Q) (model_outputs : list ModelOutput) (top_k : Z)
    (h : bool) (max_answer_len : Z) :
  (h = true ->
   forall output m, snd (selected output m top_k h max_answer_len)
                    = Qmin m (null_score output)) ->
  well_formed model_outputs top_k h max_answer_len ->
  0 <= top_k ->
  exists (r : Answers) (ranked : list Answer),
    postprocess model_outputs top_k h max_answer_len = Ok r /\
    Permutation ranked
      (merged model_outputs top_k h max_answer_len 1000000%Q
       ++ (if h then
             [{| score := fold_left Qmin (map null_score model_outputs) 1000000%Q;
                 answer := ""; start := 0; end_ := 0 |}]
           else [])) /\
    StronglySorted ge_score ranked /\
    answers_of r = firstn (Z.to_nat top_k) ranked /\
    List.length (answers_of r)
    = Nat.min (Z.to_nat top_k)
              (List.length (merged model_outputs top_k h max_answer_len 1000000%Q)
               + (if h then 1 else 0)).
Proof.
  intros Hnull Hwf Hk.
  destruct (postprocess_result model_outputs top_k h max_answer_len Hwf)
    as (r & Hr & Hans & _).
  rewrite (take_nonneg _ _ Hk) in Hans.
  assert (Hcand : candidates model_outputs top_k h max_answer_len
                  = merged model_outputs top_k h max_answer_len 1000000%Q
                    ++ (if h then
                          [{| score := fold_left Qmin (map null_score model_outputs)
                                         1000000%Q;
                              answer := ""; start := 0; end_ := 0 |}]
                        else [])).
  { unfold candidates, null_answer. destruct h; [| reflexivity].
    rewrite (final_null_score_min null_score) by (apply Hnull; reflexivity).
    reflexivity. }
  exists r, (sorted_desc (candidates model_outputs top_k h max_answer_len)).
  split; [exact Hr |]. split; [rewrite <- Hcand; apply sorted_desc_perm |].
  split; [apply sorted_desc_sorted |]. split; [exact Hans |].
  rewrite Hans, length_firstn, sorted_desc_length, Hcand, length_app.
  destruct h; reflexivity.
Qed.

(** C2 (as amended): the result is a single record exactly when one answer
    is left after the truncation to [top_k], and a list otherwise; the number
    of answers is the smaller of [top_k] and the number of candidates.  So
    with [top_k = 1] the result is a single record, or the empty list when
    there is no candidate; with [top_k > 1] it is a list of at most [top_k]
    records, or a single record when there is exactly one candidate. *)
Theorem postprocess_single_iff_one_answer
    (model_outputs : list ModelOutput) (top_k : Z) (h : bool) (max_answer_len : Z) :
  well_formed model_outputs top_k h max_answer_len ->
  1 <= top_k ->
  exists r : Answers,
    postprocess model_outputs top_k h max_answer_len = Ok r /\
    ((exists a, r = Single a) <-> List.length (answers_of r) = 1%nat) /\
    List.length (answers_of r)
    = Nat.min (Z.to_nat top_k)
              (List.length (candidates model_outputs top_k h max_answer_len)) /\
    Z.of_nat (List.length (answers_of r)) <= top_k /\
    (top_k = 1 -> r = Many [] \/ exists a, r = Single a).
Proof.
  intros Hwf Hk.
  destruct (postprocess_result model_outputs top_k h max_answer_len Hwf)
    as (r & Hr & Hans & Hshape).
  rewrite take_nonneg in Hans by lia.
  assert (Hlen : List.length (answers_of r)
                 = Nat.min (Z.to_nat top_k)
                           (List.length (candidates model_outputs top_k h max_answer_len))).
  { rewrite Hans, length_firstn, sorted_desc_length. reflexivity. }
  exists r. split; [exact Hr |]. split; [exact Hshape |]. split; [exact Hlen |].
  split; [lia |].
  intros ->. destruct r as [a | [| a l]].
  - right. exists a. reflexivity.
  - left. reflexivity.
  - exfalso. change (Z.to_nat 1) with 1%nat in Hlen.
    cbn [answers_of List.length] in Hlen.
    destruct l as [| b l]; [| cbn [List.length] in Hlen; lia].
    destruct (proj2 Hshape eq_refl) as [a0 Ha0]. discriminate Ha0.
Qed.

(** C10: when [handle_impossible_answer] is false and every selected span
    has a boundary token that belongs to no word, the result is the empty
    list. *)
Theorem postprocess_empty_when_nothing_survives
    (model_outputs : list ModelOutput) (top_k : Z) (max_answer_len : Z) :
  Forall (fun output =>
            forall m, all_dropped (out_word_ids output)
                        (fst (selected output m top_k false max_answer_len)))
         model_outputs ->
  postprocess model_outputs top_k false max_answer_len = Ok (Many []).
Proof.
  intros Hall.
  assert (Hnone : forall word_ids words sel,
             all_dropped word_ids sel ->
             in_range word_ids sel /\ surviving words word_ids sel = []).
  { intros word_ids words sel Hsel.
    induction Hsel as [| [[s e] sc] sel (ws & we & Hs & He & Hnone) _ [IHr IHs]].
    - split; [constructor | reflexivity].
    - split.
      + constructor; [| exact IHr].
        split; apply nth_error_Some; congruence.
      + simpl. rewrite Hs, He, IHs.
        destruct Hnone as [-> | ->]; [| destruct ws]; reflexivity. }
  assert (Hwf : well_formed model_outputs top_k false max_answer_len).
  { eapply Forall_impl; [| exact Hall]. intros output Hout m. apply (Hnone _ []), Hout. }
  assert (Hmerged : forall m, merged model_outputs top_k false max_answer_len m = []).
  { induction Hall as [| output rest Hout _ IH]; intros m; simpl; [reflexivity |].
    rewrite (proj2 (Hnone _ (out_words output) _ (Hout m))).
    apply IH. inversion Hwf; assumption. }
  destruct (postprocess_result model_outputs top_k false max_answer_len Hwf)
    as (r & Hr & Hans & Hshape).
  unfold candidates in Hans. rewrite Hmerged in Hans. cbn [app] in Hans.
  change (sorted_desc []) with (@nil Answer) in Hans.
  rewrite take_nil in Hans. rewrite Hr. f_equal.
  destruct r as [a | l]; [discriminate Hans | simpl in Hans; subst; reflexivity].
Qed.

End Ranking.

Lemma postprocess_merges_sorts_truncates_witness :
  exists (r : Answers) (ranked : list Answer),
    @postprocess Examples.pil Examples.helpers
      [Examples.france_output 12 13; Examples.france_output 13 13] 3 true 15 = Ok r /\
    Permutation ranked
      (@merged Examples.pil Examples.helpers
         [Examples.france_output 12 13; Examples.france_output 13 13] 3 true 15 1000000%Q
       ++ [{| score := fold_left Qmin
                         (map Examples.null_score
                              [Examples.france_output 12 13; Examples.france_output 13 13])
                         1000000%Q;
              answer := ""; start := 0; end_ := 0 |}]) /\
    StronglySorted ge_score ranked /\
    answers_of r = firstn (Z.to_nat 3) ranked /\
    List.length (answers_of r)
    = Nat.min (Z.to_nat 3)
              (List.length
                 (@merged Examples.pil Examples.helpers
                    [Examples.france_output 12 13; Examples.france_output 13 13]
                    3 true 15 1000000%Q)
               + 1).
Proof.
  apply (@postprocess_merges_sorts_truncates Examples.pil Examples.helpers
           Examples.null_score
           [Examples.france_output 12 13; Examples.france_output 13 13] 3 true 15).
  - intros _ output m. reflexivity.
  - constructor; [intros m; vm_compute; repeat constructor |].
    constructor; [intros m; vm_compute; repeat constructor | constructor].
  - lia.
Defined.

Lemma postprocess_single_iff_one_answer_witness :
  exists r : Answers,
    @postprocess Examples.pil Examples.helpers [Examples.one_word_output] 2 false 15
    = Ok r /\
    ((exists a, r = Single a) <-> List.length (answers_of r) = 1%nat) /\
    List.length (answers_of r)
    = Nat.min (Z.to_nat 2)
              (List.length (@candidates Examples.pil Examples.helpers
                              [Examples.one_word_output] 2 false 15)) /\
    Z.of_nat (List.length (answers_of r)) <= 2 /\
    (2 = 1 -> r = Many [] \/ exists a, r = Single a).
Proof.
  apply (@postprocess_single_iff_one_answer Examples.pil Examples.helpers
           [Examples.one_word_output] 2 false 15).
  - constructor; [intros m; vm_compute; repeat constructor | constructor].
  - lia.
Defined.

(** C2 (as stated) fails.  On a document of one word, [top_k = 2] leaves one
    answer and the result is a single record, not a list; on a document
    without words, [top_k = 1] leaves no answer and the result is the empty
    list, not a record. *)
Lemma postprocess_shape_counterexample :
  @postprocess Examples.pil Examples.helpers [Examples.one_word_output] 2 false 15
  = Ok (Single {| score := 10; answer := "Paris"; start := 0; end_ := 0 |})
  /\ ~ (exists l, @postprocess Examples.pil Examples.helpers
                    [Examples.one_word_output] 2 false 15 = Ok (Many l))
  /\ @postprocess Examples.pil Examples.helpers [Examples.no_word_output] 1 false 15
     = Ok (Many [])
  /\ ~ (exists a, @postprocess Examples.pil Examples.helpers
                    [Examples.no_word_output] 1 false 15 = Ok (Single a)).
Proof.
  split; [vm_compute; reflexivity |].
  split; [intros [x Hx]; vm_compute in Hx; discriminate Hx |].
  split; [vm_compute; reflexivity |].
  intros [x Hx]; vm_compute in Hx; discriminate Hx.
Qed.

Lemma postprocess_empty_when_nothing_survives_witness :
  @postprocess Examples.pil Examples.helpers [Examples.no_word_output] 1 false 15
  = Ok (Many []).
Proof.
  apply (@postprocess_empty_when_nothing_survives Examples.pil Examples.helpers
           [Examples.no_word_output] 1 15).
  constructor; [| constructor].
  intros m. vm_compute. constructor; [| constructor].
  exists None, None. repeat split. left. reflexivity.
Defined.

(** ** Construction of the OCR processors *)

Section ProcessorProperties.

Context `{Pytesseract} `{!EasyOCR}.

(** Every constructor calls the initializer of the base class without the
    [device] it requires. *)
Lemma construct_type_error (env : Installed) (c : processor_class)
    (args : list (option Z)) (tr : trace) :
  exists msg, construct env c args tr = (Raise (TypeError msg), tr)
              /\ (args = [] -> msg = missing_device).
Proof.
  destruct c, args as [| a args]; cbn; eexists; split;
    try reflexivity; intros Hargs; discriminate Hargs.
Qed.

(** Given its [device], the initializer of the base class does check the
    availability: an unavailable backend is rejected with [NoOCRReaderFound],
    and the fallback is accepted with a logged warning. *)
Lemma OCRProcessor__init__checks (env : Installed) (device : option Z) (tr : trace) :
  (TESSERACT_AVAILABLE env = false ->
   exists e, OCRProcessor__init__ env (allocate TesseractProcessor) [device] tr
             = (Raise (NoOCRReaderFound e), tr))
  /\ (EASYOCR_AVAILABLE env = false ->
      exists e, OCRProcessor__init__ env (allocate EasyOCRProcessor) [device] tr
                = (Raise (NoOCRReaderFound e), tr))
  /\ exists self,
       OCRProcessor__init__ env (allocate DummyProcessor) [device] tr
       = (Ok self,
          tr ++ [LogWarning "Unable to find OCR processor might not be needed"]).
Proof.
  split; [| split].
  - intros Hav. cbn. rewrite Hav. cbn. eexists. reflexivity.
  - intros Hav. cbn. rewrite Hav. cbn. eexists. reflexivity.
  - cbn. eexists. reflexivity.
Qed.

(** C9: constructing any concrete OCR processor fails with a [TypeError],
    whatever is installed and whatever arguments are passed; without
    arguments it is the missing [device] of the base initializer. *)
Theorem construct_always_fails :
  (forall (env : Installed) (c : processor_class) (tr : trace),
      construct env c [] tr = (Raise (TypeError missing_device), tr))
  /\ (forall (env : Installed) (c : processor_class) (args : list (option Z)) (tr : trace),
         exists msg, construct env c args tr = (Raise (TypeError msg), tr)).
Proof.
  split.
  - intros env c tr.
    destruct (construct_type_error env c [] tr) as (msg & Hc & Hmsg).
    rewrite Hc, (Hmsg eq_refl). reflexivity.
  - intros env c args tr.
    destruct (construct_type_error env c args tr) as (msg & Hc & _).
    exists msg. exact Hc.
Qed.

(** C7 fails on the code: the availability check is never reached.  No
    construction ends in [NoOCRReaderFound], none succeeds (not even the
    fallback's), and no warning is logged. *)
Theorem construct_never_checks_availability :
  forall (env : Installed) (c : processor_class) (args : list (option Z)) (tr : trace),
    (forall e tr', construct env c args tr <> (Raise (NoOCRReaderFound e), tr'))
    /\ (forall self tr', construct env c args tr <> (Ok self, tr'))
    /\ snd (construct env c args tr) = tr.
Proof.
  intros env c args tr.
  destruct (construct_type_error env c args tr) as (msg & Hc & _).
  rewrite Hc. repeat split; intros; discriminate.
Qed.

End ProcessorProperties.

(** ** The factory *)

(** Line 70 closes a brace with a parenthesis. *)
Lemma line_70_unbalanced :
  Factory.import_module
  = Raise (SyntaxError "closing parenthesis does not match opening parenthesis").
Proof. reflexivity. Qed.

(** Lines 42 to 68 resolve the defaults as the specification says. *)
Lemma get_pipeline_resolve_defaults (cuda : bool) (checkpoint revision device : option string) :
  let r := Factory.get_pipeline_resolve cuda checkpoint revision device in
  (checkpoint = None -> Factory.r_checkpoint r = Factory.CHECKPOINT)
  /\ (revision = None ->
      (Factory.r_revision r = Some Factory.REVISION
       <-> Factory.r_checkpoint r = Factory.CHECKPOINT))
  /\ (Factory.r_checkpoint r = Factory.CHECKPOINT ->
      Factory.r_add_prefix_space r = true
      /\ Factory.r_model r
         = Factory.LayoutLMForQuestionAnswering_from_pretrained
             Factory.CHECKPOINT (Factory.r_revision r)).
Proof.
  unfold Factory.get_pipeline_resolve.
  set (cp := match checkpoint with Some c => c | None => Factory.CHECKPOINT end).
  destruct (String.eqb_spec cp Factory.CHECKPOINT) as [Heq | Hne]; cbn.
  - split; [intros _; exact Heq |]. split.
    + intros ->. cbn. split; [intros _; exact Heq | reflexivity].
    + intros _. rewrite Heq. split; reflexivity.
  - split; [intros Hc; subst checkpoint; exact (False_ind _ (Hne eq_refl)) |]. split.
    + intros ->. split; [intros Hrev; discriminate Hrev | intros Hcp; contradiction].
    + intros Hcp. contradiction.
Qed.

(** C8 fails on the code: the module that defines [get_pipeline] does not
    compile, so no call of the factory reaches its body. *)
Theorem get_pipeline_never_runs :
  forall (cuda : bool) (checkpoint revision device : option string),
    Factory.get_pipeline cuda checkpoint revision device
    = Raise (SyntaxError "closing parenthesis does not match opening parenthesis").
Proof. intros cuda checkpoint revision device. reflexivity. Qed.

(** ** Parameter validation *)

Section CallProperties.

Context `{Pytesseract} `{!QAHelpers} `{!Pipeline}.

(** C4: a supplied [top_k] or [max_answer_len] below 1 makes
    [_sanitize_parameters] raise a [ValueError], and the call ends there:
    the trace of external work (image loading, OCR, tokenizer, model) is
    left as it was. *)
Theorem sanitize_rejects_before_any_work (kwargs : CallParams) :
  (exists k, top_k kwargs = Some k /\ k < 1)
  \/ (exists m, max_answer_len kwargs = Some m /\ m < 1) ->
  exists msg,
    _sanitize_parameters kwargs = Raise (ValueError msg) /\
    forall (args : CallArgs) (tr : trace),
      __call__ args kwargs tr = (Raise (ValueError msg), tr).
Proof.
  intros Hbad.
  assert (Hs : exists msg, _sanitize_parameters kwargs = Raise (ValueError msg)).
  { unfold _sanitize_parameters.
    destruct (top_k kwargs) as [k |] eqn:Hk.
    - destruct (Z.ltb_spec k 1) as [Hlt | Hge]; [eexists; reflexivity |].
      destruct Hbad as [(k' & Hk' & Hlt) | (m & Hm & Hlt)].
      + injection Hk' as <-. lia.
      + rewrite Hm. apply Z.ltb_lt in Hlt. cbn. rewrite Hlt. eexists. reflexivity.
    - destruct Hbad as [(k' & Hk' & _) | (m & Hm & Hlt)]; [discriminate Hk' |].
      rewrite Hm. apply Z.ltb_lt in Hlt. cbn. rewrite Hlt. eexists. reflexivity. }
  destruct Hs as (msg & Hs). exists msg. split; [exact Hs |].
  intros args tr. unfold __call__, ebind, lift. rewrite Hs. reflexivity.
Qed.

End CallProperties.

Lemma sanitize_rejects_before_any_work_witness :
  exists msg,
    _sanitize_parameters
      {| padding := None; doc_stride := None; max_question_len := None; lang := None;
         tesseract_config := None; max_answer_len := None; max_seq_len := None;
         top_k := Some 0; handle_impossible_answer := None |}
    = Raise (ValueError msg) /\
    forall (args : @CallArgs Examples.pil) (tr : trace),
      @__call__ Examples.pil Examples.pytesseract Examples.helpers (Examples.pipeline 13 13)
        args
        {| padding := None; doc_stride := None; max_question_len := None; lang := None;
           tesseract_config := None; max_answer_len := None; max_seq_len := None;
           top_k := Some 0; handle_impossible_answer := None |} tr
      = (Raise (ValueError msg), tr).
Proof.
  apply (@sanitize_rejects_before_any_work Examples.pil Examples.pytesseract
           Examples.helpers (Examples.pipeline 13 13)).
  left. exists 0. split; [reflexivity | lia].
Defined.

Example sanitize_messages :
  _sanitize_parameters
    {| padding := None; doc_stride := None; max_question_len := None; lang := None;
       tesseract_config := None; max_answer_len := Some (-2); max_seq_len := None;
       top_k := Some 3; handle_impossible_answer := None |}
  = Raise (ValueError "max_answer_len parameter should be >= 1 (got -2").
Proof. reflexivity. Qed.

(** ** Word boxes supplied by the caller *)

Section PreprocessProperties.

Context `{Pytesseract} `{!QAHelpers} `{!Pipeline}.

Lemma torch_tensor_Ok_inv (rows tensor : list (list Z)) :
  torch_tensor rows = Ok tensor -> tensor = rows.
Proof.
  unfold torch_tensor. destruct rows as [| row rest].
  - intros Heq. injection Heq as <-. reflexivity.
  - destruct (forallb _ rest); intros Heq; [| discriminate Heq].
    injection Heq as <-. reflexivity.
Qed.

(** A chunk carries the words it was given, and every box of its [bbox] is
    one of the boxes it was given or one of the two fixed boxes. *)
Lemma preprocess_span_verbatim (words : list string) (boxes : list (list Z))
    (image_features : ImageFeatures) (span : Span) (chunk : Chunk) :
  preprocess_span words boxes image_features span = Ok chunk ->
  ch_words chunk = words /\
  Forall (fun b => In b boxes \/ b = [1000; 1000; 1000; 1000] \/ b = [0; 0; 0; 0])
         (mi_bbox (ch_inputs chunk)).
Proof.
  unfold preprocess_span. intros Hspan.
  apply bind_Ok_inv in Hspan as (u & _ & Hspan).
  apply bind_Ok_inv in Hspan as (p_mask & _ & Hspan).
  apply bind_Ok_inv in Hspan as (bbox & Hbbox & Hspan).
  apply bind_Ok_inv in Hspan as (tensor & Htensor & Hspan).
  apply torch_tensor_Ok_inv in Htensor as ->.
  injection Hspan as <-. cbn. split; [reflexivity |].
  eapply mmap_Forall; [| exact Hbbox].
  intros [[i s] w] b. cbn beta iota.
  destruct (is_one s).
  - destruct w as [w |]; [| discriminate]. unfold index.
    destruct (nth_error boxes w) as [b' |] eqn:Hb; [| discriminate].
    intros Heq. injection Heq as <-. left. eapply nth_error_In. exact Hb.
  - destruct (match sep_token_id with Some sep => i =? sep | None => false end);
      intros Heq; injection Heq as <-; [right; left | right; right]; reflexivity.
Qed.

Lemma generate_verbatim (words : list string) (boxes : list (list Z))
    (image_features : ImageFeatures) (encoding : list Span) :
  Forall (fun chunk =>
            ch_words chunk = words /\
            Forall (fun b => In b boxes \/ b = [1000; 1000; 1000; 1000] \/ b = [0; 0; 0; 0])
                   (mi_bbox (ch_inputs chunk)))
         (fst (generate (preprocess_span words boxes image_features) encoding)).
Proof.
  induction encoding as [| span encoding IH]; simpl; [constructor |].
  destruct (preprocess_span words boxes image_features span) as [chunk | e] eqn:Hspan;
    [| constructor].
  destruct (generate (preprocess_span words boxes image_features) encoding) as [chunks stopped].
  simpl. constructor; [eapply preprocess_span_verbatim; exact Hspan | exact IH].
Qed.

(** Decoding the image and extracting its features never runs OCR and never
    calls the tokenizer. *)
Lemma preprocess_image_trace (input : Input) (tr : trace) :
  exists evs,
    snd (preprocess_image input tr) = tr ++ evs /\
    Forall (fun ev => ev = CallLoadImage \/ ev = CallFeatureExtractor) evs.
Proof.
  unfold preprocess_image.
  destruct (in_image input) as [src |]; [| exists []; cbn; rewrite app_nil_r; split; constructor].
  destruct VISION_LOADED; cbn; [| exists []; cbn; rewrite app_nil_r; split; constructor].
  unfold ebind, emit, lift.
  destruct (load_image src) as [image | e];
    [| exists [CallLoadImage]; split; [reflexivity | repeat constructor]].
  destruct feature_extractor as [fe |]; cbn.
  - exists [CallLoadImage; CallFeatureExtractor]. rewrite <- app_assoc.
    split; [reflexivity |]. constructor; [left; reflexivity |].
    constructor; [right; reflexivity | constructor].
  - exists [CallLoadImage]. split; [reflexivity | repeat constructor].
Qed.

(** C3: when the input has both [word_boxes] and an image, preprocessing
    never calls the OCR engine; the words and boxes it resolves are the
    supplied ones, in order; the tokenizer is given exactly these words; and
    every chunk carries exactly these words, with every box of its [bbox]
    one of the supplied boxes or one of the two fixed boxes. *)
Theorem word_boxes_take_precedence (input : Input) (word_boxes : list (string * list Z))
    (src : ImageSource) (padding : string) (doc_stride : option Z) (max_question_len : Z)
    (max_seq_len : option Z) (lang : option string) (tesseract_config : string)
    (tr : trace) :
  in_word_boxes input = Some word_boxes ->
  in_image input = Some src ->
  (forall image image_features tr0,
      preprocess_words_boxes input image image_features lang tesseract_config tr0
      = (Ok (map fst word_boxes, map snd word_boxes, image_features), tr0))
  /\ exists evs,
       snd (preprocess input padding doc_stride max_question_len max_seq_len lang
              tesseract_config tr) = tr ++ evs /\
       ~ In CallImageToData evs /\
       (forall text text_pair,
           In (CallTokenizer text text_pair) evs -> text_pair = map fst word_boxes) /\
       (forall chunks stopped,
           fst (preprocess input padding doc_stride max_question_len max_seq_len lang
                  tesseract_config tr) = Ok (chunks, stopped) ->
           Forall (fun chunk =>
                     ch_words chunk = map fst word_boxes /\
                     Forall (fun b => In b (map snd word_boxes)
                                      \/ b = [1000; 1000; 1000; 1000]
                                      \/ b = [0; 0; 0; 0])
                            (mi_bbox (ch_inputs chunk)))
                  chunks).
Proof.
  intros Hwb Himg.
  assert (Hres : forall image image_features tr0,
             preprocess_words_boxes input image image_features lang tesseract_config tr0
             = (Ok (map fst word_boxes, map snd word_boxes, image_features), tr0)).
  { intros image image_features tr0. unfold preprocess_words_boxes.
    rewrite Hwb. reflexivity. }
  split; [exact Hres |].
  destruct (preprocess_image_trace input tr) as (evs & Htr & Hevs).
  assert (Hfree : forall more,
             Forall (fun ev => exists t, ev = CallTokenizer t (map fst word_boxes)) more ->
             ~ In CallImageToData (evs ++ more) /\
             (forall text text_pair,
                 In (CallTokenizer text text_pair) (evs ++ more) ->
                 text_pair = map fst word_boxes)).
  { intros more Hmore. rewrite Forall_forall in Hevs, Hmore. split.
    - intros Hin. apply in_app_or in Hin as [Hin | Hin].
      + destruct (Hevs _ Hin) as [Heq | Heq]; discriminate Heq.
      + destruct (Hmore _ Hin) as [t Heq]. discriminate Heq.
    - intros text text_pair Hin. apply in_app_or in Hin as [Hin | Hin].
      + destruct (Hevs _ Hin) as [Heq | Heq]; discriminate Heq.
      + destruct (Hmore _ Hin) as [t Heq]. injection Heq as _ ->. reflexivity. }
  unfold preprocess, ebind.
  destruct (preprocess_image input tr) as [[[image image_features] | e] tr1];
    cbn [snd] in Htr; subst tr1.
  - rewrite Hres.
    destruct (padding_side =? "right")%string; cbn [negb].
    + unfold lift, emit, ret. destruct (in_question input) as [question |].
      * exists (evs ++ [CallTokenizer (split question) (map fst word_boxes)]).
        cbn [fst snd]. rewrite app_assoc. split; [reflexivity |].
        destruct (Hfree [CallTokenizer (split question) (map fst word_boxes)]) as [Hocr Htok].
        { constructor; [eexists; reflexivity | constructor]. }
        split; [exact Hocr |]. split; [exact Htok |].
        intros chunks stopped Hgen. injection Hgen as Hgen.
        pose proof (generate_verbatim (map fst word_boxes) (map snd word_boxes)
                      image_features
                      (tokenize (split question) (map fst word_boxes) padding
                         match max_seq_len with
                         | Some v => v
                         | None => Z.min model_max_length 512
                         end
                         match doc_stride with
                         | Some v => v
                         | None =>
                             Z.min
                               (match max_seq_len with
                                | Some v => v
                                | None => Z.min model_max_length 512
                                end / 2) 128
                         end)) as Hall.
        rewrite Hgen in Hall. exact Hall.
      * exists evs. cbn [fst snd]. split; [reflexivity |].
        destruct (Hfree []) as [Hocr Htok]; [constructor |].
        rewrite app_nil_r in Hocr, Htok.
        split; [exact Hocr |]. split; [exact Htok |].
        intros chunks stopped Hgen. discriminate Hgen.
    + exists evs. cbn [fst snd raise]. split; [reflexivity |].
      destruct (Hfree []) as [Hocr Htok]; [constructor |].
      rewrite app_nil_r in Hocr, Htok.
      split; [exact Hocr |]. split; [exact Htok |].
      intros chunks stopped Hgen. discriminate Hgen.
  - exists evs. cbn [fst snd]. split; [reflexivity |].
    destruct (Hfree []) as [Hocr Htok]; [constructor |].
    rewrite app_nil_r in Hocr, Htok.
    split; [exact Hocr |]. split; [exact Htok |].
    intros chunks stopped Hgen. discriminate Hgen.
Qed.

End PreprocessProperties.

Lemma word_boxes_take_precedence_witness :
  (forall image image_features tr0,
      @preprocess_words_boxes Examples.pil Examples.pytesseract Examples.helpers
        Examples.france_input image image_features None "" tr0
      = (Ok (map fst Examples.france, map snd Examples.france, image_features), tr0))
  /\ exists evs,
       snd (@preprocess Examples.pil Examples.pytesseract Examples.helpers
              (Examples.pipeline 13 13) Examples.france_input "do_not_pad" None 64 None
              None "" []) = [] ++ evs /\
       ~ In CallImageToData evs /\
       (forall text text_pair,
           In (CallTokenizer text text_pair) evs -> text_pair = map fst Examples.france) /\
       (forall chunks stopped,
           fst (@preprocess Examples.pil Examples.pytesseract Examples.helpers
                  (Examples.pipeline 13 13) Examples.france_input "do_not_pad" None 64
                  None None "" []) = Ok (chunks, stopped) ->
           Forall (fun chunk =>
                     ch_words chunk = map fst Examples.france /\
                     Forall (fun b => In b (map snd Examples.france)
                                      \/ b = [1000; 1000; 1000; 1000]
                                      \/ b = [0; 0; 0; 0])
                            (mi_bbox (ch_inputs chunk)))
                  chunks).
Proof.
  apply (@word_boxes_take_precedence Examples.pil Examples.pytesseract Examples.helpers
           (Examples.pipeline 13 13) Examples.france_input Examples.france
           (@Decoded Examples.pil (1000, 500)) "do_not_pad" None 64 None None "" []).
  - reflexivity.
  - reflexivity.
Defined.

(** On the example, preprocessing does return one chunk, and the whole call
    answers "Paris" without any OCR. *)
Example france_call :
  @__call__ Examples.pil Examples.pytesseract Examples.helpers (Examples.pipeline 13 13)
    (ByKeywords (Some (@Decoded Examples.pil (1000, 500)))
                "What is the capital of France?" (Some Examples.france))
    Examples.no_params []
  = (Ok (Single {| score := 10; answer := "Paris"; start := 5; end_ := 5 |}),
     [CallLoadImage;
      CallTokenizer ["What"; "is"; "the"; "capital"; "of"; "France?"]
                    ["The"; "capital"; "of"; "France"; "is"; "Paris"; "."];
      CallModel]).
Proof. vm_compute. reflexivity. Qed.

(** Without word boxes the same call runs OCR. *)
Example ocr_call :
  snd (@__call__ Examples.pil Examples.pytesseract Examples.helpers (Examples.pipeline 9 9)
         (ByKeywords (Some (@Decoded Examples.pil (300, 200))) "Which number?" None)
         Examples.no_params [])
  = [CallLoadImage; CallImageToData;
     CallTokenizer ["Which"; "number?"] ["Invoice"; "42"]; CallModel].
Proof. vm_compute. reflexivity. Qed.

(** The example outputs are what the pipeline computes: the chunk that
    [preprocess] yields for the example input, run through [_forward]. *)
Example france_output_from_pipeline :
  match @preprocess Examples.pil Examples.pytesseract Examples.helpers
          (Examples.pipeline 13 13) Examples.france_input "do_not_pad" None 64 None
          None "" [] with
  | (Ok ([chunk], None), _) =>
      fst (@_forward Examples.pil (Examples.pipeline 13 13) chunk [])
      = Ok (Examples.france_output 13 13)
  | _ => False
  end.
Proof. vm_compute. reflexivity. Qed.

Example one_word_output_from_pipeline :
  match @preprocess Examples.pil Examples.pytesseract Examples.helpers
          (Examples.pipeline 3 3)
          {| in_image := None; in_question := Some "Where?";
             in_word_boxes := Some [("Paris", [270; 10; 330; 20])] |}
          "do_not_pad" None 64 None None "" [] with
  | (Ok ([chunk], None), _) =>
      fst (@_forward Examples.pil (Examples.pipeline 3 3) chunk [])
      = Ok Examples.one_word_output
  | _ => False
  end.
Proof. vm_compute. reflexivity. Qed.

Example no_word_output_from_pipeline :
  match @preprocess Examples.pil Examples.pytesseract Examples.helpers
          (Examples.pipeline 0 0)
          {| in_image := None; in_question := Some "Where?"; in_word_boxes := Some [] |}
          "do_not_pad" None 64 None None "" [] with
  | (Ok ([chunk], None), _) =>
      fst (@_forward Examples.pil (Examples.pipeline 0 0) chunk [])
      = Ok Examples.no_word_output
  | _ => False
  end.
Proof. vm_compute. reflexivity. Qed.

(** * Further properties *)

(** ** Box normalization: signs and errors *)

Lemma binary_round_aux_sign (s : bool) (m e : Z) (l : location) :
  binary_round_aux PyFloat.prec PyFloat.emax s m e l
  = with_sign s (binary_round_aux PyFloat.prec PyFloat.emax false m e l).
Proof.
  unfold binary_round_aux.
  destruct (shr_fexp PyFloat.prec PyFloat.emax m e l) as [mrs' e'].
  destruct (shr_fexp PyFloat.prec PyFloat.emax
              (round_nearest_even (shr_m mrs') (loc_of_shr_record mrs')) e' loc_Exact)
    as [mrs'' e''].
  destruct (shr_m mrs'') as [| p | p]; [reflexivity | | reflexivity].
  destruct (Z.leb e'' (Z.sub PyFloat.emax PyFloat.prec)); reflexivity.
Qed.

Lemma with_sign_idem (s t : bool) (x : spec_float) :
  with_sign s (with_sign t x) = with_sign s x.
Proof. destruct x; reflexivity. Qed.

Lemma of_int_sign (c : Z) :
  PyFloat.of_int c = with_sign (sign_of c) (PyFloat.of_int (Z.abs c)).
Proof. destruct c; reflexivity. Qed.

Lemma SFdiv_ints_sign (c d : Z) :
  d <> 0 ->
  SFdiv PyFloat.prec PyFloat.emax (PyFloat.of_int c) (PyFloat.of_int d)
  = with_sign (xorb (sign_of c) (sign_of d))
      (SFdiv PyFloat.prec PyFloat.emax (PyFloat.of_int (Z.abs c)) (PyFloat.of_int (Z.abs d))).
Proof.
  intros Hd. destruct d as [| q | q]; [contradiction | |];
    destruct c as [| p | p]; try reflexivity;
    cbn [PyFloat.of_int Z.abs sign_of SFdiv xorb];
    destruct (SFdiv_core_binary PyFloat.prec PyFloat.emax (Z.pos p) 0 (Z.pos q) 0)
      as [[mz ez] lz];
    apply binary_round_aux_sign.
Qed.

Lemma SFdiv_abs_sign (c d : Z) :
  d <> 0 ->
  SFdiv PyFloat.prec PyFloat.emax (PyFloat.of_int (Z.abs c)) (PyFloat.of_int (Z.abs d))
  = with_sign false
      (SFdiv PyFloat.prec PyFloat.emax (PyFloat.of_int (Z.abs c)) (PyFloat.of_int (Z.abs d))).
Proof.
  intros Hd. destruct d as [| q | q]; [contradiction | |];
    destruct c as [| p | p]; try reflexivity;
    cbn [PyFloat.of_int Z.abs SFdiv xorb];
    destruct (SFdiv_core_binary PyFloat.prec PyFloat.emax (Z.pos p) 0 (Z.pos q) 0)
      as [[mz ez] lz];
    apply binary_round_aux_sign.
Qed.

Lemma mul_int_sign (n : positive) (s : bool) (x : spec_float) :
  PyFloat.mul_int (Z.pos n) (with_sign s x)
  = with_sign s (PyFloat.mul_int (Z.pos n) (with_sign false x)).
Proof.
  unfold PyFloat.mul_int. destruct x as [t | t | | t m e];
    cbn [with_sign PyFloat.of_int SFmul xorb]; try reflexivity.
  rewrite (binary_round_aux_sign s), (binary_round_aux_sign false), with_sign_idem.
  reflexivity.
Qed.

Lemma to_int_sign (s : bool) (x : spec_float) :
  PyFloat.to_int (with_sign s x)
  = (v <- PyFloat.to_int (with_sign false x) ;; Ok (cond_Zopp s v)).
Proof. destruct x as [t | t | | t m e], s; reflexivity. Qed.

Lemma to_int_nonneg (x : spec_float) (v : Z) :
  PyFloat.to_int (with_sign false x) = Ok v -> 0 <= v.
Proof.
  destruct x as [t | t | | t m e]; simpl; intros Heq; try discriminate Heq;
    injection Heq as <-; [lia |].
  apply Z.shiftl_nonneg. lia.
Qed.

(** The magnitude of a scaled coordinate depends on the magnitudes alone,
    and its sign on the signs alone. *)
Lemma scale_sign (c d : Z) :
  scale c d
  = (v <- scale (Z.abs c) (Z.abs d) ;; Ok (cond_Zopp (xorb (sign_of c) (sign_of d)) v)).
Proof.
  unfold scale, PyFloat.truediv.
  destruct (Z.eqb_spec d 0) as [-> | Hd]; [reflexivity |].
  destruct (Z.eqb_spec (Z.abs d) 0) as [Habs | _]; [lia |].
  rewrite (SFdiv_ints_sign c d Hd).
  set (q := SFdiv PyFloat.prec PyFloat.emax (PyFloat.of_int (Z.abs c))
              (PyFloat.of_int (Z.abs d))).
  assert (Hq : q = with_sign false q).
  { unfold q. apply SFdiv_abs_sign. exact Hd. }
  set (s := xorb (sign_of c) (sign_of d)).
  destruct q as [t | t | | t m e]; cbn [with_sign bind].
  - destruct s; reflexivity.
  - reflexivity.
  - destruct s; reflexivity.
  - cbn [with_sign] in Hq. injection Hq as ->.
    pose proof (mul_int_sign 1000 false (S754_finite false m e)) as HX.
    cbn [with_sign] in HX.
    change (S754_finite s m e) with (with_sign s (S754_finite false m e)).
    rewrite (mul_int_sign 1000 s). cbn [with_sign].
    rewrite to_int_sign, <- HX. reflexivity.
Qed.

Lemma scale_abs_nonneg (c d v : Z) : scale (Z.abs c) (Z.abs d) = Ok v -> 0 <= v.
Proof.
  unfold scale, PyFloat.truediv.
  destruct (Z.eqb_spec (Z.abs d) 0) as [_ | Hd]; [discriminate |].
  assert (Hd' : d <> 0) by lia.
  rewrite (SFdiv_abs_sign c d Hd').
  destruct (SFdiv PyFloat.prec PyFloat.emax (PyFloat.of_int (Z.abs c))
              (PyFloat.of_int (Z.abs d))) as [t | t | | t m e];
    cbn [with_sign bind]; try discriminate.
  - change (S754_zero false) with (with_sign false (S754_zero false)).
    rewrite (mul_int_sign 1000 false). apply to_int_nonneg.
  - change (S754_finite false m e) with (with_sign false (S754_finite false m e)).
    rewrite (mul_int_sign 1000 false). apply to_int_nonneg.
Qed.

Lemma scale_opp (c d : Z) : scale (- c) d = (v <- scale c d ;; Ok (- v)).
Proof.
  rewrite (scale_sign (- c) d), (scale_sign c d), Z.abs_opp.
  destruct (scale (Z.abs c) (Z.abs d)) as [v | e] eqn:Hv; [| reflexivity].
  cbn [bind]. f_equal.
  destruct c as [| p | p].
  - assert (v = 0) as ->.
    { unfold scale, PyFloat.truediv in Hv. cbn [Z.abs PyFloat.of_int] in Hv.
      destruct (Z.abs d) as [| q | q]; cbn in Hv; try discriminate Hv;
        injection Hv as <-; reflexivity. }
    destruct (sign_of d); reflexivity.
  - cbn [Z.opp sign_of]. destruct (sign_of d); cbn; lia.
  - cbn [Z.opp sign_of]. destruct (sign_of d); cbn; lia.
Qed.

Lemma scale_nonneg (c d v : Z) : 0 <= c -> 0 <= d -> scale c d = Ok v -> 0 <= v.
Proof.
  intros Hc Hd. rewrite scale_sign.
  replace (sign_of c) with false by (destruct c; [reflexivity | reflexivity | lia]).
  replace (sign_of d) with false by (destruct d; [reflexivity | reflexivity | lia]).
  intros Hv. apply bind_Ok_inv in Hv as (v0 & Hv0 & Hv). injection Hv as <-.
  cbn [xorb cond_Zopp]. eapply scale_abs_nonneg. exact Hv0.
Qed.

Lemma index_map {A B : Type} (f : A -> B) (l : list A) (i : nat) :
  index (map f l) i = (x <- index l i ;; Ok (f x)).
Proof.
  unfold index. rewrite nth_error_map. destruct (nth_error l i); reflexivity.
Qed.

(** X1: the pipeline's normalization is odd: negating every coordinate of a
    box negates every component of the result, and leaves the outcome
    (result or exception) otherwise unchanged; the scaled coordinates are
    truncated toward zero, not toward minus infinity. *)
Theorem normalize_box_odd (box : list Z) (width height : Z) :
  normalize_box (map Z.opp box) width height
  = (r <- normalize_box box width height ;; Ok (map Z.opp r)).
Proof.
  unfold normalize_box. rewrite !index_map.
  destruct (index box 0) as [b0 | e]; cbn [bind]; [| reflexivity].
  rewrite scale_opp. destruct (scale b0 width) as [c0 | e]; cbn [bind]; [| reflexivity].
  destruct (index box 1) as [b1 | e]; cbn [bind]; [| reflexivity].
  rewrite scale_opp. destruct (scale b1 height) as [c1 | e]; cbn [bind]; [| reflexivity].
  destruct (index box 2) as [b2 | e]; cbn [bind]; [| reflexivity].
  rewrite scale_opp. destruct (scale b2 width) as [c2 | e]; cbn [bind]; [| reflexivity].
  destruct (index box 3) as [b3 | e]; cbn [bind]; [| reflexivity].
  rewrite scale_opp. destruct (scale b3 height) as [c3 | e]; cbn [bind]; reflexivity.
Qed.

(** X2: on a box with non-negative coordinates and an image with
    non-negative dimensions, no component of the pipeline's normalized box
    is negative. *)
Theorem normalize_box_nonnegative (box : list Z) (width height : Z) (out : list Z) :
  Forall (fun c => 0 <= c) box ->
  0 <= width -> 0 <= height ->
  normalize_box box width height = Ok out ->
  Forall (fun c => 0 <= c) out.
Proof.
  intros Hbox Hw Hh Hout. unfold normalize_box in Hout.
  assert (Hidx : forall i b, index box i = Ok b -> 0 <= b).
  { intros i b Hb. unfold index in Hb.
    destruct (nth_error box i) as [x |] eqn:Hx; [| discriminate Hb].
    injection Hb as <-. apply nth_error_In in Hx.
    rewrite Forall_forall in Hbox. apply Hbox. exact Hx. }
  apply bind_Ok_inv in Hout as (b0 & Hb0 & Hout).
  apply bind_Ok_inv in Hout as (c0 & Hc0 & Hout).
  apply bind_Ok_inv in Hout as (b1 & Hb1 & Hout).
  apply bind_Ok_inv in Hout as (c1 & Hc1 & Hout).
  apply bind_Ok_inv in Hout as (b2 & Hb2 & Hout).
  apply bind_Ok_inv in Hout as (c2 & Hc2 & Hout).
  apply bind_Ok_inv in Hout as (b3 & Hb3 & Hout).
  apply bind_Ok_inv in Hout as (c3 & Hc3 & Hout).
  injection Hout as <-.
  pose proof (scale_nonneg b0 width c0 (Hidx _ _ Hb0) Hw Hc0) as H0.
  pose proof (scale_nonneg b1 height c1 (Hidx _ _ Hb1) Hh Hc1) as H1.
  pose proof (scale_nonneg b2 width c2 (Hidx _ _ Hb2) Hw Hc2) as H2.
  pose proof (scale_nonneg b3 height c3 (Hidx _ _ Hb3) Hh Hc3) as H3.
  constructor; [exact H0 |]. constructor; [exact H1 |].
  constructor; [exact H2 |]. constructor; [exact H3 | constructor].
Qed.

Lemma normalize_box_nonnegative_witness :
  Forall (fun c => 0 <= c) [33; 100; 366; 150].
Proof.
  apply (normalize_box_nonnegative [10; 20; 110; 30] 300 200).
  - repeat constructor; lia.
  - lia.
  - lia.
  - vm_compute. reflexivity.
Defined.

(** X3: the pipeline's [normalize_box] returns only for a box of at least
    four entries and an image with non-zero width and height, and then
    returns four components; it reads the first four entries only; on an
    empty box it raises [IndexError], and on an image of width zero it raises
    [ZeroDivisionError] for every non-empty box. *)
Theorem normalize_box_needs_four_and_nonzero_size :
  (forall (box : list Z) (width height : Z) (out : list Z),
      normalize_box box width height = Ok out ->
      (4 <= List.length box)%nat /\ width <> 0 /\ height <> 0
      /\ List.length out = 4%nat)
  /\ (forall (box : list Z) (width height : Z),
         normalize_box box width height = normalize_box (firstn 4 box) width height)
  /\ (forall width height : Z, normalize_box [] width height = Raise IndexError)
  /\ (forall (b : Z) (rest : list Z) (height : Z),
         normalize_box (b :: rest) 0 height = Raise ZeroDivisionError).
Proof.
  split; [| split; [| split]].
  - intros box width height out Hout. unfold normalize_box in Hout.
    apply bind_Ok_inv in Hout as (b0 & Hb0 & Hout).
    apply bind_Ok_inv in Hout as (c0 & Hc0 & Hout).
    apply bind_Ok_inv in Hout as (b1 & Hb1 & Hout).
    apply bind_Ok_inv in Hout as (c1 & Hc1 & Hout).
    apply bind_Ok_inv in Hout as (b2 & Hb2 & Hout).
    apply bind_Ok_inv in Hout as (c2 & Hc2 & Hout).
    apply bind_Ok_inv in Hout as (b3 & Hb3 & Hout).
    apply bind_Ok_inv in Hout as (c3 & Hc3 & Hout).
    injection Hout as <-.
    repeat split.
    + unfold index in Hb3. destruct (nth_error box 3) as [x |] eqn:Hx; [| discriminate Hb3].
      assert (Hlt : (3 < List.length box)%nat) by (apply nth_error_Some; congruence).
      lia.
    + intros ->. rewrite (proj2 (scale_zero_division b0 0) eq_refl) in Hc0. discriminate Hc0.
    + intros ->. rewrite (proj2 (scale_zero_division b1 0) eq_refl) in Hc1. discriminate Hc1.
  - intros box width height. unfold normalize_box, index.
    destruct box as [| b0 [| b1 [| b2 [| b3 rest]]]]; reflexivity.
  - intros width height. reflexivity.
  - intros b rest height. unfold normalize_box. cbn [index nth_error bind].
    rewrite (proj2 (scale_zero_division b 0) eq_refl). reflexivity.
Qed.

Lemma normalize_box_needs_four_and_nonzero_size_witness :
  (4 <= List.length [10; 20; 110; 30; 7])%nat /\ 300 <> 0 /\ 200 <> 0
  /\ List.length [33; 100; 366; 150] = 4%nat.
Proof.
  apply (proj1 normalize_box_needs_four_and_nonzero_size [10; 20; 110; 30; 7] 300 200).
  vm_compute. reflexivity.
Defined.

(** ** OCR output: edge cases and the two Tesseract paths *)

Lemma mmap_bind_map {A B C : Type} (f : A -> result B) (g : B -> C) (l : list A) :
  mmap (fun x => r <- f x ;; Ok (g r)) l = (rs <- mmap f l ;; Ok (map g rs)).
Proof.
  induction l as [| x l IH]; cbn [mmap]; [reflexivity |].
  destruct (f x) as [y | e]; cbn [bind]; [| reflexivity].
  rewrite IH. destruct (mmap f l) as [ys | e]; reflexivity.
Qed.

Lemma mmap_ext {A B : Type} (f g : A -> result B) (l : list A) :
  (forall x, f x = g x) -> mmap f l = mmap g l.
Proof.
  intros Hfg. induction l as [| x l IH]; cbn [mmap]; [reflexivity |].
  rewrite Hfg, IH. reflexivity.
Qed.

Lemma nonblank_indices_nil (words : list string) :
  Forall (fun w => all_space w = true) words -> nonblank_indices words = [].
Proof.
  intros Hall. unfold nonblank_indices.
  assert (Hf : forall l, Forall (fun i => (i < List.length words)%nat) l ->
                         filter (fun i => negb (all_space (nth i words ""))) l = []).
  { induction l as [| i l IH]; intros Hl; [reflexivity |].
    inversion Hl as [| ? ? Hi Hl']; subst. cbn [filter].
    rewrite Forall_forall in Hall. rewrite (Hall _ (nth_In words "" Hi)).
    apply IH. exact Hl'. }
  apply Hf. apply Forall_forall. intros i Hi. apply in_seq in Hi. lia.
Qed.

Lemma nonblank_indices_cons (words : list string) :
  Exists (fun w => all_space w = false) words ->
  exists i rest, nonblank_indices words = i :: rest.
Proof.
  intros Hex. apply Exists_exists in Hex as (w & Hw & Hns).
  apply (In_nth _ _ "") in Hw as (i & Hi & Hnth).
  assert (Hin : In i (nonblank_indices words)).
  { unfold nonblank_indices. apply filter_In. split.
    - apply in_seq. lia.
    - rewrite Hnth, Hns. reflexivity. }
  destruct (nonblank_indices words) as [| j rest]; [contradiction |].
  exists j, rest. reflexivity.
Qed.

Section OCREdgeCases.

Context `{Pytesseract} `{!EasyOCR}.

(** With aligned columns, [apply_tesseract] normalizes the boxes of the
    non-blank detections, in order. *)
Lemma apply_tesseract_aligned (image : Image) (lang cfg : option string) (tr : trace) :
  columns_aligned (image_to_data image lang cfg) ->
  apply_tesseract image lang cfg tr
  = ((normalized_boxes <-
        mmap (fun box => normalize_box box (fst (size image)) (snd (size image)))
             (map (box_at (image_to_data image lang cfg))
                  (nonblank_indices (text (image_to_data image lang cfg)))) ;;
      _ <- assert_ (List.length
                      (map (fun i => nth i (text (image_to_data image lang cfg)) "")
                           (nonblank_indices (text (image_to_data image lang cfg))))
                    =? List.length normalized_boxes)%nat
                   "Not as many words as there are bounding boxes" ;;
      Ok (map (fun i => nth i (text (image_to_data image lang cfg)) "")
              (nonblank_indices (text (image_to_data image lang cfg))),
          normalized_boxes)),
     tr ++ [CallImageToData]).
Proof.
  intros (Hl & Ht & Hw & Hh).
  unfold apply_tesseract, ebind, emit, lift. cbn beta iota zeta.
  destruct (size image) as [image_width image_height]. cbn [fst snd].
  rewrite (drop_blank_indices 0 _ _ Hl), (drop_blank_indices 0 _ _ Ht),
    (drop_blank_indices 0 _ _ Hw), (drop_blank_indices 0 _ _ Hh), kept_words.
  rewrite zip4_map, map_map. reflexivity.
Qed.

(** X4: on a page where Tesseract reports only blank texts (or nothing),
    [apply_tesseract] returns two empty lists, whatever the size of the
    image, zero included. *)
Theorem apply_tesseract_blank_page (image : Image) (lang cfg : option string)
    (tr : trace) :
  columns_aligned (image_to_data image lang cfg) ->
  Forall (fun w => all_space w = true) (text (image_to_data image lang cfg)) ->
  apply_tesseract image lang cfg tr = (Ok ([], []), tr ++ [CallImageToData]).
Proof.
  intros Hcols Hblank. rewrite (apply_tesseract_aligned _ _ _ _ Hcols).
  rewrite (nonblank_indices_nil _ Hblank). reflexivity.
Qed.

(** X5: on an image of width zero, [apply_tesseract] raises
    [ZeroDivisionError] as soon as one detection has a non-blank text. *)
Theorem apply_tesseract_zero_width (image : Image) (lang cfg : option string)
    (tr : trace) :
  columns_aligned (image_to_data image lang cfg) ->
  Exists (fun w => all_space w = false) (text (image_to_data image lang cfg)) ->
  fst (size image) = 0 ->
  apply_tesseract image lang cfg tr = (Raise ZeroDivisionError, tr ++ [CallImageToData]).
Proof.
  intros Hcols Hword Hzero. rewrite (apply_tesseract_aligned _ _ _ _ Hcols).
  destruct (nonblank_indices_cons _ Hword) as (i & rest & ->).
  rewrite Hzero. cbn [map mmap]. unfold box_at at 1, normalize_box at 1.
  cbn [index nth_error bind].
  rewrite (proj2 (scale_zero_division _ 0) eq_refl). reflexivity.
Qed.

(** X6: [TesseractProcessor.apply_ocr] is [apply_tesseract] with the default
    language and configuration, followed by the clamp of every box
    component: same words, same exception if any, same call of the engine. *)
Theorem tesseract_processor_clamps_pipeline (self : processor) (image : Image)
    (tr : trace) :
  TesseractProcessor_apply_ocr self image tr
  = (match fst (apply_tesseract image None (Some "") tr) with
     | Ok (words, boxes) => Ok (words, map (map clamp) boxes)
     | Raise e => Raise e
     end,
     snd (apply_tesseract image None (Some "") tr)).
Proof.
  unfold TesseractProcessor_apply_ocr, apply_tesseract, ebind, emit, lift.
  cbn beta iota zeta. destruct (size image) as [image_width image_height].
  cbn [fst snd]. f_equal.
  set (words := drop_indices _ (text _)).
  set (actual_boxes := map _ (zip4 _ _ _ _)).
  transitivity
    (normalized_boxes <-
       mmap (fun box => r <- normalize_box box image_width image_height ;;
                        Ok (map clamp r)) actual_boxes ;;
     _ <- assert_ (List.length words =? List.length normalized_boxes)%nat
                  "Not as many words as there are bounding boxes" ;;
     Ok (words, normalized_boxes)).
  { f_equal. apply mmap_ext. intros box. apply OCRProcessor_normalize_box_clamps. }
  rewrite mmap_bind_map.
  destruct (mmap (fun box => normalize_box box image_width image_height) actual_boxes)
    as [boxes | e]; cbn [bind]; [| reflexivity].
  rewrite length_map.
  destruct (List.length words =? List.length boxes)%nat; reflexivity.
Qed.

End OCREdgeCases.

Lemma apply_tesseract_blank_page_witness :
  @apply_tesseract Examples.pil MoreExamples.blank_pytesseract (0, 0) None None []
  = (Ok ([], []), [] ++ [CallImageToData]).
Proof.
  apply (@apply_tesseract_blank_page Examples.pil MoreExamples.blank_pytesseract
           (0, 0) None None []).
  - repeat split.
  - repeat constructor.
Defined.

Lemma apply_tesseract_zero_width_witness :
  @apply_tesseract Examples.pil Examples.pytesseract (0, 200) None None []
  = (Raise ZeroDivisionError, [] ++ [CallImageToData]).
Proof.
  apply (@apply_tesseract_zero_width Examples.pil Examples.pytesseract (0, 200) None None []).
  - repeat split.
  - constructor. reflexivity.
  - reflexivity.
Defined.

(** ** The OCR processors: initializer of the base class, EasyOCR reader *)

Section ProcessorEdgeCases.

Context `{Pytesseract} `{!EasyOCR}.

(** X7: called with a device, the initializer of the base class stores the
    device and runs the availability check of the instance's class: it
    returns the instance exactly when the backend is available (pytesseract
    importable and the tesseract binary found; easyocr importable; always for
    the fallback, which logs one warning), and raises [NoOCRReaderFound]
    otherwise, without logging. *)
Theorem base_initializer_checks_backend (env : Installed) (c : processor_class)
    (d : option Z) (tr : trace) :
  (available env c = true ->
   OCRProcessor__init__ env (allocate c) [d] tr
   = (Ok {| cls := c; device := Some d; reader := None |},
      tr ++ match c with
            | DummyProcessor =>
                [LogWarning "Unable to find OCR processor might not be needed"]
            | _ => []
            end))
  /\ (available env c = false ->
      exists e, OCRProcessor__init__ env (allocate c) [d] tr
                = (Raise (NoOCRReaderFound e), tr)).
Proof.
  split; intros Hav; destruct c; cbn in Hav |- *; unfold TESSERACT_AVAILABLE,
    EASYOCR_AVAILABLE; rewrite ?Hav; cbn; rewrite ?app_nil_r;
    try discriminate Hav; try reflexivity; eexists; reflexivity.
Qed.

Lemma easyocr_reader_present (self : processor) (rd : Reader) (image : Image)
    (tr : trace) :
  reader self = Some (Some rd) ->
  snd (EasyOCRProcessor_apply_ocr self image tr) = tr ++ [CallReadText]
  /\ (readtext rd image = [] ->
      fst (EasyOCRProcessor_apply_ocr self image tr)
      = Raise (ValueError "not enough values to unpack (expected 3, got 0)"))
  /\ (forall self' out,
         fst (EasyOCRProcessor_apply_ocr self image tr) = Ok (self', out) ->
         self' = self).
Proof.
  intros Hrd. unfold EasyOCRProcessor_apply_ocr, ebind, emit, lift.
  rewrite Hrd. cbn [getattr ret fst snd].
  split; [reflexivity |]. split.
  - intros ->. reflexivity.
  - intros self' out Hrun.
    apply bind_Ok_inv in Hrun as ([[quads all_words] acc] & _ & Hrun).
    destruct (size image) as [image_width image_height].
    apply bind_Ok_inv in Hrun as (normalized & _ & Hrun).
    apply bind_Ok_inv in Hrun as (u & _ & Hrun).
    injection Hrun as <- _. reflexivity.
Qed.

(** X8: the EasyOCR reader is created on first use and kept: a successful
    [apply_ocr] returns an instance that holds a reader, creating it (for
    English, on the GPU exactly when the device is above -1) only if the
    instance held none; and every later [apply_ocr] on the returned instance
    reads the text without creating a reader and leaves the instance as it
    is. *)
Theorem easyocr_reader_is_created_once (self self' : processor) (image : Image)
    (tr tr' : trace) (out : list string * list (list Z)) :
  EasyOCRProcessor_apply_ocr self image tr = (Ok (self', out), tr') ->
  exists rd : Reader,
    reader self' = Some (Some rd)
    /\ (reader self = Some (Some rd) /\ tr' = tr ++ [CallReadText]
        \/ exists d, reader self = Some None /\ device self = Some (Some d)
                     /\ rd = easyocr_Reader ["en"] (-1 <? d)
                     /\ tr' = tr ++ [CallEasyOCRReader; CallReadText])
    /\ forall (image2 : Image) (tr2 : trace),
         snd (EasyOCRProcessor_apply_ocr self' image2 tr2) = tr2 ++ [CallReadText]
         /\ forall self'' out2,
              fst (EasyOCRProcessor_apply_ocr self' image2 tr2) = Ok (self'', out2) ->
              self'' = self'.
Proof.
  intros Hrun.
  assert (Hfirst : exists rd : Reader,
             reader self' = Some (Some rd)
             /\ (reader self = Some (Some rd) /\ tr' = tr ++ [CallReadText]
                 \/ exists d, reader self = Some None /\ device self = Some (Some d)
                              /\ rd = easyocr_Reader ["en"] (-1 <? d)
                              /\ tr' = tr ++ [CallEasyOCRReader; CallReadText])).
  { destruct (reader self) as [[rd |] |] eqn:Hreader.
    - destruct (easyocr_reader_present self rd image tr Hreader) as (Htr & _ & Hself).
      rewrite Hrun in Htr, Hself. cbn [fst snd] in Htr, Hself.
      rewrite (Hself self' out eq_refl). exists rd.
      split; [exact Hreader |]. left. split; [reflexivity | exact Htr].
    - unfold EasyOCRProcessor_apply_ocr, ebind, emit, lift in Hrun.
      rewrite Hreader in Hrun. cbn [getattr] in Hrun.
      destruct (device self) as [[d |] |] eqn:Hdev; cbn in Hrun;
        try discriminate Hrun.
      injection Hrun as Hr Htr.
      apply bind_Ok_inv in Hr as ([[quads all_words] acc] & _ & Hr).
      destruct (size image) as [image_width image_height].
      apply bind_Ok_inv in Hr as (normalized & _ & Hr).
      apply bind_Ok_inv in Hr as (u & _ & Hr).
      injection Hr as <- _. exists (easyocr_Reader ["en"] (-1 <? d)).
      split; [reflexivity |]. right. exists d.
      rewrite <- app_assoc in Htr. repeat split; symmetry; exact Htr.
    - unfold EasyOCRProcessor_apply_ocr, ebind, emit, lift in Hrun.
      rewrite Hreader in Hrun. discriminate Hrun. }
  destruct Hfirst as (rd & Hrd & Hcases). exists rd.
  split; [exact Hrd |]. split; [exact Hcases |].
  intros image2 tr2.
  destruct (easyocr_reader_present self' rd image2 tr2 Hrd) as (Htr2 & _ & Hself2).
  split; [exact Htr2 | exact Hself2].
Qed.

(** X9: when the EasyOCR reader detects nothing on an image, [apply_ocr]
    does not return empty lists: unpacking the transposed detections raises
    [ValueError]. *)
Theorem easyocr_no_detection_raises (self : processor) (rd : Reader) (image : Image)
    (tr : trace) :
  reader self = Some (Some rd) ->
  readtext rd image = [] ->
  EasyOCRProcessor_apply_ocr self image tr
  = (Raise (ValueError "not enough values to unpack (expected 3, got 0)"),
     tr ++ [CallReadText]).
Proof.
  intros Hrd Hnone.
  destruct (easyocr_reader_present self rd image tr Hrd) as (Htr & Hraise & _).
  specialize (Hraise Hnone).
  destruct (EasyOCRProcessor_apply_ocr self image tr) as [r tr'].
  cbn [fst snd] in Htr, Hraise. subst. reflexivity.
Qed.

End ProcessorEdgeCases.

Lemma base_initializer_checks_backend_witness :
  @OCRProcessor__init__ Examples.pil Examples.easyocr Examples.nothing_installed
    (@allocate Examples.pil Examples.easyocr DummyProcessor) [Some 0] []
  = (Ok {| cls := DummyProcessor; device := Some (Some 0); reader := None |},
     [] ++ [LogWarning "Unable to find OCR processor might not be needed"]).
Proof.
  apply (proj1 (@base_initializer_checks_backend Examples.pil
                  Examples.easyocr Examples.nothing_installed DummyProcessor
                  (Some 0) [])).
  reflexivity.
Defined.

Lemma easyocr_reader_is_created_once_witness :
  exists rd : bool,
    @reader Examples.pil Examples.easyocr MoreExamples.warm_easyocr_processor
    = Some (Some rd)
    /\ (@reader Examples.pil Examples.easyocr MoreExamples.fresh_easyocr_processor
        = Some (Some rd)
        /\ [CallEasyOCRReader; CallReadText] = [] ++ [CallReadText]
        \/ exists d,
             @reader Examples.pil Examples.easyocr MoreExamples.fresh_easyocr_processor
             = Some None
             /\ @device Examples.pil Examples.easyocr MoreExamples.fresh_easyocr_processor
                = Some (Some d)
             /\ rd = (-1 <? d)
             /\ [CallEasyOCRReader; CallReadText] = [] ++ [CallEasyOCRReader; CallReadText])
    /\ forall (image2 : Z * Z) (tr2 : trace),
         snd (@EasyOCRProcessor_apply_ocr Examples.pil Examples.easyocr
                MoreExamples.warm_easyocr_processor image2 tr2)
         = tr2 ++ [CallReadText]
         /\ forall self'' out2,
              fst (@EasyOCRProcessor_apply_ocr Examples.pil Examples.easyocr
                     MoreExamples.warm_easyocr_processor image2 tr2)
              = Ok (self'', out2) ->
              self'' = MoreExamples.warm_easyocr_processor.
Proof.
  apply (@easyocr_reader_is_created_once Examples.pil Examples.easyocr
           MoreExamples.fresh_easyocr_processor MoreExamples.warm_easyocr_processor
           (300, 200) [] [CallEasyOCRReader; CallReadText]
           (["Invoice"], [[33; 100; 366; 150]])).
  vm_compute. reflexivity.
Defined.

Lemma easyocr_no_detection_raises_witness :
  @EasyOCRProcessor_apply_ocr Examples.pil MoreExamples.silent_easyocr
    MoreExamples.silent_easyocr_processor (300, 200) []
  = (Raise (ValueError "not enough values to unpack (expected 3, got 0)"),
     [] ++ [CallReadText]).
Proof.
  apply (@easyocr_no_detection_raises Examples.pil MoreExamples.silent_easyocr
           MoreExamples.silent_easyocr_processor true (300, 200) []).
  - reflexivity.
  - reflexivity.
Defined.

(** ** Parameter sanitization: what is checked and what is passed on *)

(** X10: [_sanitize_parameters] validates [top_k] and [max_answer_len] only,
    [top_k] first.  A supplied [top_k] below 1 raises the [ValueError] that
    names [top_k], whatever [max_answer_len] is; otherwise a supplied
    [max_answer_len] below 1 raises the one that names [max_answer_len];
    otherwise every argument is passed on unchanged and unchecked (a negative
    [doc_stride] included): six to preprocessing, none to the forward pass,
    three to postprocessing. *)
Theorem sanitize_parameters_cases (kwargs : CallParams) :
  (forall k, top_k kwargs = Some k -> k < 1 ->
             _sanitize_parameters kwargs
             = Raise (ValueError ("top_k parameter should be >= 1 (got "
                                    ++ str_of_int k ++ ")")))
  /\ (forall m, (forall k, top_k kwargs = Some k -> 1 <= k) ->
                max_answer_len kwargs = Some m -> m < 1 ->
                _sanitize_parameters kwargs
                = Raise (ValueError ("max_answer_len parameter should be >= 1 (got "
                                       ++ str_of_int m)))
  /\ ((forall k, top_k kwargs = Some k -> 1 <= k) ->
      (forall m, max_answer_len kwargs = Some m -> 1 <= m) ->
      _sanitize_parameters kwargs
      = Ok ({| pre_padding := padding kwargs;
               pre_doc_stride := doc_stride kwargs;
               pre_max_question_len := max_question_len kwargs;
               pre_max_seq_len := max_seq_len kwargs;
               pre_lang := lang kwargs;
               pre_tesseract_config := tesseract_config kwargs |},
            tt,
            {| post_top_k := top_k kwargs;
               post_max_answer_len := max_answer_len kwargs;
               post_handle_impossible_answer := handle_impossible_answer kwargs |})).
Proof.
  unfold _sanitize_parameters. split; [| split].
  - intros k -> Hk. apply Z.ltb_lt in Hk. rewrite Hk. reflexivity.
  - intros m Htop -> Hm. apply Z.ltb_lt in Hm.
    destruct (top_k kwargs) as [k |]; cbn [bind].
    + specialize (Htop k eq_refl). apply Z.ltb_ge in Htop. rewrite Htop.
      cbn [bind]. rewrite Hm. reflexivity.
    + rewrite Hm. reflexivity.
  - intros Htop Hmax.
    destruct (top_k kwargs) as [k |]; destruct (max_answer_len kwargs) as [m |];
      cbn [bind];
      try (specialize (Htop _ eq_refl); apply Z.ltb_ge in Htop; rewrite Htop);
      try (specialize (Hmax _ eq_refl); apply Z.ltb_ge in Hmax);
      cbn [bind]; rewrite ?Hmax; reflexivity.
Qed.

Lemma sanitize_parameters_cases_witness :
  _sanitize_parameters
    {| padding := Some "max_length"; doc_stride := Some (-5); max_question_len := None;
       lang := None; tesseract_config := None; max_answer_len := None;
       max_seq_len := Some 0; top_k := Some 3; handle_impossible_answer := Some true |}
  = Ok ({| pre_padding := Some "max_length";
           pre_doc_stride := Some (-5);
           pre_max_question_len := None;
           pre_max_seq_len := Some 0;
           pre_lang := None;
           pre_tesseract_config := None |},
        tt,
        {| post_top_k := Some 3;
           post_max_answer_len := None;
           post_handle_impossible_answer := Some true |}).
Proof.
  apply (proj2 (proj2 (sanitize_parameters_cases
                         {| padding := Some "max_length"; doc_stride := Some (-5);
                            max_question_len := None; lang := None;
                            tesseract_config := None; max_answer_len := None;
                            max_seq_len := Some 0; top_k := Some 3;
                            handle_impossible_answer := Some true |}))).
  - intros k Hk. injection Hk as <-. lia.
  - intros m Hm. discriminate Hm.
Defined.

(** ** Preprocessing: errors, precedence and external calls *)

Section PreprocessEdgeCases.

Context `{Pytesseract} `{!QAHelpers} `{!Pipeline}.

Lemma apply_tesseract_trace (image : Image) (lang cfg : option string) (tr : trace) :
  snd (apply_tesseract image lang cfg tr) = tr ++ [CallImageToData].
Proof.
  unfold apply_tesseract, ebind, emit, lift. cbn beta iota zeta.
  destruct (size image) as [image_width image_height]. reflexivity.
Qed.

Lemma preprocess_image_shape (input : Input) (tr : trace) :
  exists load fe,
    snd (preprocess_image input tr) = tr ++ load ++ fe
    /\ (load = [] \/ load = [CallLoadImage])
    /\ (fe = [] \/ fe = [CallFeatureExtractor] /\ load = [CallLoadImage])
    /\ (forall image features,
           fst (preprocess_image input tr) = Ok (Some image, features) ->
           load = [CallLoadImage] /\ in_image input <> None).
Proof.
  unfold preprocess_image.
  destruct (in_image input) as [src |].
  - destruct VISION_LOADED; cbn [negb].
    + unfold ebind, emit, lift. destruct (load_image src) as [image | e].
      * destruct feature_extractor as [fe |]; cbn [ebind emit ret fst snd].
        -- exists [CallLoadImage], [CallFeatureExtractor]. rewrite <- app_assoc.
           split; [reflexivity |]. split; [right; reflexivity |].
           split; [right; split; reflexivity |]. intros; split; [reflexivity | discriminate].
        -- exists [CallLoadImage], []. rewrite app_nil_r.
           split; [reflexivity |]. split; [right; reflexivity |].
           split; [left; reflexivity |]. intros; split; [reflexivity | discriminate].
      * exists [CallLoadImage], []. rewrite app_nil_r. cbn [fst snd].
        split; [reflexivity |]. split; [right; reflexivity |].
        split; [left; reflexivity |]. intros image features Heq. discriminate Heq.
    + exists [], []. cbn [raise fst snd]. rewrite !app_nil_r.
      split; [reflexivity |]. split; [left; reflexivity |].
      split; [left; reflexivity |]. intros image features Heq. discriminate Heq.
  - exists [], []. cbn [ret fst snd]. rewrite !app_nil_r.
    split; [reflexivity |]. split; [left; reflexivity |].
    split; [left; reflexivity |]. intros image features Heq. discriminate Heq.
Qed.

Lemma preprocess_words_boxes_shape (input : Input) (image : option Image)
    (image_features : ImageFeatures) (lang : option string) (tesseract_config : string)
    (tr : trace) :
  exists ocr,
    snd (preprocess_words_boxes input image image_features lang tesseract_config tr)
    = tr ++ ocr
    /\ (ocr = []
        \/ ocr = [CallImageToData] /\ in_word_boxes input = None /\ image <> None).
Proof.
  unfold preprocess_words_boxes.
  destruct (in_word_boxes input) as [word_boxes |];
    [exists []; rewrite app_nil_r; split; [reflexivity | left; reflexivity] |].
  destruct (fe_words image_features) as [words |], (fe_boxes image_features) as [boxes |];
    try (exists []; rewrite app_nil_r; split; [reflexivity | left; reflexivity]).
  all: destruct image as [image |];
    [| exists []; rewrite app_nil_r; split; [reflexivity | left; reflexivity]].
  all: destruct TESSERACT_LOADED; cbn [negb];
    [| exists []; rewrite app_nil_r; split; [reflexivity | left; reflexivity]].
  all: exists [CallImageToData]; unfold ebind;
    pose proof (apply_tesseract_trace image lang (Some tesseract_config) tr) as Htr;
    destruct (apply_tesseract image lang (Some tesseract_config) tr) as [[wb | e] tr'];
    cbn [snd] in Htr; subst tr'; cbn [ret fst snd];
    (split; [reflexivity | right; repeat split; discriminate]).
Qed.

(** X11: [preprocess] calls each external component at most once and in a
    fixed order: the image loader, then the feature extractor, then the OCR
    engine, then the tokenizer; the trace holds nothing else (no model call,
    no log record).  The feature extractor runs only after the image was
    loaded, and the OCR engine only when the input has an image and no
    [word_boxes]. *)
Theorem preprocess_calls_each_component_once (input : Input) (padding : string)
    (doc_stride : option Z) (max_question_len : Z) (max_seq_len : option Z)
    (lang : option string) (tesseract_config : string) (tr : trace) :
  exists load fe ocr tok,
    snd (preprocess input padding doc_stride max_question_len max_seq_len lang
           tesseract_config tr) = tr ++ load ++ fe ++ ocr ++ tok
    /\ (load = [] \/ load = [CallLoadImage])
    /\ (fe = [] \/ fe = [CallFeatureExtractor] /\ load = [CallLoadImage])
    /\ (ocr = []
        \/ ocr = [CallImageToData] /\ load = [CallLoadImage]
           /\ in_word_boxes input = None /\ in_image input <> None)
    /\ (tok = [] \/ exists text text_pair, tok = [CallTokenizer text text_pair]).
Proof.
  destruct (preprocess_image_shape input tr) as (load & fe & Htr1 & Hload & Hfe & Himage).
  unfold preprocess, ebind.
  destruct (preprocess_image input tr) as [[[image image_features] | e] tr1];
    cbn [fst snd] in Htr1, Himage; subst tr1.
  - destruct (preprocess_words_boxes_shape input image image_features lang
                tesseract_config (tr ++ load ++ fe)) as (ocr & Htr2 & Hocr).
    assert (Hocr' : ocr = []
                    \/ ocr = [CallImageToData] /\ load = [CallLoadImage]
                       /\ in_word_boxes input = None /\ in_image input <> None).
    { destruct Hocr as [-> | (-> & Hwb & Hsome)]; [left; reflexivity | right].
      destruct image as [image |]; [| contradiction].
      destruct (Himage image image_features eq_refl) as [Hl Hin].
      repeat split; assumption. }
    destruct (preprocess_words_boxes input image image_features lang tesseract_config
                (tr ++ load ++ fe)) as [[[[words boxes] features] | e] tr2];
      cbn [fst snd] in Htr2; subst tr2.
    + destruct (padding_side =? "right")%string; cbn [negb].
      * unfold lift, emit, ret. destruct (in_question input) as [question |].
        -- exists load, fe, ocr, [CallTokenizer (split question) words].
           cbn [fst snd]. rewrite <- !app_assoc.
           split; [reflexivity |]. repeat split; try assumption.
           right. eexists _, _. reflexivity.
        -- exists load, fe, ocr, []. cbn [fst snd]. rewrite app_nil_r, <- !app_assoc.
           split; [reflexivity |]. repeat split; try assumption. left. reflexivity.
      * exists load, fe, ocr, []. cbn [raise fst snd]. rewrite app_nil_r, <- !app_assoc.
        split; [reflexivity |]. repeat split; try assumption. left. reflexivity.
    + exists load, fe, ocr, []. cbn [fst snd]. rewrite app_nil_r, <- !app_assoc.
      split; [reflexivity |]. repeat split; try assumption. left. reflexivity.
  - exists load, fe, [], []. cbn [fst snd]. rewrite !app_nil_r.
    split; [reflexivity |]. repeat split; try assumption; left; reflexivity.
Qed.

(** X12: an input with neither an image nor [word_boxes] makes [preprocess]
    raise the "You must provide an image or word_boxes" [ValueError], before
    any external call and whatever the other arguments are. *)
Theorem preprocess_missing_input (input : Input) (padding : string)
    (doc_stride : option Z) (max_question_len : Z) (max_seq_len : option Z)
    (lang : option string) (tesseract_config : string) (tr : trace) :
  in_image input = None ->
  in_word_boxes input = None ->
  preprocess input padding doc_stride max_question_len max_seq_len lang
    tesseract_config tr
  = (Raise (ValueError
              "You must provide an image or word_boxes. If you provide an image, the pipeline will automatically run OCR to derive words and boxes"),
     tr).
Proof.
  intros Himg Hwb.
  unfold preprocess, ebind, preprocess_image, preprocess_words_boxes.
  rewrite Himg. cbn [ret]. rewrite Hwb. reflexivity.
Qed.

(** X13: an input with an image makes [preprocess] raise the "PIL is not
    available" [ValueError] when the image library is missing, before any
    external call, even when the input also has [word_boxes] that would make
    the image unnecessary. *)
Theorem preprocess_image_needs_pil (input : Input) (src : ImageSource)
    (padding : string) (doc_stride : option Z) (max_question_len : Z)
    (max_seq_len : option Z) (lang : option string) (tesseract_config : string)
    (tr : trace) :
  in_image input = Some src ->
  VISION_LOADED = false ->
  preprocess input padding doc_stride max_question_len max_seq_len lang
    tesseract_config tr
  = (Raise (ValueError
              "If you provide an image, then the pipeline will run process it with PIL (Pillow), but PIL is not available. Install it with pip install Pillow."),
     tr).
Proof.
  intros Himg Hpil. unfold preprocess, ebind, preprocess_image.
  rewrite Himg, Hpil. reflexivity.
Qed.

(** X14: when the words must come from OCR (an image, no [word_boxes], no
    layout from the feature extractor) and pytesseract is missing,
    [preprocess] raises the "pytesseract is not available" [ValueError]
    after the image was loaded (and the feature extractor run, if there is
    one), without calling the OCR engine or the tokenizer. *)
Theorem preprocess_needs_tesseract (input : Input) (src : ImageSource) (image : Image)
    (padding : string) (doc_stride : option Z) (max_question_len : Z)
    (max_seq_len : option Z) (lang : option string) (tesseract_config : string)
    (tr : trace) :
  in_image input = Some src ->
  in_word_boxes input = None ->
  VISION_LOADED = true ->
  load_image src = Ok image ->
  match feature_extractor with
  | Some fe => fe_words (fe image) = None \/ fe_boxes (fe image) = None
  | None => True
  end ->
  TESSERACT_LOADED = false ->
  preprocess input padding doc_stride max_question_len max_seq_len lang
    tesseract_config tr
  = (Raise (ValueError
              "If you provide an image without word_boxes, then the pipeline will run OCR using Tesseract, but pytesseract is not available. Install it with pip install pytesseract."),
     (tr ++ [CallLoadImage])
     ++ match feature_extractor with
        | Some _ => [CallFeatureExtractor]
        | None => []
        end).
Proof.
  intros Himg Hwb Hpil Hload Hfe Htess.
  unfold preprocess, ebind, preprocess_image, preprocess_words_boxes.
  rewrite Himg, Hpil. cbn [negb]. unfold ebind, emit, lift. rewrite Hload.
  destruct feature_extractor as [fe |]; cbn [ret]; rewrite Hwb.
  - destruct Hfe as [Hnone | Hnone]; rewrite Hnone, Htess;
      [| destruct (fe_words (fe image))]; reflexivity.
  - cbn [no_features fe_words fe_boxes]. rewrite Htess, app_nil_r. reflexivity.
Qed.

(** X15: when the input has no [word_boxes] and the feature extractor yields
    both words and boxes, these are used: the OCR engine is not called
    (whether pytesseract is there or not), the tokenizer gets the
    extractor's words, the chunks are built from its words and boxes, and
    the two entries are removed from the image features the chunks carry. *)
Theorem feature_extractor_layout_precedes_ocr (input : Input) (src : ImageSource)
    (image : Image) (fe : Image -> ImageFeatures) (words : list string)
    (boxes : list (list Z)) (question : string) (padding : string)
    (doc_stride : option Z) (max_question_len : Z) (max_seq_len : option Z)
    (lang : option string) (tesseract_config : string) (tr : trace) :
  in_image input = Some src ->
  in_word_boxes input = None ->
  in_question input = Some question ->
  VISION_LOADED = true ->
  load_image src = Ok image ->
  feature_extractor = Some fe ->
  fe_words (fe image) = Some words ->
  fe_boxes (fe image) = Some boxes ->
  padding_side = "right" ->
  exists encoding,
    preprocess input padding doc_stride max_question_len max_seq_len lang
      tesseract_config tr
    = (Ok (generate (preprocess_span words boxes
                       {| fe_words := None; fe_boxes := None;
                          fe_rest := fe_rest (fe image) |})
                    encoding),
       tr ++ [CallLoadImage; CallFeatureExtractor; CallTokenizer (split question) words]).
Proof.
  intros Himg Hwb Hq Hpil Hload Hfe Hwords Hboxes Hside.
  unfold preprocess, ebind, preprocess_image, preprocess_words_boxes.
  rewrite Himg, Hpil. cbn [negb]. unfold ebind, emit, lift. rewrite Hload, Hfe.
  cbn [ret]. rewrite Hwb, Hwords, Hboxes, Hside, Hq.
  change ("right" =? "right")%string with true. cbn [negb ret].
  eexists. rewrite <- !app_assoc. reflexivity.
Qed.

(** X16: with a tokenizer that does not pad on the right, [preprocess] never
    yields a chunk and never calls the tokenizer: it raises; and when the
    words resolve (here: from [word_boxes], without an image) the exception
    is the [ValueError] that names the padding side. *)
Theorem preprocess_rejects_left_padding (input : Input) (padding : string)
    (doc_stride : option Z) (max_question_len : Z) (max_seq_len : option Z)
    (lang : option string) (tesseract_config : string) (tr : trace) :
  (padding_side =? "right")%string = false ->
  exists e evs,
    preprocess input padding doc_stride max_question_len max_seq_len lang
      tesseract_config tr = (Raise e, tr ++ evs)
    /\ (forall text text_pair, ~ In (CallTokenizer text text_pair) evs)
    /\ (in_image input = None -> in_word_boxes input <> None ->
        evs = []
        /\ e = ValueError
                 ("Document question answering only supports tokenizers whose padding side is 'right', not "
                    ++ padding_side)).
Proof.
  intros Hside.
  destruct (preprocess_image_shape input tr) as (load & fe & Htr1 & Hload & Hfe & _).
  assert (Hnotok : forall ocr, ocr = [] \/ ocr = [CallImageToData] ->
                     forall text text_pair,
                       ~ In (CallTokenizer text text_pair) (load ++ fe ++ ocr)).
  { intros ocr Hocr text text_pair Hin.
    apply in_app_or in Hin as [Hin | Hin];
      [| apply in_app_or in Hin as [Hin | Hin]].
    - destruct Hload as [-> | ->]; [contradiction |].
      destruct Hin as [Heq | []]. discriminate Heq.
    - destruct Hfe as [-> | [-> _]]; [contradiction |].
      destruct Hin as [Heq | []]. discriminate Heq.
    - destruct Hocr as [-> | ->]; [contradiction |].
      destruct Hin as [Heq | []]. discriminate Heq. }
  assert (Hnoimg : in_image input = None -> load = [] /\ fe = []
                   /\ fst (preprocess_image input tr) = Ok (None, no_features)).
  { intros Hnone. unfold preprocess_image in Htr1 |- *. rewrite Hnone in Htr1 |- *.
    cbn [ret fst snd] in Htr1 |- *.
    assert (Hlen : List.length tr = List.length (tr ++ load ++ fe)) by (rewrite <- Htr1; reflexivity).
    rewrite !length_app in Hlen.
    destruct load; [| cbn in Hlen; lia]. destruct fe; [| cbn in Hlen; lia].
    repeat split. }
  unfold preprocess, ebind.
  destruct (preprocess_image input tr) as [[[image image_features] | e] tr1];
    cbn [fst snd] in Htr1, Hnoimg; subst tr1.
  - destruct (preprocess_words_boxes_shape input image image_features lang
                tesseract_config (tr ++ load ++ fe)) as (ocr & Htr2 & Hocr).
    assert (Hocr' : ocr = [] \/ ocr = [CallImageToData]) by tauto.
    assert (Hwbs : in_word_boxes input <> None -> ocr = []).
    { intros Hsome. destruct Hocr as [-> | (_ & Hnone & _)]; [reflexivity | contradiction]. }
    destruct (preprocess_words_boxes input image image_features lang tesseract_config
                (tr ++ load ++ fe)) as [[[[words boxes] features] | e] tr2] eqn:Hrun;
      cbn [fst snd] in Htr2; subst tr2.
    + rewrite Hside. cbn [negb raise].
      eexists _, (load ++ fe ++ ocr). rewrite <- !app_assoc.
      split; [reflexivity |]. split; [apply Hnotok; exact Hocr' |].
      intros Hnone Hsome. destruct (Hnoimg Hnone) as (-> & -> & _).
      rewrite (Hwbs Hsome). split; reflexivity.
    + eexists _, (load ++ fe ++ ocr). rewrite <- !app_assoc.
      split; [reflexivity |]. split; [apply Hnotok; exact Hocr' |].
      intros Hnone Hsome. exfalso.
      destruct (Hnoimg Hnone) as (_ & _ & Hfst). injection Hfst as -> ->.
      unfold preprocess_words_boxes in Hrun.
      destruct (in_word_boxes input); [discriminate Hrun | contradiction].
  - eexists _, (load ++ fe).
    pose proof (Hnotok [] (or_introl eq_refl)) as Hnotok'. rewrite !app_nil_r in Hnotok'.
    split; [reflexivity |]. split; [exact Hnotok' |].
    intros Hnone _. exfalso. destruct (Hnoimg Hnone) as (_ & _ & Hfst). discriminate Hfst.
Qed.

Lemma generate_length {A B : Type} (f : A -> result B) (l : list A) :
  (List.length (fst (generate f l)) <= List.length l)%nat
  /\ (snd (generate f l) = None -> List.length (fst (generate f l)) = List.length l).
Proof.
  induction l as [| x l [IHle IHeq]]; cbn [generate]; [split; reflexivity |].
  destruct (f x) as [y | e]; [| split; [cbn; lia | intros Heq; discriminate Heq]].
  destruct (generate f l) as [ys stopped]. cbn [fst snd List.length] in *.
  split; [lia | intros Heq; rewrite (IHeq Heq); reflexivity].
Qed.

(** X17: when [preprocess] returns, the question was present and the last
    external call was the single call of the tokenizer, on the whitespace
    split question and the resolved words, with [max_length] defaulting to
    [min(model_max_length, 512)] and [stride] to
    [min(max_length // 2, 128)], so that a default stride never exceeds half
    the window.  The chunks are built from the spans of that encoding, in
    order, one per span until a span raises; every chunk carries the words
    that were given to the tokenizer. *)
Theorem preprocess_chunks_come_from_the_encoding (input : Input) (padding : string)
    (doc_stride : option Z) (max_question_len : Z) (max_seq_len : option Z)
    (lang : option string) (tesseract_config : string) (tr : trace)
    (chunks : list Chunk) (stopped : option exn) :
  fst (preprocess input padding doc_stride max_question_len max_seq_len lang
         tesseract_config tr) = Ok (chunks, stopped) ->
  exists question words boxes features evs max_length stride,
    in_question input = Some question
    /\ snd (preprocess input padding doc_stride max_question_len max_seq_len lang
              tesseract_config tr)
       = (tr ++ evs) ++ [CallTokenizer (split question) words]
    /\ max_length = match max_seq_len with
                    | Some v => v
                    | None => Z.min model_max_length 512
                    end
    /\ stride = match doc_stride with
                | Some v => v
                | None => Z.min (max_length / 2) 128
                end
    /\ (doc_stride = None -> stride <= 128 /\ 2 * stride <= max_length)
    /\ (chunks, stopped)
       = generate (preprocess_span words boxes features)
                  (tokenize (split question) words padding max_length stride)
    /\ Forall (fun chunk => ch_words chunk = words) chunks
    /\ (List.length chunks
        <= List.length (tokenize (split question) words padding max_length stride))%nat
    /\ (stopped = None ->
        List.length chunks
        = List.length (tokenize (split question) words padding max_length stride)).
Proof.
  unfold preprocess, ebind.
  destruct (preprocess_image_shape input tr) as (load & fe & Htr1 & _).
  destruct (preprocess_image input tr) as [[[image image_features] | e] tr1];
    cbn [fst snd] in Htr1; subst tr1; [| intros Heq; discriminate Heq].
  destruct (preprocess_words_boxes_shape input image image_features lang
              tesseract_config (tr ++ load ++ fe)) as (ocr & Htr2 & _).
  destruct (preprocess_words_boxes input image image_features lang tesseract_config
              (tr ++ load ++ fe)) as [[[[words boxes] features] | e] tr2];
    cbn [fst snd] in Htr2; subst tr2; [| intros Heq; discriminate Heq].
  destruct (padding_side =? "right")%string; cbn [negb];
    [| intros Heq; discriminate Heq].
  unfold lift, emit, ret.
  destruct (in_question input) as [question |]; [| intros Heq; discriminate Heq].
  cbn [fst snd]. intros Hgen. injection Hgen as Hgen.
  set (max_length := match max_seq_len with
                     | Some v => v
                     | None => Z.min model_max_length 512
                     end) in *.
  set (stride := match doc_stride with
                 | Some v => v
                 | None => Z.min (max_length / 2) 128
                 end) in *.
  exists question, words, boxes, features, (load ++ fe ++ ocr), max_length, stride.
  split; [reflexivity |]. split; [rewrite <- !app_assoc; reflexivity |].
  split; [reflexivity |]. split; [reflexivity |].
  split.
  { intros Hnone. subst stride. rewrite Hnone.
    pose proof (Z.mul_div_le max_length 2 ltac:(lia)). lia. }
  split; [symmetry; exact Hgen |].
  pose proof (generate_verbatim words boxes features
                (tokenize (split question) words padding max_length stride)) as Hall.
  pose proof (generate_length (preprocess_span words boxes features)
                (tokenize (split question) words padding max_length stride)) as [Hle Heq].
  rewrite Hgen in Hall, Hle, Heq. cbn [fst snd] in Hall, Hle, Heq.
  split; [| split; [exact Hle | exact Heq]].
  eapply Forall_impl; [| exact Hall]. intros chunk [Hw _]. exact Hw.
Qed.

End PreprocessEdgeCases.

Lemma preprocess_missing_input_witness :
  @preprocess Examples.pil Examples.pytesseract Examples.helpers (Examples.pipeline 4 4)
    Capabilities.empty_input "do_not_pad" None 64 None None "" []
  = (Raise (ValueError
              "You must provide an image or word_boxes. If you provide an image, the pipeline will automatically run OCR to derive words and boxes"),
     []).
Proof.
  apply (@preprocess_missing_input Examples.pil Examples.pytesseract Examples.helpers
           (Examples.pipeline 4 4) Capabilities.empty_input "do_not_pad" None 64 None
           None "" []).
  - reflexivity.
  - reflexivity.
Defined.

Lemma preprocess_image_needs_pil_witness :
  @preprocess Examples.pil Examples.pytesseract Capabilities.helpers_without_pil
    (Examples.pipeline 13 13) Examples.france_input "do_not_pad" None 64 None None "" []
  = (Raise (ValueError
              "If you provide an image, then the pipeline will run process it with PIL (Pillow), but PIL is not available. Install it with pip install Pillow."),
     []).
Proof.
  apply (@preprocess_image_needs_pil Examples.pil Examples.pytesseract
           Capabilities.helpers_without_pil (Examples.pipeline 13 13)
           Examples.france_input (@Decoded Examples.pil (1000, 500))
           "do_not_pad" None 64 None None "" []).
  - reflexivity.
  - reflexivity.
Defined.

Lemma preprocess_needs_tesseract_witness :
  @preprocess Examples.pil Examples.pytesseract Capabilities.helpers_without_tesseract
    (Examples.pipeline 4 4) Capabilities.image_only_input "do_not_pad" None 64 None
    None "" []
  = (Raise (ValueError
              "If you provide an image without word_boxes, then the pipeline will run OCR using Tesseract, but pytesseract is not available. Install it with pip install pytesseract."),
     ([] ++ [CallLoadImage]) ++ []).
Proof.
  apply (@preprocess_needs_tesseract Examples.pil Examples.pytesseract
           Capabilities.helpers_without_tesseract (Examples.pipeline 4 4)
           Capabilities.image_only_input (@Decoded Examples.pil (300, 200)) (300, 200)
           "do_not_pad" None 64 None None "" []).
  - reflexivity.
  - reflexivity.
  - reflexivity.
  - reflexivity.
  - exact I.
  - reflexivity.
Defined.

Lemma feature_extractor_layout_precedes_ocr_witness :
  exists encoding,
    @preprocess Examples.pil Examples.pytesseract Capabilities.helpers_without_tesseract
      Capabilities.pipeline_with_extractor Capabilities.image_only_input
      "do_not_pad" None 64 None None "" []
    = (Ok (generate
             (@preprocess_span Examples.pil Capabilities.pipeline_with_extractor
                ["Total"; "42"] [[10; 10; 60; 20]; [70; 10; 90; 20]]
                {| fe_words := None; fe_boxes := None;
                   fe_rest := fe_rest (Capabilities.layout_extractor (300, 200)) |})
             encoding),
       [] ++ [CallLoadImage; CallFeatureExtractor;
              CallTokenizer (split "Which number?") ["Total"; "42"]]).
Proof.
  apply (@feature_extractor_layout_precedes_ocr Examples.pil Examples.pytesseract
           Capabilities.helpers_without_tesseract Capabilities.pipeline_with_extractor
           Capabilities.image_only_input (@Decoded Examples.pil (300, 200)) (300, 200)
           Capabilities.layout_extractor ["Total"; "42"]
           [[10; 10; 60; 20]; [70; 10; 90; 20]] "Which number?"
           "do_not_pad" None 64 None None "" []);
    reflexivity.
Defined.

Lemma preprocess_rejects_left_padding_witness :
  exists e evs,
    @preprocess Examples.pil Examples.pytesseract Examples.helpers
      Capabilities.left_pipeline
      {| in_image := None; in_question := Some "Where?";
         in_word_boxes := Some [("Paris", [270; 10; 330; 20])] |}
      "do_not_pad" None 64 None None "" []
    = (Raise e, [] ++ evs)
    /\ (forall text text_pair, ~ In (CallTokenizer text text_pair) evs)
    /\ (@in_image Examples.pil
          {| in_image := None; in_question := Some "Where?";
             in_word_boxes := Some [("Paris", [270; 10; 330; 20])] |} = None ->
        @in_word_boxes Examples.pil
          {| in_image := None; in_question := Some "Where?";
             in_word_boxes := Some [("Paris", [270; 10; 330; 20])] |} <> None ->
        evs = []
        /\ e = ValueError
                 ("Document question answering only supports tokenizers whose padding side is 'right', not "
                    ++ @padding_side (@tokenizer Examples.pil Capabilities.left_pipeline))).
Proof.
  apply (@preprocess_rejects_left_padding Examples.pil Examples.pytesseract
           Examples.helpers Capabilities.left_pipeline
           {| in_image := None; in_question := Some "Where?";
              in_word_boxes := Some [("Paris", [270; 10; 330; 20])] |}
           "do_not_pad" None 64 None None "" []).
  reflexivity.
Defined.

Lemma preprocess_chunks_come_from_the_encoding_witness :
  exists chunks stopped question words boxes features evs max_length stride,
    @in_question Examples.pil Examples.france_input = Some question
    /\ snd (@preprocess Examples.pil Examples.pytesseract Examples.helpers
              (Examples.pipeline 13 13) Examples.france_input "do_not_pad" None 64 None
              None "" [])
       = ([] ++ evs) ++ [CallTokenizer (split question) words]
    /\ max_length = Z.min (@model_max_length Examples.toy_tokenizer) 512
    /\ stride = Z.min (max_length / 2) 128
    /\ (@None Z = None -> stride <= 128 /\ 2 * stride <= max_length)
    /\ (chunks, stopped)
       = generate (@preprocess_span Examples.pil (Examples.pipeline 13 13)
                     words boxes features)
                  (@tokenize Examples.toy_tokenizer (split question) words "do_not_pad"
                     max_length stride)
    /\ Forall (fun chunk => ch_words chunk = words) chunks
    /\ (List.length chunks
        <= List.length (@tokenize Examples.toy_tokenizer (split question) words
                          "do_not_pad" max_length stride))%nat
    /\ (stopped = None ->
        List.length chunks
        = List.length (@tokenize Examples.toy_tokenizer (split question) words
                         "do_not_pad" max_length stride)).
Proof.
  eexists _, _.
  eapply (@preprocess_chunks_come_from_the_encoding Examples.pil Examples.pytesseract
            Examples.helpers (Examples.pipeline 13 13) Examples.france_input
            "do_not_pad" None 64 None None "" []).
  vm_compute. reflexivity.
Defined.

(** ** Preprocessing of one span: mask and boxes *)

Lemma positions_In (ids : list Z) (tok : Z) (j : nat) :
  In j (positions ids tok) <-> nth_error ids j = Some tok.
Proof.
  unfold positions, enumerate.
  rewrite (filter_enumerate_fst 0 (fun i => i =? tok)), filter_In, in_seq.
  rewrite Nat.sub_0_r. split.
  - intros [Hj Heq]. apply Z.eqb_eq in Heq.
    rewrite (nth_error_nth' ids 0) by lia. congruence.
  - intros Hnth. assert (Hlt : (j < List.length ids)%nat)
      by (apply nth_error_Some; congruence).
    split; [lia |]. rewrite (nth_error_nth ids j 0 Hnth). apply Z.eqb_refl.
Qed.

Lemma unmask_spec (p_mask p_mask' : list bool) (i : nat) :
  unmask p_mask i = Ok p_mask' ->
  (i < List.length p_mask)%nat
  /\ List.length p_mask' = List.length p_mask
  /\ forall j, nth j p_mask' true = if (j =? i)%nat then false else nth j p_mask true.
Proof.
  unfold unmask. remember (skipn (S i) p_mask) as tail eqn:Htail.
  destruct (Nat.ltb_spec i (List.length p_mask)) as [Hlt | Hge];
    [| discriminate].
  intros Heq. injection Heq as <-. split; [exact Hlt |].
  assert (Hhead : List.length (firstn i p_mask) = i) by (rewrite length_firstn; lia).
  split.
  - rewrite length_app, Hhead. cbn [List.length]. rewrite Htail, length_skipn. lia.
  - intros j. destruct (Nat.eqb_spec j i) as [-> | Hne].
    + rewrite app_nth2 by lia. rewrite Hhead, Nat.sub_diag. reflexivity.
    + destruct (Nat.lt_ge_cases j i) as [Hlt' | Hge'].
      * rewrite app_nth1 by lia.
        rewrite <- (firstn_skipn i p_mask) at 2.
        rewrite app_nth1 by lia. reflexivity.
      * rewrite app_nth2 by lia. rewrite Hhead.
        replace (j - i)%nat with (S (j - S i)) by lia.
        cbn [nth]. rewrite <- (firstn_skipn (S i) p_mask) at 1.
        assert (Hhead' : List.length (firstn (S i) p_mask) = S i)
          by (rewrite length_firstn; lia).
        rewrite app_nth2 by lia. rewrite Hhead', Htail. reflexivity.
Qed.

Lemma unmask_all_spec (cls_indices : list nat) (p_mask p_mask' : list bool) :
  unmask_all p_mask cls_indices = Ok p_mask' ->
  Forall (fun i => (i < List.length p_mask)%nat) cls_indices
  /\ List.length p_mask' = List.length p_mask
  /\ forall j, nth j p_mask' true
               = if mem j cls_indices then false else nth j p_mask true.
Proof.
  revert p_mask. induction cls_indices as [| i rest IH]; intros p_mask; cbn [unmask_all].
  - intros Heq. injection Heq as <-. repeat split. constructor.
  - intros Hall. apply bind_Ok_inv in Hall as (m & Hm & Hall).
    apply unmask_spec in Hm as (Hi & Hlen & Hnth).
    apply IH in Hall as (Hrest & Hlen' & Hnth').
    split; [constructor; [exact Hi | rewrite <- Hlen; exact Hrest] |].
    split; [congruence |].
    intros j. rewrite Hnth', Hnth. unfold mem. cbn [existsb].
    rewrite (Nat.eqb_sym j i).
    destruct (Nat.eqb_spec i j) as [-> | Hne]; cbn [orb].
    + destruct (existsb (Nat.eqb j) rest); reflexivity.
    + reflexivity.
Qed.

Lemma mmap_nth_error {A B : Type} (f : A -> result B) (l : list A) (out : list B)
    (j : nat) (x : A) :
  mmap f l = Ok out -> nth_error l j = Some x ->
  exists y, nth_error out j = Some y /\ f x = Ok y.
Proof.
  revert out j. induction l as [| a l IH]; intros out j Hout Hj;
    [destruct j; discriminate Hj |].
  cbn [mmap] in Hout. apply bind_Ok_inv in Hout as (y & Hy & Hout).
  apply bind_Ok_inv in Hout as (ys & Hys & Hout). injection Hout as <-.
  destruct j as [| j]; cbn [nth_error] in *.
  - injection Hj as <-. exists y. split; [reflexivity | exact Hy].
  - eapply IH; eassumption.
Qed.

Lemma zip3_nth_error {A B C : Type} (a : list A) (b : list B) (c : list C) (j : nat)
    (x : A) (y : B) (z : C) :
  nth_error a j = Some x -> nth_error b j = Some y -> nth_error c j = Some z ->
  nth_error (zip3 a b c) j = Some (x, y, z).
Proof.
  revert b c j. induction a as [| x' a IH]; intros b c j Ha Hb Hc;
    [destruct j; discriminate Ha |].
  destruct b as [| y' b]; [destruct j; discriminate Hb |].
  destruct c as [| z' c]; [destruct j; discriminate Hc |].
  destruct j as [| j]; cbn [nth_error zip3] in *.
  - congruence.
  - apply IH; assumption.
Qed.

Lemma zip3_length {A B C : Type} (a : list A) (b : list B) (c : list C) :
  List.length (zip3 a b c)
  = Nat.min (List.length a) (Nat.min (List.length b) (List.length c)).
Proof.
  revert b c. induction a as [| x a IH]; intros b c; [reflexivity |].
  destruct b as [| y b]; [reflexivity |]. destruct c as [| z c]; [reflexivity |].
  cbn [zip3 List.length]. rewrite IH. reflexivity.
Qed.

Section SpanProperties.

Context `{Pipeline}.

(** X18: the mask of a chunk has one flag per sequence id of the span; the
    flag is false exactly for the tokens of the document (sequence id 1) and
    for the tokens that are the classification token, true for all others;
    and a chunk is built only if every classification token lies within the
    sequence ids. *)
Theorem preprocess_span_mask (words : list string) (boxes : list (list Z))
    (image_features : ImageFeatures) (span : Span) (chunk : Chunk) :
  preprocess_span words boxes image_features span = Ok chunk ->
  List.length (ch_p_mask chunk) = List.length (sequence_ids span)
  /\ (forall j, (j < List.length (sequence_ids span))%nat ->
                nth j (ch_p_mask chunk) true
                = negb (is_one (nth j (sequence_ids span) None))
                  && negb (token_is (input_ids span) cls_token_id j))
  /\ (forall j, token_is (input_ids span) cls_token_id j = true ->
                (j < List.length (sequence_ids span))%nat).
Proof.
  unfold preprocess_span. intros Hspan.
  apply bind_Ok_inv in Hspan as (u & _ & Hspan).
  apply bind_Ok_inv in Hspan as (p_mask & Hmask & Hspan).
  apply bind_Ok_inv in Hspan as (bbox & _ & Hspan).
  apply bind_Ok_inv in Hspan as (tensor & _ & Hspan).
  injection Hspan as <-. cbn [ch_p_mask].
  assert (Hbase : forall j, (j < List.length (sequence_ids span))%nat ->
                    nth j (map (fun tok => negb (is_one tok)) (sequence_ids span)) true
                    = negb (is_one (nth j (sequence_ids span) None))).
  { intros j Hj.
    rewrite (nth_indep _ true (negb (is_one None))) by (rewrite length_map; exact Hj).
    apply (map_nth (fun tok => negb (is_one tok))). }
  unfold token_is. destruct cls_token_id as [cid |].
  - apply unmask_all_spec in Hmask as (Hin & Hlen & Hnth).
    rewrite length_map in Hlen, Hin.
    split; [exact Hlen |]. split.
    + intros j Hj. rewrite Hnth, (Hbase j Hj).
      destruct (mem j (positions (input_ids span) cid)) eqn:Hmem.
      * apply mem_In, positions_In in Hmem. rewrite Hmem, Z.eqb_refl.
        rewrite andb_false_r. reflexivity.
      * destruct (nth_error (input_ids span) j) as [i |] eqn:Hi;
          [| rewrite andb_true_r; reflexivity].
        destruct (Z.eqb_spec i cid) as [-> | Hne]; [| rewrite andb_true_r; reflexivity].
        apply positions_In, mem_In in Hi. congruence.
    + intros j Hj. destruct (nth_error (input_ids span) j) as [i |] eqn:Hi;
        [| discriminate Hj].
      apply Z.eqb_eq in Hj. subst i. apply positions_In in Hi.
      rewrite Forall_forall in Hin. apply Hin. exact Hi.
  - injection Hmask as <-. rewrite length_map.
    split; [reflexivity |]. split.
    + intros j Hj. rewrite (Hbase j Hj), andb_true_r. reflexivity.
    + intros j Hj. discriminate Hj.
Qed.

(** X19: the [bbox] of a chunk has one box per token (as many as the
    shortest of the input ids, sequence ids and word ids); the box of a token
    of the document is the box of its word, taken from the boxes at the
    token's word index; the box of any other token is [[1000] * 4] if it is
    the separator and [[0] * 4] otherwise. *)
Theorem preprocess_span_bbox (words : list string) (boxes : list (list Z))
    (image_features : ImageFeatures) (span : Span) (chunk : Chunk) :
  preprocess_span words boxes image_features span = Ok chunk ->
  List.length (mi_bbox (ch_inputs chunk))
  = Nat.min (List.length (input_ids span))
            (Nat.min (List.length (sequence_ids span)) (List.length (word_ids span)))
  /\ forall j i s w,
       nth_error (input_ids span) j = Some i ->
       nth_error (sequence_ids span) j = Some s ->
       nth_error (word_ids span) j = Some w ->
       if is_one s then
         exists word, w = Some word
                      /\ nth_error boxes word <> None
                      /\ nth_error (mi_bbox (ch_inputs chunk)) j = nth_error boxes word
       else
         nth_error (mi_bbox (ch_inputs chunk)) j
         = Some (if token_is (input_ids span) sep_token_id j
                 then [1000; 1000; 1000; 1000] else [0; 0; 0; 0]).
Proof.
  unfold preprocess_span. intros Hspan.
  apply bind_Ok_inv in Hspan as (u & _ & Hspan).
  apply bind_Ok_inv in Hspan as (p_mask & _ & Hspan).
  apply bind_Ok_inv in Hspan as (bbox & Hbbox & Hspan).
  apply bind_Ok_inv in Hspan as (tensor & Htensor & Hspan).
  apply torch_tensor_Ok_inv in Htensor as ->.
  injection Hspan as <-. cbn [ch_inputs mi_bbox]. split.
  - rewrite (mmap_length _ _ _ Hbbox). apply zip3_length.
  - intros j i s w Hi Hs Hw.
    pose proof (zip3_nth_error _ _ _ _ _ _ _ Hi Hs Hw) as Hz.
    destruct (mmap_nth_error _ _ _ _ _ Hbbox Hz) as (b & Hb & Hf).
    cbn beta iota in Hf. unfold token_is. rewrite Hi.
    destruct (is_one s).
    + destruct w as [word |]; [| discriminate Hf]. exists word.
      unfold index in Hf. destruct (nth_error boxes word) as [b' |]; [| discriminate Hf].
      injection Hf as <-. repeat split; [discriminate | exact Hb].
    + rewrite Hb. destruct sep_token_id as [sep |].
      * destruct (i =? sep); injection Hf as <-; reflexivity.
      * injection Hf as <-. reflexivity.
Qed.

(** X20: under a framework other than "pt" no span is turned into a chunk:
    [preprocess_span] raises the "Unsupported: Tensorflow preprocessing"
    [ValueError] on every span, so the generator yields nothing and stops
    with that exception at the first span, if there is one. *)
Theorem preprocess_span_needs_pt (words : list string) (boxes : list (list Z))
    (image_features : ImageFeatures) (encoding : list Span) :
  (framework =? "pt")%string = false ->
  fst (generate (preprocess_span words boxes image_features) encoding) = []
  /\ (encoding <> [] ->
      snd (generate (preprocess_span words boxes image_features) encoding)
      = Some (ValueError
                "Unsupported: Tensorflow preprocessing for DocumentQuestionAnsweringPipeline")).
Proof.
  intros Hfw. destruct encoding as [| span rest]; [split; [reflexivity | contradiction] |].
  cbn [generate]. unfold preprocess_span at 1 3. rewrite Hfw. cbn [bind fst snd].
  split; [reflexivity | intros _; reflexivity].
Qed.

End SpanProperties.

Lemma preprocess_span_mask_witness :
  exists chunk,
    List.length (ch_p_mask chunk) = List.length (sequence_ids Spans.paris_span)
    /\ (forall j, (j < List.length (sequence_ids Spans.paris_span))%nat ->
                  nth j (ch_p_mask chunk) true
                  = negb (is_one (nth j (sequence_ids Spans.paris_span) None))
                    && negb (token_is (input_ids Spans.paris_span)
                               (@cls_token_id Examples.toy_tokenizer) j))
    /\ (forall j, token_is (input_ids Spans.paris_span)
                    (@cls_token_id Examples.toy_tokenizer) j = true ->
                  (j < List.length (sequence_ids Spans.paris_span))%nat).
Proof.
  eexists.
  eapply (@preprocess_span_mask Examples.pil (Examples.pipeline 3 3)
            ["Paris"] [[270; 10; 330; 20]] no_features Spans.paris_span).
  vm_compute. reflexivity.
Defined.

Lemma preprocess_span_bbox_witness :
  exists chunk,
    List.length (mi_bbox (ch_inputs chunk))
    = Nat.min (List.length (input_ids Spans.paris_span))
              (Nat.min (List.length (sequence_ids Spans.paris_span))
                       (List.length (word_ids Spans.paris_span)))
    /\ forall j i s w,
         nth_error (input_ids Spans.paris_span) j = Some i ->
         nth_error (sequence_ids Spans.paris_span) j = Some s ->
         nth_error (word_ids Spans.paris_span) j = Some w ->
         if is_one s then
           exists word, w = Some word
                        /\ nth_error [[270; 10; 330; 20]] word <> None
                        /\ nth_error (mi_bbox (ch_inputs chunk)) j
                           = nth_error [[270; 10; 330; 20]] word
         else
           nth_error (mi_bbox (ch_inputs chunk)) j
           = Some (if token_is (input_ids Spans.paris_span)
                        (@sep_token_id Examples.toy_tokenizer) j
                   then [1000; 1000; 1000; 1000] else [0; 0; 0; 0]).
Proof.
  eexists.
  eapply (@preprocess_span_bbox Examples.pil (Examples.pipeline 3 3)
            ["Paris"] [[270; 10; 330; 20]] no_features Spans.paris_span).
  vm_compute. reflexivity.
Defined.

Lemma preprocess_span_needs_pt_witness :
  fst (generate (@preprocess_span Examples.pil Spans.tf_pipeline
                   ["Paris"] [[270; 10; 330; 20]] no_features) [Spans.paris_span]) = []
  /\ ([Spans.paris_span] <> [] ->
      snd (generate (@preprocess_span Examples.pil Spans.tf_pipeline
                       ["Paris"] [[270; 10; 330; 20]] no_features) [Spans.paris_span])
      = Some (ValueError
                "Unsupported: Tensorflow preprocessing for DocumentQuestionAnsweringPipeline")).
Proof.
  apply (@preprocess_span_needs_pt Examples.pil Spans.tf_pipeline
           ["Paris"] [[270; 10; 330; 20]] no_features [Spans.paris_span]).
  reflexivity.
Defined.

(** A classification token beyond the sequence ids makes the span raise. *)
Example preprocess_span_short_sequence_ids :
  @preprocess_span Examples.pil (Examples.pipeline 3 3) ["Paris"] [[270; 10; 330; 20]]
    no_features short_span
  = Raise IndexError.
Proof. vm_compute. reflexivity. Qed.

Example paris_span_from_tokenizer :
  @tokenize Examples.toy_tokenizer ["Where?"] ["Paris"] "do_not_pad" 512 128
  = [Spans.paris_span].
Proof. vm_compute. reflexivity. Qed.

(** ** The forward pass *)

Section ForwardProperties.

Context `{Pipeline}.


End ForwardProperties.

(** ** Postprocessing: errors and provenance of the answers *)

Section PostprocessEdgeCases.

Context `{QAHelpers}.

Lemma postprocess_spans_cases (words : list string) (word_ids : list (option nat))
    (sel : list (nat * nat * Q)) (answers : list Answer) :
  in_range word_ids sel
  /\ postprocess_spans words word_ids sel answers
     = Ok (answers ++ surviving words word_ids sel)
  \/ ~ in_range word_ids sel
     /\ postprocess_spans words word_ids sel answers = Raise IndexError.
Proof.
  revert answers. induction sel as [| [[s e] sc] sel IH]; intros answers.
  - left. split; [constructor |]. cbn. rewrite app_nil_r. reflexivity.
  - cbn [postprocess_spans]. unfold index.
    destruct (nth_error word_ids s) as [ws |] eqn:Hs.
    + destruct (nth_error word_ids e) as [we |] eqn:He.
      * assert (Hhead : (s < List.length word_ids)%nat /\ (e < List.length word_ids)%nat)
          by (split; apply nth_error_Some; congruence).
        cbn [bind surviving flat_map]. rewrite Hs, He.
        destruct ws as [ws |], we as [we |];
          match goal with
          | |- context [postprocess_spans _ _ _ ?acc] =>
              destruct (IH acc) as [[Hr Heq] | [Hr Heq]]
          end;
          try (left; split; [constructor; assumption |];
               rewrite Heq, <- ?app_assoc; reflexivity);
          right; (split; [intros Hall; apply Forall_inv_tail in Hall; contradiction
                         | exact Heq]).
      * right. split; [| reflexivity].
        intros Hall. apply Forall_inv in Hall as [_ Hlt].
        apply nth_error_None in He. lia.
    + right. split; [| reflexivity].
      intros Hall. apply Forall_inv in Hall as [Hlt _].
      apply nth_error_None in Hs. lia.
Qed.

Lemma postprocess_outputs_cases (model_outputs : list ModelOutput) (top_k : Z)
    (h : bool) (max_answer_len : Z) (m : Q) (answers : list Answer) :
  (exists m' more,
      postprocess_outputs model_outputs top_k h max_answer_len m answers
      = Ok (m', answers ++ more)
      /\ forall a, In a more ->
           exists output m0,
             In output model_outputs
             /\ In a (surviving (out_words output) (out_word_ids output)
                        (fst (selected output m0 top_k h max_answer_len))))
  \/ postprocess_outputs model_outputs top_k h max_answer_len m answers
     = Raise IndexError.
Proof.
  revert m answers. induction model_outputs as [| output rest IH]; intros m answers.
  - left. exists m, []. cbn. rewrite app_nil_r. split; [reflexivity | contradiction].
  - cbn [postprocess_outputs].
    pose proof (eq_refl (selected output m top_k h max_answer_len)) as Hsel.
    unfold selected at 1 in Hsel.
    destruct (select_starts_ends (out_start_logits output) (out_end_logits output)
                (out_p_mask output) (out_attention_mask output) m top_k h max_answer_len)
      as [[[starts ends] scores] m1].
    destruct (postprocess_spans_cases (out_words output) (out_word_ids output)
                (zip3 starts ends scores) answers) as [[_ Heq] | [_ Heq]];
      rewrite Heq; cbn [bind]; [| right; reflexivity].
    destruct (IH m1 (answers ++ surviving (out_words output) (out_word_ids output)
                       (zip3 starts ends scores)))
      as [(m' & more & Hrun & Hmore) | Hraise]; [| right; exact Hraise].
    left. exists m', (surviving (out_words output) (out_word_ids output)
                        (zip3 starts ends scores) ++ more).
    rewrite Hrun, app_assoc. split; [reflexivity |].
    intros a Ha. apply in_app_or in Ha as [Ha | Ha].
    + exists output, m. rewrite <- Hsel. split; [left; reflexivity | exact Ha].
    + destruct (Hmore a Ha) as (o & m0 & Ho & Hin).
      exists o, m0. split; [right; exact Ho | exact Hin].
Qed.

Lemma surviving_In (words : list string) (word_ids : list (option nat))
    (sel : list (nat * nat * Q)) (a : Answer) :
  In a (surviving words word_ids sel) ->
  exists s e sc,
    In (s, e, sc) sel
    /\ nth_error word_ids s = Some (Some (start a))
    /\ nth_error word_ids e = Some (Some (end_ a))
    /\ score a = sc
    /\ answer a = String.concat " " (slice words (start a) (end_ a + 1)).
Proof.
  unfold surviving. intros Ha. apply in_flat_map in Ha as ([[s e] sc] & Hsel & Ha).
  exists s, e, sc. split; [exact Hsel |].
  destruct (nth_error word_ids s) as [[ws |] |]; try contradiction.
  destruct (nth_error word_ids e) as [[we |] |]; try contradiction.
  destruct Ha as [<- | []]. repeat split.
Qed.

Lemma take_In {A : Type} (k : Z) (l : list A) (a : A) : In a (take k l) -> In a l.
Proof.
  unfold take.
  destruct (0 <=? k); intros Ha;
    match type of Ha with
    | In _ (firstn ?n _) => rewrite <- (firstn_skipn n l)
    end; apply in_or_app; left; exact Ha.
Qed.


(** X23: [postprocess] invents nothing: every answer it returns is either
    the no-answer record (start 0, end 0, empty text; only when
    [handle_impossible_answer] is set) or comes from one span that was
    selected for one of the outputs, both of whose boundary tokens belong to
    words: its start and end are the word indices of the two tokens, its
    score is the score of the span, and its text is the words from start to
    end joined by single spaces. *)
Theorem postprocess_answers_come_from_selected_spans
    (model_outputs : list ModelOutput) (top_k : Z) (h : bool) (max_answer_len : Z)
    (r : Answers) (a : Answer) :
  postprocess model_outputs top_k h max_answer_len = Ok r ->
  In a (answers_of r) ->
  (h = true /\ answer a = "" /\ start a = 0%nat /\ end_ a = 0%nat)
  \/ exists output m s e,
       In output model_outputs
       /\ In (s, e, score a) (fst (selected output m top_k h max_answer_len))
       /\ nth_error (out_word_ids output) s = Some (Some (start a))
       /\ nth_error (out_word_ids output) e = Some (Some (end_ a))
       /\ answer a
          = String.concat " " (slice (out_words output) (start a) (end_ a + 1)).
Proof.
  unfold postprocess. intros Hrun Ha.
  destruct (postprocess_outputs_cases model_outputs top_k h max_answer_len
              1000000%Q []) as [(m' & more & Hloop & Hmore) | Hraise];
    [| rewrite Hraise in Hrun; discriminate Hrun].
  rewrite Hloop in Hrun. cbn [bind app] in Hrun.
  set (ranked := take top_k (sorted_desc _)) in Hrun.
  assert (Hin : In a ranked).
  { destruct (List.length ranked =? 1)%nat.
    - destruct ranked as [| b rest] eqn:Hr; injection Hrun as <-;
        [contradiction | destruct Ha as [<- | []]; left; reflexivity].
    - injection Hrun as <-. exact Ha. }
  unfold ranked in Hin. apply take_In in Hin.
  apply (Permutation_in _ (sorted_desc_perm _)) in Hin.
  assert (Hcases : In a more \/ h = true /\ a = null_answer m').
  { destruct h.
    - apply in_app_or in Hin as [Hin | [<- | []]]; [left; exact Hin |].
      right. split; reflexivity.
    - left. exact Hin. }
  destruct Hcases as [Hin' | [Hh ->]]; [| left; repeat split; exact Hh].
  right. destruct (Hmore a Hin') as (output & m0 & Hout & Hsurv).
  apply surviving_In in Hsurv as (s & e & sc & Hsel & Hs & He & Hsc & Htext).
  exists output, m0, s, e. rewrite Hsc. repeat split; assumption.
Qed.

End PostprocessEdgeCases.


Lemma postprocess_answers_come_from_selected_spans_witness :
  (false = true /\ answer Outputs.paris = "" /\ start Outputs.paris = 0%nat
   /\ end_ Outputs.paris = 0%nat)
  \/ exists output m s e,
       In output [Examples.one_word_output]
       /\ In (s, e, score Outputs.paris)
             (fst (@selected Examples.pil Examples.helpers output m 1 false 15))
       /\ nth_error (out_word_ids output) s = Some (Some (start Outputs.paris))
       /\ nth_error (out_word_ids output) e = Some (Some (end_ Outputs.paris))
       /\ answer Outputs.paris
          = String.concat " " (slice (out_words output) (start Outputs.paris)
                                 (end_ Outputs.paris + 1)).
Proof.
  apply (@postprocess_answers_come_from_selected_spans Examples.pil Examples.helpers
           [Examples.one_word_output] 1 false 15 (Single Outputs.paris)).
  - vm_compute. reflexivity.
  - left. reflexivity.
Defined.

(** ** Postprocessing: ties, slicing and the no-answer record *)

Lemma filter_none {A : Type} (f : A -> bool) (l : list A) :
  (forall x, In x l -> f x = false) -> filter f l = [].
Proof.
  induction l as [| x l IH]; intros Hall; [reflexivity |].
  cbn [filter]. rewrite (Hall x (or_introl eq_refl)).
  apply IH. intros y Hy. apply Hall. right. exact Hy.
Qed.

Lemma insert_desc_same_score (q : Q) (a : Answer) (l : list Answer) :
  StronglySorted ge_score l ->
  filter (same_score q) (insert_desc a l)
  = filter (same_score q) l ++ filter (same_score q) [a].
Proof.
  induction l as [| b l IH]; intros Hs; [reflexivity |].
  apply StronglySorted_inv in Hs as [Hs Hb].
  cbn [insert_desc]. destruct (Qle_bool (score a) (score b)) eqn:Hab.
  - cbn [filter]. rewrite (IH Hs).
    destruct (same_score q b); reflexivity.
  - change (filter (same_score q) (a :: b :: l))
      with (if same_score q a then a :: filter (same_score q) (b :: l)
            else filter (same_score q) (b :: l)).
    change (filter (same_score q) [a])
      with (if same_score q a then [a] else []).
    destruct (same_score q a) eqn:Ha; [| rewrite app_nil_r; reflexivity].
    rewrite (filter_none (same_score q) (b :: l)); [reflexivity |].
    intros c Hc. destruct (same_score q c) eqn:Hcq; [| reflexivity].
    exfalso. unfold same_score in Ha, Hcq.
    apply Qeq_bool_iff in Ha. apply Qeq_bool_iff in Hcq.
    assert (Hcb : (score c <= score b)%Q).
    { destruct Hc as [<- | Hc]; [apply Qle_refl |].
      rewrite Forall_forall in Hb. apply (Hb c Hc). }
    assert (Hle : (score a <= score b)%Q).
    { rewrite Ha, <- Hcq. exact Hcb. }
    apply Qle_bool_iff in Hle. congruence.
Qed.

Lemma fold_insert_desc_same_score (q : Q) (l acc : list Answer) :
  StronglySorted ge_score acc ->
  filter (same_score q) (fold_left (fun acc a => insert_desc a acc) l acc)
  = filter (same_score q) acc ++ filter (same_score q) l.
Proof.
  revert acc. induction l as [| a l IH]; intros acc Hs.
  - cbn. rewrite app_nil_r. reflexivity.
  - cbn [fold_left]. rewrite (IH _ (insert_desc_sorted a acc Hs)).
    rewrite (insert_desc_same_score q a acc Hs), <- app_assoc.
    cbn [filter]. destruct (same_score q a); reflexivity.
Qed.

Lemma sorted_desc_same_score (q : Q) (l : list Answer) :
  filter (same_score q) (sorted_desc l) = filter (same_score q) l.
Proof.
  unfold sorted_desc. apply (fold_insert_desc_same_score q l []). constructor.
Qed.

Section PostprocessRanking.

Context `{QAHelpers}.

(** X24: the ranking of [postprocess] is stable: the answers returned are
    the first [top_k] of a list in which, for every score, the candidates of
    that score stand in the order in which the chunks produced them, the
    no-answer record after the others. *)
Theorem postprocess_keeps_order_of_ties (model_outputs : list ModelOutput)
    (top_k : Z) (h : bool) (max_answer_len : Z) :
  well_formed model_outputs top_k h max_answer_len ->
  0 <= top_k ->
  exists r ranked,
    postprocess model_outputs top_k h max_answer_len = Ok r
    /\ answers_of r = firstn (Z.to_nat top_k) ranked
    /\ forall q, filter (same_score q) ranked
                 = filter (same_score q)
                     (candidates model_outputs top_k h max_answer_len).
Proof.
  intros Hwf Hk.
  destruct (postprocess_result model_outputs top_k h max_answer_len Hwf)
    as (r & Hr & Hans & _).
  exists r, (sorted_desc (candidates model_outputs top_k h max_answer_len)).
  split; [exact Hr |]. split.
  - rewrite Hans. apply take_nonneg. exact Hk.
  - intros q. apply sorted_desc_same_score.
Qed.

(** X25: [postprocess] does not check [top_k]; a [top_k] that is not
    positive is used as a slice bound as it is.  With [top_k = 0] the result
    is the empty list, and with a negative [top_k] the last [-top_k]
    candidates of the ranking are dropped. *)
Theorem postprocess_nonpositive_top_k (model_outputs : list ModelOutput)
    (top_k : Z) (h : bool) (max_answer_len : Z) :
  well_formed model_outputs top_k h max_answer_len ->
  top_k <= 0 ->
  exists r,
    postprocess model_outputs top_k h max_answer_len = Ok r
    /\ answers_of r
       = firstn (sliced_length
                   (List.length (candidates model_outputs top_k h max_answer_len))
                   top_k)
                (sorted_desc (candidates model_outputs top_k h max_answer_len))
    /\ (top_k = 0 -> r = Many []).
Proof.
  intros Hwf Hk.
  destruct (postprocess_result model_outputs top_k h max_answer_len Hwf)
    as (r & Hr & Hans & Hshape).
  exists r. split; [exact Hr |].
  assert (Hslice : answers_of r
                   = firstn (sliced_length
                               (List.length
                                  (candidates model_outputs top_k h max_answer_len))
                               top_k)
                       (sorted_desc (candidates model_outputs top_k h max_answer_len))).
  { rewrite Hans. unfold take, sliced_length. rewrite sorted_desc_length.
    destruct (Z.leb_spec 0 top_k) as [Hle | Hlt].
    - assert (top_k = 0) as -> by lia. reflexivity.
    - destruct (Z.eqb_spec top_k 0) as [-> | _]; [lia | reflexivity]. }
  split; [exact Hslice |].
  intros ->. unfold sliced_length in Hslice. cbn [Z.eqb firstn] in Hslice.
  destruct r as [a | l]; [discriminate Hslice | cbn in Hslice; subst l; reflexivity].
Qed.

(** X26: with [handle_impossible_answer] set and [top_k] at least 1,
    [postprocess] always returns at least one answer; when no span of any
    chunk survives, it returns the no-answer record alone, as a single
    record and not as a list. *)
Theorem postprocess_impossible_answer_is_never_empty
    (model_outputs : list ModelOutput) (top_k : Z) (max_answer_len : Z) :
  well_formed model_outputs top_k true max_answer_len ->
  1 <= top_k ->
  exists r,
    postprocess model_outputs top_k true max_answer_len = Ok r
    /\ (1 <= List.length (answers_of r))%nat
    /\ (merged model_outputs top_k true max_answer_len 1000000%Q = [] ->
        r = Single (null_answer
                      (final_null_score model_outputs top_k true max_answer_len
                         1000000%Q))).
Proof.
  intros Hwf Hk.
  destruct (postprocess_result model_outputs top_k true max_answer_len Hwf)
    as (r & Hr & Hans & Hshape).
  exists r. split; [exact Hr |].
  rewrite take_nonneg in Hans by lia. split.
  - rewrite Hans, length_firstn, sorted_desc_length. unfold candidates.
    rewrite length_app. cbn [List.length]. lia.
  - intros Hnone. unfold candidates in Hans. rewrite Hnone in Hans.
    cbn [app] in Hans.
    change (sorted_desc [?x]) with [x] in Hans.
    destruct (Z.to_nat top_k) as [| n] eqn:Hn; [lia |].
    cbn [firstn] in Hans. rewrite firstn_nil in Hans.
    destruct (proj2 Hshape) as [a ->]; [rewrite Hans; reflexivity |].
    cbn in Hans. injection Hans as ->. reflexivity.
Qed.

End PostprocessRanking.

Lemma postprocess_keeps_order_of_ties_witness :
  exists r ranked,
    @postprocess Examples.pil Examples.helpers
      [Examples.france_output 12 13; Examples.france_output 12 13] 2 false 15 = Ok r
    /\ answers_of r = firstn (Z.to_nat 2) ranked
    /\ forall q, filter (same_score q) ranked
                 = filter (same_score q)
                     (@candidates Examples.pil Examples.helpers
                        [Examples.france_output 12 13; Examples.france_output 12 13]
                        2 false 15).
Proof.
  apply (@postprocess_keeps_order_of_ties Examples.pil Examples.helpers
           [Examples.france_output 12 13; Examples.france_output 12 13] 2 false 15).
  - constructor; [intros m; vm_compute; repeat constructor |].
    constructor; [intros m; vm_compute; repeat constructor | constructor].
  - lia.
Defined.

Lemma postprocess_nonpositive_top_k_witness :
  exists r,
    @postprocess Examples.pil Examples.helpers [Examples.one_word_output] (-1) true 15
    = Ok r
    /\ answers_of r
       = firstn (sliced_length
                   (List.length
                      (@candidates Examples.pil Examples.helpers
                         [Examples.one_word_output] (-1) true 15))
                   (-1))
                (sorted_desc
                   (@candidates Examples.pil Examples.helpers
                      [Examples.one_word_output] (-1) true 15))
    /\ (-1 = 0 -> r = Many []).
Proof.
  apply (@postprocess_nonpositive_top_k Examples.pil Examples.helpers
           [Examples.one_word_output] (-1) true 15).
  - constructor; [intros m; vm_compute; repeat constructor | constructor].
  - lia.
Defined.

Lemma postprocess_impossible_answer_is_never_empty_witness :
  exists r,
    @postprocess Examples.pil Examples.helpers [Examples.no_word_output] 1 true 15 = Ok r
    /\ (1 <= List.length (answers_of r))%nat
    /\ (@merged Examples.pil Examples.helpers [Examples.no_word_output] 1 true 15
          1000000%Q = [] ->
        r = Single (null_answer
                      (@final_null_score Examples.pil Examples.helpers
                         [Examples.no_word_output] 1 true 15 1000000%Q))).
Proof.
  apply (@postprocess_impossible_answer_is_never_empty Examples.pil Examples.helpers
           [Examples.no_word_output] 1 15).
  - constructor; [intros m; vm_compute; repeat constructor | constructor].
  - lia.
Defined.

Example ties_keep_chunk_order :
  @postprocess Examples.pil Examples.helpers
    [Examples.document_output 1 ["Paris"; "Lyon"] 3 3;
     Examples.document_output 1 ["Rome"; "Oslo"] 3 3] 2 false 15
  = Ok (Many [{| score := 10; answer := "Paris"; start := 0; end_ := 0 |};
              {| score := 10; answer := "Rome"; start := 0; end_ := 0 |}]).
Proof. vm_compute. reflexivity. Qed.

Example no_word_output_has_no_span :
  @merged Examples.pil Examples.helpers [Examples.no_word_output] 1 true 15 1000000%Q
  = [].
Proof. vm_compute. reflexivity. Qed.
